(** * fundus_img_xtract: archive ingestion and report text mining

    A shallow embedding of [main.py], [ocr.py] and [models.py].

    Python [str] values are modelled as [string], a sequence of 8-bit code
    points (Latin-1); [bytes] as [list byte]; [pathlib.Path] as the POSIX
    flavour; the relational store as one list of rows per table of
    [models.py]; the five working directories as finite maps from a file
    name to its contents. *)

From Stdlib Require Import String Ascii Strings.Byte QArith.
From stdpp Require Import gmap strings list.

Local Open Scope string_scope.
Local Open Scope list_scope.
Local Open Scope nat_scope.

(** ** Python string primitives *)

Module Str.

(** [str.isspace] on one code point below 256; the class [\s] of [re]
    on text patterns is the same set. *)
Definition isspace (c : ascii) : bool :=
  let n := nat_of_ascii c in
  ((9 <=? n) && (n <=? 13)) || ((28 <=? n) && (n <=? 32))
  || (n =? 133) || (n =? 160).

(** [str.lower] on one code point below 256. *)
Definition lower_char (c : ascii) : ascii :=
  let n := nat_of_ascii c in
  if ((65 <=? n) && (n <=? 90))
     || ((192 <=? n) && (n <=? 222) && negb (n =? 215))
  then ascii_of_nat (n + 32) else c.

Fixpoint lower (s : string) : string :=
  match s with
  | EmptyString => EmptyString
  | String c s' => String (lower_char c) (lower s')
  end.

(** [s.split(sep)] for a one-character separator: never empty. *)
Fixpoint split (sep : ascii) (s : string) : list string :=
  match s with
  | EmptyString => [EmptyString]
  | String c s' =>
      if Ascii.eqb c sep then EmptyString :: split sep s'
      else match split sep s' with
           | h :: t => String c h :: t
           | [] => [String c EmptyString]
           end
  end.

(** [sep.join(l)]. *)
Fixpoint join (sep : string) (l : list string) : string :=
  match l with
  | [] => EmptyString
  | [x] => x
  | x :: xs => x +:+ sep +:+ join sep xs
  end.

(** [s.replace(a, b)] for one-character [a] and [b]. *)
Fixpoint replace (a b : ascii) (s : string) : string :=
  match s with
  | EmptyString => EmptyString
  | String c s' => String (if Ascii.eqb c a then b else c) (replace a b s')
  end.

Fixpoint lstrip_by (p : ascii -> bool) (s : string) : string :=
  match s with
  | EmptyString => EmptyString
  | String c s' => if p c then lstrip_by p s' else s
  end.

Fixpoint rstrip_by (p : ascii -> bool) (s : string) : string :=
  match s with
  | EmptyString => EmptyString
  | String c s' =>
      match rstrip_by p s' with
      | EmptyString => if p c then EmptyString else String c EmptyString
      | r => String c r
      end
  end.

(** [s.strip()], [s.rstrip(c)]. *)
Definition strip (s : string) : string := rstrip_by isspace (lstrip_by isspace s).
Definition rstrip (c : ascii) (s : string) : string := rstrip_by (Ascii.eqb c) s.

(** [s.startswith(p)]. *)
Definition startswith (s p : string) : bool := String.prefix p s.

(** [sub in s]. *)
Fixpoint contains (sub s : string) : bool :=
  String.prefix sub s
  || match s with
     | EmptyString => false
     | String _ s' => contains sub s'
     end.

(** [s.rfind(c)] for one character, [None] for -1. *)
Fixpoint rfind (c : ascii) (s : string) : option nat :=
  match s with
  | EmptyString => None
  | String a s' =>
      match rfind c s' with
      | Some i => Some (S i)
      | None => if Ascii.eqb a c then Some 0 else None
      end
  end.

(** [s[i:]]. *)
Fixpoint drop (i : nat) (s : string) : string :=
  match i, s with
  | S i', String _ s' => drop i' s'
  | _, _ => s
  end.

Definition has_char (c : ascii) (s : string) : bool :=
  existsb (Ascii.eqb c) (list_ascii_of_string s).

End Str.

(** ** Python list indexing *)

Module PyList.

(** [l[-k]] for [k >= 1]: [None] stands for [IndexError]. *)
Definition nth_back {A} (l : list A) (k : nat) : option A :=
  if (1 <=? k) && (k <=? length l) then l !! (length l - k) else None.

(** [l[:-k]]. *)
Definition drop_back {A} (l : list A) (k : nat) : list A :=
  take (length l - k) l.

End PyList.

(** ** pathlib, POSIX flavour *)

Module PurePath.

Record t : Type := mk { root : string; segs : list string }.

Definition keep_seg (s : string) : bool :=
  negb (String.eqb s "") && negb (String.eqb s ".").

(** One leading slash or three and more give the root [/], exactly two
    give [//]. *)
Definition splitroot (s : string) : string :=
  match s with
  | String "/" (String "/" (String "/" _)) => "/"
  | String "/" (String "/" _) => "//"
  | String "/" _ => "/"
  | _ => ""
  end.

(** [Path(s)]: empty and [.] components are dropped, [..] is kept. *)
Definition Path (s : string) : t :=
  {| root := splitroot s; segs := List.filter keep_seg (Str.split "/" s) |}.

(** [p.parts]: the root, when there is one, comes first. *)
Definition parts (p : t) : list string :=
  if String.eqb (root p) "" then segs p else root p :: segs p.

(** [p.parent]: a path without components is its own parent. *)
Definition parent (p : t) : t :=
  {| root := root p; segs := PyList.drop_back (segs p) 1 |}.

(** [p.name]: the final component, empty when there is none. *)
Definition name (p : t) : string := List.last (segs p) "".

(** [str(p)]. *)
Definition str (p : t) : string :=
  match root p, segs p with
  | EmptyString, [] => "."
  | r, l => r +:+ Str.join "/" l
  end.

(** [p.suffix]: from the last dot of the name, unless that dot is the
    first or the last character. *)
Definition suffix (p : t) : string :=
  let n := name p in
  match Str.rfind "." n with
  | Some i => if (0 <? i) && (i <? String.length n - 1) then Str.drop i n else ""
  | None => ""
  end.

#[global] Instance t_eq_dec : EqDecision t.
Proof. solve_decision. Defined.

End PurePath.

(** ** The store of [models.py] *)

Abbreviation bytes := (list byte).

(** One record per mapped class; the [id] columns are the primary keys. *)
Record ZipFile : Type := mkZipFile {
  zf_id : nat;
  zip_filename : string;
  md5_hash : string }.

Record PatientEncounters : Type := mkPatientEncounters {
  pe_id : nat;
  zip_file_id : nat;
  pe_name : string;
  patient_id : string;
  capture_date : string }.

Record EncounterFile : Type := mkEncounterFile {
  ef_id : nat;
  patient_encounter_id : nat;
  filename : string;
  file_type : string;
  ocr_processed : bool }.

Record DiabeticRetinopathyReport : Type := mkDiabeticRetinopathyReport {
  dr_id : nat;
  dr_patient_encounter_id : nat;
  dr_result : string }.

Record GlaucomaReport : Type := mkGlaucomaReport {
  gl_id : nat;
  gl_patient_encounter_id : nat;
  vcdr_right : option Q;
  vcdr_left : option Q;
  gl_result : string }.

Record DB : Type := mkDB {
  zip_files : list ZipFile;
  patient_encounters : list PatientEncounters;
  encounter_files : list EncounterFile;
  diabetic_retinopathy_reports : list DiabeticRetinopathyReport;
  glaucoma_reports : list GlaucomaReport }.

Definition empty_db : DB := mkDB [] [] [] [] [].

(** The key an integer primary key gets on insertion: one more than the
    largest key of the table. *)
Definition next_id (ids : list nat) : nat := S (foldr Nat.max 0 ids).
Arguments next_id : simpl never.

(** The exceptions the two scripts can meet. *)
Inductive exn : Type :=
  | BadZipFile
  | ValueError (msg : string)
  | IndexError
  | IntegrityError
  | FileNotFoundError
  | OSError
  | RuntimeError.

(** The five working directories and the committed store. *)
Record World : Type := mkWorld {
  db : DB;
  UPLOAD_DIR : gmap string bytes;
  IMAGE_DIR : gmap string bytes;
  PDF_DIR : gmap string bytes;
  PROCESSED_DIR : gmap string bytes;
  PROCESSING_ERROR_DIR : gmap string bytes }.

(** ** What the archive script takes from its libraries *)

(** What [zf.open(member)] followed by [read()] comes to: the open
    raises, the read raises, or the bytes of the member. *)
Inductive member_read : Type :=
  | open_raises
  | read_raises
  | read_ok (data : bytes).

(** A member of an archive: [ZipInfo.filename] and what reading it
    gives. *)
Record ZipInfo : Type := mkZipInfo {
  zi_filename : string;
  zi_read : member_read }.

(** The two directories extracted files go to. *)
Inductive dest : Type := to_images | to_pdfs.

Class Runtime : Type := {
  (** [hashlib.md5] folded over the chunks of a file, then [hexdigest]. *)
  md5_hexdigest : bytes -> string;
  (** [zipfile.ZipFile(path).infolist()], [None] for [BadZipFile]. *)
  zip_infolist : bytes -> option (list ZipInfo);
  (** Whether [open(dest_dir / name, "wb")] succeeds: a file system
      refuses some names, for instance one longer than its [NAME_MAX],
      with an [OSError]. *)
  can_create : dest -> string -> bool;
  (** The order in which a set built from a sequence is enumerated: every
      element once, in an order the language does not fix. *)
  set_iter : list PurePath.t -> list PurePath.t;
  set_iter_perm : forall l, set_iter l ≡ₚ remove_dups l }.

(** ** A state and exception monad

    [St] is what the code mutates; an exception leaves the state as it
    was when it was raised. *)

Definition M (St A : Type) : Type := St -> St * (exn + A).

Definition ret {St A} (a : A) : M St A := fun w => (w, inr a).
Definition raise {St A} (e : exn) : M St A := fun w => (w, inl e).
Definition bind {St A B} (m : M St A) (k : A -> M St B) : M St B :=
  fun w => match m w with
           | (w', inr a) => k a w'
           | (w', inl e) => (w', inl e)
           end.
Definition get {St} : M St St := fun w => (w, inr w).
Definition modify {St} (f : St -> St) : M St unit := fun w => (f w, inr tt).
Definition try_except {St A} (m : M St A) (h : exn -> M St A) : M St A :=
  fun w => match m w with
           | (w', inr a) => (w', inr a)
           | (w', inl e) => h e w'
           end.
Definition require {St A} (o : option A) (e : exn) : M St A :=
  match o with Some a => ret a | None => raise e end.

Notation "'let*' x ':=' c 'in' k" := (bind c (fun x => k))
  (at level 10, x name, c at level 100, k at level 200).
Notation "c ';;' k" := (bind c (fun _ => k))
  (at level 100, k at level 200, right associativity).

(** ** [main.py] *)

Section Archive.
Context `{Runtime}.

(** [calculate_md5]: the digest of the whole content of the file. *)
Definition calculate_md5 (content : bytes) : string := md5_hexdigest content.

(** Lines 74-79: the first prefix of the parts of one directory whose
    joined text splits on underscores into three parts or more. *)
Definition test_prefix (ps : list string) (i : nat) : option PurePath.t :=
  let test_path_str := Str.join "/" (take (S i) ps) in
  let dir_parts := Str.split "_" test_path_str in
  if 3 <=? length dir_parts then Some (PurePath.Path test_path_str) else None.

Fixpoint first_some {A B} (f : A -> option B) (l : list A) : option B :=
  match l with
  | [] => None
  | x :: l' => match f x with Some y => Some y | None => first_some f l' end
  end.

Definition scan_prefixes (current_path : PurePath.t) : option PurePath.t :=
  let ps := PurePath.parts current_path in
  first_some (test_prefix ps) (seq 0 (length ps)).

(** Lines 69-81. *)
Definition find_dir_in_zip (namelist : list string) : option PurePath.t :=
  let all_dirs := set_iter (map (fun p => PurePath.parent (PurePath.Path p)) namelist) in
  first_some scan_prefixes all_dirs.

(** Lines 86-89, [None] for the [IndexError] of a negative index. *)
Definition parse_dir_name (dir_name : string) : option (string * string * string) :=
  let dir_parts := Str.split "_" (Str.rstrip "/" dir_name) in
  match PyList.nth_back dir_parts 1, PyList.nth_back dir_parts 2 with
  | Some capture_date, Some patient_id =>
      Some (Str.join " " (PyList.drop_back dir_parts 2), patient_id, capture_date)
  | _, _ => None
  end.

(** Line 107. *)
Definition new_filename (patient_id name capture_date : string)
    (original_filepath : PurePath.t) : string :=
  patient_id +:+ "_" +:+ Str.replace " " "_" name +:+ "_" +:+ capture_date
  +:+ "_" +:+ Str.replace "/" "_" (PurePath.name original_filepath).

(** Lines 109-114: the destination and the kind, [None] for a skipped
    extension. *)
Definition classify (file_ext : string) : option (dest * string) :=
  if bool_decide (file_ext ∈ [".jpg"; ".jpeg"; ".png"; ".gif"; ".bmp"])
  then Some (to_images, "image")
  else if String.eqb file_ext ".pdf" then Some (to_pdfs, "pdf")
  else None.

(** [ZipInfo.is_dir]. *)
Definition is_dir (member_info : ZipInfo) : bool :=
  match Str.rfind "/" (zi_filename member_info) with
  | Some i => S i =? String.length (zi_filename member_info)
  | None => false
  end.

(** The world with [data] in the file [fname] of a destination. *)
Definition put_file (d : dest) (fname : string) (data : bytes) (w : World) : World :=
  match d with
  | to_images => mkWorld (db w) (UPLOAD_DIR w) (<[fname := data]> (IMAGE_DIR w))
                   (PDF_DIR w) (PROCESSED_DIR w) (PROCESSING_ERROR_DIR w)
  | to_pdfs => mkWorld (db w) (UPLOAD_DIR w) (IMAGE_DIR w)
                   (<[fname := data]> (PDF_DIR w)) (PROCESSED_DIR w) (PROCESSING_ERROR_DIR w)
  end.

(** Lines 117-119: [open(target_path, "wb")] raises when the file system
    refuses the name, and nothing is written; otherwise the file is
    created or emptied and holds [data] when the block is left. *)
Definition write_file (d : dest) (fname : string) (data : bytes) : M World unit :=
  if can_create d fname then modify (put_file d fname data) else raise OSError.

(** An [EncounterFile(filename=..., file_type=...)] before it has keys. *)
Definition new_file : Type := string * string.

(** Lines 101-122: one turn of the loop over [zf.infolist()]. The member
    is opened first; the target is then opened for writing, hence
    created or emptied unless its name is refused, before the member is
    read. *)
Definition extract_member (dir_in_zip : PurePath.t)
    (patient_id name capture_date : string) (member_info : ZipInfo)
    (files_to_add : list new_file) : M World (list new_file) :=
  let original_filepath := PurePath.Path (zi_filename member_info) in
  if is_dir member_info
     || negb (Str.startswith (PurePath.str original_filepath) (PurePath.str dir_in_zip))
  then ret files_to_add
  else
    let file_ext := Str.lower (PurePath.suffix original_filepath) in
    let fname := new_filename patient_id name capture_date original_filepath in
    match classify file_ext with
    | None => ret files_to_add
    | Some (dest_dir, ftype) =>
        match zi_read member_info with
        | open_raises => raise BadZipFile
        | read_raises => write_file dest_dir fname [] ;; raise BadZipFile
        | read_ok data =>
            write_file dest_dir fname data ;;
            ret (files_to_add ++ [(fname, ftype)])
        end
    end.

Fixpoint extract_members (dir_in_zip : PurePath.t)
    (patient_id name capture_date : string) (members : list ZipInfo)
    (files_to_add : list new_file) : M World (list new_file) :=
  match members with
  | [] => ret files_to_add
  | member_info :: rest =>
      let* acc := extract_member dir_in_zip patient_id name capture_date
                    member_info files_to_add in
      extract_members dir_in_zip patient_id name capture_date rest acc
  end.

(** Rows for the files of one encounter, keyed from [k] on. *)
Fixpoint file_rows (k enc : nat) (fs : list new_file) : list EncounterFile :=
  match fs with
  | [] => []
  | (fname, ftype) :: fs' => mkEncounterFile k enc fname ftype false :: file_rows (S k) enc fs'
  end.

(** [session.add(new_zip_file); session.commit()]: the archive row, its
    encounter and the files of the encounter are inserted together; the
    unique columns of [models.py] make the insertion fail. *)
Definition commit_archive (d : DB) (zname md5 name pid date : string)
    (fs : list new_file) : option DB :=
  let zid := next_id (map zf_id (zip_files d)) in
  let eid := next_id (map pe_id (patient_encounters d)) in
  let fid := next_id (map ef_id (encounter_files d)) in
  if existsb (fun z => String.eqb (zip_filename z) zname) (zip_files d)
     || existsb (fun z => String.eqb (md5_hash z) md5) (zip_files d)
     || existsb (fun e => zip_file_id e =? zid) (patient_encounters d)
  then None
  else Some (mkDB (zip_files d ++ [mkZipFile zid zname md5])
                  (patient_encounters d ++ [mkPatientEncounters eid zid name pid date])
                  (encounter_files d ++ file_rows fid eid fs)
                  (diabetic_retinopathy_reports d)
                  (glaucoma_reports d)).

Definition set_db (d : DB) : M World unit :=
  modify (fun w => mkWorld d (UPLOAD_DIR w) (IMAGE_DIR w) (PDF_DIR w)
                     (PROCESSED_DIR w) (PROCESSING_ERROR_DIR w)).

(** [shutil.move] of the archive out of the upload directory. *)
Definition move_to_processed (zname : string) (content : bytes) : M World unit :=
  modify (fun w => mkWorld (db w) (delete zname (UPLOAD_DIR w)) (IMAGE_DIR w) (PDF_DIR w)
                     (<[zname := content]> (PROCESSED_DIR w)) (PROCESSING_ERROR_DIR w)).

Definition move_to_error (zname : string) (content : bytes) : M World unit :=
  modify (fun w => mkWorld (db w) (delete zname (UPLOAD_DIR w)) (IMAGE_DIR w) (PDF_DIR w)
                     (PROCESSED_DIR w) (<[zname := content]> (PROCESSING_ERROR_DIR w))).

Inductive outcome : Type :=
  | Skipped
  | Processed
  | Failed (e : exn).

Definition no_dir_msg : string := "No directory matching the 'Name_ID_Date' format found.".

(** Lines 64-130: the body of the [try]. *)
Definition try_body (zname : string) (content : bytes) (md5 : string) : M World outcome :=
  let* members := require (zip_infolist content) BadZipFile in
  let* dir_in_zip := require (find_dir_in_zip (map zi_filename members))
                       (ValueError no_dir_msg) in
  let* parsed := require (parse_dir_name (PurePath.name dir_in_zip)) IndexError in
  let '(name, pid, date) := parsed in
  let* files_to_add := extract_members dir_in_zip pid name date members [] in
  let* w := get in
  let* d := require (commit_archive (db w) zname md5 name pid date files_to_add)
              IntegrityError in
  set_db d ;;
  move_to_processed zname content ;;
  ret Processed.

(** [process_zip_file]: [zname] is the name of the archive in the upload
    directory. The store is written by the commit alone, so the rollback
    of the handler leaves what was committed before. *)
Definition process_zip_file (zname : string) : M World outcome :=
  let* w := get in
  let* content := require (UPLOAD_DIR w !! zname) FileNotFoundError in
  let md5 := calculate_md5 content in
  if existsb (fun z => String.eqb (md5_hash z) md5) (zip_files (db w))
  then ret Skipped
  else try_except (try_body zname content md5)
         (fun e => move_to_error zname content ;; ret (Failed e)).

(** The loop of [main] over the archives found in the upload directory. *)
Fixpoint process_all (zip_files : list string) : M World (list outcome) :=
  match zip_files with
  | [] => ret []
  | zip_path :: rest =>
      let* o := process_zip_file zip_path in
      let* os := process_all rest in
      ret (o :: os)
  end.

End Archive.

(** ** The patterns of [ocr.py]

    Each pattern is a literal followed by runs of one character class, so
    the leftmost match never needs backtracking inside one alternative:
    a greedy run is followed by a character outside its class, or ends
    the pattern. *)

Module Re.

(** A literal under [IGNORECASE]: what follows it when [s] begins with it. *)
Fixpoint lit_ci (pat s : string) : option string :=
  match pat with
  | EmptyString => Some s
  | String p pat' =>
      match s with
      | EmptyString => None
      | String c s' =>
          if Ascii.eqb (Str.lower_char c) (Str.lower_char p)
          then lit_ci pat' s' else None
      end
  end.

(** [re.search] of a literal followed by optional whitespace and a group
    that takes everything, under [IGNORECASE] and [DOTALL]: group 1 of the
    leftmost match, which runs to the end of the text. *)
Fixpoint search_rest (lit s : string) : option string :=
  match lit_ci lit s with
  | Some r => Some (Str.lstrip_by Str.isspace r)
  | None =>
      match s with
      | EmptyString => None
      | String _ s' => search_rest lit s'
      end
  end.

(** The longest prefix whose characters satisfy [p], and the rest. *)
Fixpoint span (p : ascii -> bool) (s : string) : string * string :=
  match s with
  | EmptyString => (EmptyString, EmptyString)
  | String c s' =>
      if p c then let '(a, b) := span p s' in (String c a, b)
      else (EmptyString, s)
  end.

Definition is_digit (c : ascii) : bool :=
  let n := nat_of_ascii c in (48 <=? n) && (n <=? 57).

Definition is_num_char (c : ascii) : bool := is_digit c || Ascii.eqb c ".".

(** The measurement pattern under [IGNORECASE], anchored at the start of
    [s]: the label VCDR, optional whitespace, a hyphen, optional
    whitespace, and as group a non-empty run of digits and dots. Returns
    the group and the length of the match. *)
Definition vcdr_at (s : string) : option (string * nat) :=
  match lit_ci "VCDR" s with
  | None => None
  | Some r1 =>
      match Str.lstrip_by Str.isspace r1 with
      | String "-" r2 =>
          let '(num, rest) := span is_num_char (Str.lstrip_by Str.isspace r2) in
          match num with
          | EmptyString => None
          | _ => Some (num, String.length s - String.length rest)
          end
      | _ => None
      end
  end.

(** [re.findall]: matches from left to right; after a match the scan
    resumes where the match ended, [skip] counting the characters of the
    last match still to pass. *)
Fixpoint findall_vcdr_from (skip : nat) (s : string) : list string :=
  match s with
  | EmptyString => []
  | String _ s' =>
      match skip with
      | S k => findall_vcdr_from k s'
      | O =>
          match vcdr_at s with
          | Some (num, len) => num :: findall_vcdr_from (len - 1) s'
          | None => findall_vcdr_from 0 s'
          end
      end
  end.

Definition findall_vcdr (s : string) : list string := findall_vcdr_from 0 s.

Definition not_newline (c : ascii) : bool := negb (Ascii.eqb c "010").

(** One alternative of the result pattern, then optional whitespace, a
    hyphen, optional whitespace and the rest of the line, anchored at the
    start of [s]: the length of the match. Without [DOTALL] the dot stops
    at a line feed. *)
Definition result_alt_at (alt s : string) : option nat :=
  match lit_ci alt s with
  | None => None
  | Some r1 =>
      match Str.lstrip_by Str.isspace r1 with
      | String "-" r2 =>
          let '(_, rest) := span not_newline (Str.lstrip_by Str.isspace r2) in
          Some (String.length s - String.length rest)
      | _ => None
      end
  end.

Definition result_alts : list string :=
  ["No Referable Glaucoma"; "Referable Glaucoma"; "Referable Glacuoma"].

Fixpoint first_alt (alts : list string) (s : string) : option nat :=
  match alts with
  | [] => None
  | a :: alts' =>
      match result_alt_at a s with
      | Some n => Some n
      | None => first_alt alts' s
      end
  end.

(** [re.search] of the result pattern: group 0 of the leftmost match. *)
Fixpoint search_result (s : string) : option string :=
  match first_alt result_alts s with
  | Some n => Some (String.substring 0 n s)
  | None =>
      match s with
      | EmptyString => None
      | String _ s' => search_result s'
      end
  end.

End Re.

(** ** [float] on the text the measurement pattern can capture

    The group of the pattern is a non-empty run of digits and dots.
    [float] accepts such a run when it has at most one dot and at least
    one digit; the value kept here is the rational the literal denotes,
    the rounding to a binary double is left out. [None] stands for
    [ValueError]. *)

Fixpoint digits_value (acc : N) (s : string) : option N :=
  match s with
  | EmptyString => Some acc
  | String c s' =>
      if Re.is_digit c
      then digits_value (acc * 10 + (N_of_ascii c - 48))%N s'
      else None
  end.

Definition float (s : string) : option Q :=
  match Str.split "." s with
  | [ip] =>
      match ip with
      | EmptyString => None
      | _ => option_map (fun n => inject_Z (Z.of_N n)) (digits_value 0 ip)
      end
  | [ip; fp] =>
      match ip +:+ fp with
      | EmptyString => None
      | all =>
          option_map
            (fun n => Qmake (Z.of_N n) (Z.to_pos (10 ^ Z.of_nat (String.length fp))))
            (digits_value 0 all)
      end
  | _ => None
  end.

(** ** [ocr.py] *)

(** A session: the committed store and the reports added since the last
    commit or rollback. [autoflush] is the switch of [sessionmaker]: when
    it is on, a query first flushes the added objects and so sees them. *)
Record Session : Type := mkSession {
  autoflush : bool;
  store : DB;
  new_dr : list (nat * string);
  new_gl : list (nat * option Q * option Q * string) }.

(** [Session()] of [models.py]: [sessionmaker(bind=engine)] leaves
    [autoflush] at its default. *)
Definition Session_of (d : DB) : Session := mkSession true d [] [].

Definition add_dr (r : nat * string) (s : Session) : Session :=
  mkSession (autoflush s) (store s) (new_dr s ++ [r]) (new_gl s).

Definition add_gl (r : nat * option Q * option Q * string) (s : Session) : Session :=
  mkSession (autoflush s) (store s) (new_dr s) (new_gl s ++ [r]).

Fixpoint dr_rows (k : nat) (l : list (nat * string)) : list DiabeticRetinopathyReport :=
  match l with
  | [] => []
  | (enc, res) :: l' => mkDiabeticRetinopathyReport k enc res :: dr_rows (S k) l'
  end.

Fixpoint gl_rows (k : nat) (l : list (nat * option Q * option Q * string))
  : list GlaucomaReport :=
  match l with
  | [] => []
  | (enc, r, lf, res) :: l' => mkGlaucomaReport k enc r lf res :: gl_rows (S k) l'
  end.

(** [session.commit()] and [session.rollback()]. *)
Definition commit (s : Session) : Session :=
  let d := store s in
  mkSession (autoflush s)
    (mkDB (zip_files d) (patient_encounters d) (encounter_files d)
       (diabetic_retinopathy_reports d
        ++ dr_rows (next_id (map dr_id (diabetic_retinopathy_reports d))) (new_dr s))
       (glaucoma_reports d
        ++ gl_rows (next_id (map gl_id (glaucoma_reports d))) (new_gl s)))
    [] [].

Definition rollback (s : Session) : Session :=
  mkSession (autoflush s) (store s) [] [].

(** [session.query(DiabeticRetinopathyReport).filter_by(...).first()],
    as the truth value the caller tests. *)
Definition existing_dr (enc : nat) (s : Session) : bool :=
  existsb (fun r => dr_patient_encounter_id r =? enc)
    (diabetic_retinopathy_reports (store s))
  || (autoflush s && existsb (fun r => fst r =? enc) (new_dr s)).

Definition existing_gl (enc : nat) (s : Session) : bool :=
  existsb (fun r => gl_patient_encounter_id r =? enc) (glaucoma_reports (store s))
  || (autoflush s && existsb (fun r => fst (fst (fst r)) =? enc) (new_gl s)).

(** Lines 36-38: the result the diagnostic rule reads off a page. *)
Definition dr_result_of (text : string) : option string :=
  match Re.search_rest "Result DR:" text with
  | Some group1 => Some (hd "" (Str.split "010" (Str.strip group1)))
  | None => None
  end.

(** [extract_dr_data]. *)
Definition extract_dr_data (text : string) (encounter_file : EncounterFile)
  : M Session unit :=
  match dr_result_of text with
  | Some result =>
      let* s := get in
      if existing_dr (patient_encounter_id encounter_file) s then ret tt
      else modify (add_dr (patient_encounter_id encounter_file, result))
  | None => ret tt
  end.

Definition float_exn (v : string) : exn :=
  ValueError ("could not convert string to float: '" +:+ v +:+ "'").

(** Lines 58-67: the two measurements read off the section. *)
Definition vcdr_of_section {St} (section_text : string) : M St (option Q * option Q) :=
  let vcdr_values := Re.findall_vcdr section_text in
  match vcdr_values with
  | v0 :: v1 :: _ =>
      let* r := require (float v0) (float_exn v0) in
      let* l := require (float v1) (float_exn v1) in
      ret (Some r, Some l)
  | [v0] =>
      if Str.contains "left eye" (Str.lower section_text)
      then let* l := require (float v0) (float_exn v0) in ret (None, Some l)
      else let* r := require (float v0) (float_exn v0) in ret (Some r, None)
  | [] => ret (None, None)
  end.

(** Lines 70-72. *)
Definition result_of_section (section_text : string) : string :=
  match Re.search_result section_text with
  | Some group0 => Str.strip group0
  | None => "N/A"
  end.

(** Lines 48-72: right measurement, left measurement and result. *)
Definition glaucoma_fields {St} (text : string) : M St (option Q * option Q * string) :=
  match Re.search_rest "SCREENING RESULT" text with
  | Some section_text =>
      let* v := vcdr_of_section section_text in
      ret (fst v, snd v, result_of_section section_text)
  | None => ret (None, None, "N/A")
  end.

(** [extract_glaucoma_data]. *)
Definition extract_glaucoma_data (text : string) (encounter_file : EncounterFile)
  : M Session unit :=
  let* f := glaucoma_fields text in
  let '(vcdr_right, vcdr_left, result) := f in
  let* s := get in
  if existing_gl (patient_encounter_id encounter_file) s then ret tt
  else modify (add_gl (patient_encounter_id encounter_file, vcdr_right, vcdr_left, result)).

(** What the OCR script takes from its libraries: whether the imports
    succeeded, the pages of a document, and the text recognised on one
    rendered page; [None] where the library raises. *)
Class OcrRuntime : Type := {
  OCR_ENABLED : bool;
  fitz_open : bytes -> option (list bytes);
  image_to_string : bytes -> option string }.

Section Ocr.
Context `{OcrRuntime}.

(** Lines 128-132. *)
Definition extract_page (text : string) (encounter_file : EncounterFile)
  : M Session unit :=
  (if Str.contains "Diabetic Retinopathy Report" text
   then extract_dr_data text encounter_file else ret tt) ;;
  (if Str.contains "Glaucoma Screening Report" text
   then extract_glaucoma_data text encounter_file else ret tt).

(** Lines 118-132: the loop over the pages of one document. *)
Fixpoint process_pages (pages : list bytes) (encounter_file : EncounterFile)
  : M Session unit :=
  match pages with
  | [] => ret tt
  | page :: rest =>
      let* text := require (image_to_string page) RuntimeError in
      extract_page text encounter_file ;;
      process_pages rest encounter_file
  end.

(** Lines 106-140: one document; a missing file is passed over, any
    exception rolls the session back. *)
Definition process_pdf (pdf_dir : gmap string bytes) (encounter_file : EncounterFile)
  : M Session unit :=
  match pdf_dir !! filename encounter_file with
  | None => ret tt
  | Some content =>
      try_except
        (let* doc := require (fitz_open content) RuntimeError in
         process_pages doc encounter_file ;;
         modify commit)
        (fun _ => modify rollback)
  end.

Fixpoint process_pdfs (pdf_dir : gmap string bytes) (all_pdfs : list EncounterFile)
  : M Session unit :=
  match all_pdfs with
  | [] => ret tt
  | encounter_file :: rest =>
      process_pdf pdf_dir encounter_file ;; process_pdfs pdf_dir rest
  end.

(** [process_pdf_files]. *)
Definition process_pdf_files (pdf_dir : gmap string bytes) : M Session unit :=
  if negb OCR_ENABLED then ret tt
  else
    let* s := get in
    let all_pdfs :=
      List.filter (fun f => String.eqb (file_type f) "pdf") (encounter_files (store s)) in
    process_pdfs pdf_dir all_pdfs.

(** [main] of [ocr.py] on a committed store: a fresh session, one pass,
    and the store the session leaves. *)
Definition ocr_main (pdf_dir : gmap string bytes) (d : DB) : DB :=
  store (fst (process_pdf_files pdf_dir (Session_of d))).

End Ocr.


(** ** Vocabulary of the statements *)

Definition dest_name (pid name date basename : string) : string :=
  pid +:+ "_" +:+ Str.replace " " "_" name +:+ "_" +:+ date +:+ "_" +:+ basename.

(** From [w] to [w'] nothing changed but the two extraction areas, and
    these lost no file name. *)
Definition extraction_only (w w' : World) : Prop :=
  db w' = db w
  /\ UPLOAD_DIR w' = UPLOAD_DIR w
  /\ PROCESSED_DIR w' = PROCESSED_DIR w
  /\ PROCESSING_ERROR_DIR w' = PROCESSING_ERROR_DIR w
  /\ dom (IMAGE_DIR w) ⊆ dom (IMAGE_DIR w')
  /\ dom (PDF_DIR w) ⊆ dom (PDF_DIR w').

(** The rows of one archive, of one encounter. *)
Definition archives_of (h : string) (d : DB) : list ZipFile :=
  List.filter (fun z => String.eqb (md5_hash z) h) (zip_files d).

Definition encounters_of (zid : nat) (d : DB) : list PatientEncounters :=
  List.filter (fun e => zip_file_id e =? zid) (patient_encounters d).

Definition files_of (eid : nat) (d : DB) : list EncounterFile :=
  List.filter (fun f => patient_encounter_id f =? eid) (encounter_files d).

Definition dr_of (eid : nat) (d : DB) : list DiabeticRetinopathyReport :=
  List.filter (fun r => dr_patient_encounter_id r =? eid) (diabetic_retinopathy_reports d).

(** Every file row points to an encounter row: what the foreign key of
    [EncounterFile] asks for. *)
Definition db_wf (d : DB) : Prop :=
  forall f, In f (encounter_files d) ->
            In (patient_encounter_id f) (map pe_id (patient_encounters d)).

(** The archive with fingerprint [h] is recorded once, as the row [z]
    with the one encounter [e] and the files [fl]. *)
Definition recorded (h : string) (z : ZipFile) (e : PatientEncounters)
    (fl : list EncounterFile) (d : DB) : Prop :=
  archives_of h d = [z] /\ encounters_of (zf_id z) d = [e] /\ files_of (pe_id e) d = fl.

(** A file dropped into the upload directory from outside. *)
Definition upload (zname : string) (content : bytes) (w : World) : World :=
  mkWorld (db w) (<[zname := content]> (UPLOAD_DIR w)) (IMAGE_DIR w) (PDF_DIR w)
    (PROCESSED_DIR w) (PROCESSING_ERROR_DIR w).

(** [later w w']: [w'] is reached from [w] by uploads and by runs of
    [process_zip_file] on any archive names. *)
Inductive later `{Runtime} : World -> World -> Prop :=
  | later_now w : later w w
  | later_process w zname w1 r w' :
      process_zip_file zname w = (w1, r) -> later w1 w' -> later w w'
  | later_upload w zname content w' :
      later (upload zname content w) w' -> later w w'.

(** What a run of the body of the [try] can be. *)
Inductive body_run `{Runtime} (zname : string) (content : bytes) (md5 : string) (w : World)
  : World -> exn + outcome -> Prop :=
  | run_bad_zip :
      zip_infolist content = None ->
      body_run zname content md5 w w (inl BadZipFile)
  | run_no_dir members :
      zip_infolist content = Some members ->
      find_dir_in_zip (map zi_filename members) = None ->
      body_run zname content md5 w w (inl (ValueError no_dir_msg))
  | run_index members dir :
      zip_infolist content = Some members ->
      find_dir_in_zip (map zi_filename members) = Some dir ->
      parse_dir_name (PurePath.name dir) = None ->
      body_run zname content md5 w w (inl IndexError)
  | run_read members dir name pid date w2 e :
      zip_infolist content = Some members ->
      find_dir_in_zip (map zi_filename members) = Some dir ->
      parse_dir_name (PurePath.name dir) = Some (name, pid, date) ->
      extract_members dir pid name date members [] w = (w2, inl e) ->
      body_run zname content md5 w w2 (inl e)
  | run_integrity members dir name pid date w2 files :
      zip_infolist content = Some members ->
      find_dir_in_zip (map zi_filename members) = Some dir ->
      parse_dir_name (PurePath.name dir) = Some (name, pid, date) ->
      extract_members dir pid name date members [] w = (w2, inr files) ->
      commit_archive (db w2) zname md5 name pid date files = None ->
      body_run zname content md5 w w2 (inl IntegrityError)
  | run_committed members dir name pid date w2 files d :
      zip_infolist content = Some members ->
      find_dir_in_zip (map zi_filename members) = Some dir ->
      parse_dir_name (PurePath.name dir) = Some (name, pid, date) ->
      extract_members dir pid name date members [] w = (w2, inr files) ->
      commit_archive (db w2) zname md5 name pid date files = Some d ->
      body_run zname content md5 w
        (mkWorld d (delete zname (UPLOAD_DIR w2)) (IMAGE_DIR w2) (PDF_DIR w2)
           (<[zname := content]> (PROCESSED_DIR w2)) (PROCESSING_ERROR_DIR w2))
        (inr Processed).

(** Successive runs of the OCR script, the document area being whatever
    it is at each run. *)
Fixpoint ocr_runs `{OcrRuntime} (dirs : list (gmap string bytes)) (d : DB) : DB :=
  match dirs with
  | [] => d
  | pdf_dir :: rest => ocr_runs rest (ocr_main pdf_dir d)
  end.

(** ** A small runtime for closed examples

    Archives are text: the content is the list of member names, one per
    line, every member holding one zero byte; a content that begins with
    a zero byte is not an archive. The digest is the content read as
    text, and the file system takes names of 255 characters at most. *)

Definition toy_infolist (content : bytes) : option (list ZipInfo) :=
  match content with
  | x00 :: _ => None
  | _ => Some (map (fun n => mkZipInfo n (read_ok [x00]))
                 (Str.split "010" (string_of_list_byte content)))
  end.

#[local] Instance toy_runtime : Runtime := {|
  md5_hexdigest := string_of_list_byte;
  zip_infolist := toy_infolist;
  can_create := fun _ fname => String.length fname <=? 255;
  set_iter := remove_dups;
  set_iter_perm := fun l => reflexivity (remove_dups l) |}.

(** Recognition that reads the bytes of a page as its text; the pages
    of a document are separated by form feeds. *)
#[local] Instance toy_ocr : OcrRuntime := {|
  OCR_ENABLED := true;
  fitz_open := fun b =>
    Some (map list_byte_of_string (Str.split "012" (string_of_list_byte b)));
  image_to_string := fun b => Some (string_of_list_byte b) |}.

(** A world with an empty store and one archive in the upload area. *)
Definition toy_world (zname listing : string) : World :=
  mkWorld empty_db {[ zname := list_byte_of_string listing ]} ∅ ∅ ∅ ∅.

(** A line feed, and the property that a step of the OCR script keeps
    true whether or not it raises. *)
Definition nl : string := String "010" EmptyString.

Definition preserves {A} (I : Session -> Prop) (m : M Session A) : Prop :=
  forall s, I s -> I (fst (m s)).

(** The encounter [enc] has the stored diagnostic findings [L] and none
    waiting in the session. *)
Definition keeps_dr (enc : nat) (L : list DiabeticRetinopathyReport) (s : Session) : Prop :=
  dr_of enc (store s) = L /\ existsb (fun r => fst r =? enc) (new_dr s) = false.

(** The diagnostic findings of [enc] waiting in the session, and the
    property that no encounter has more than one finding, stored and
    waiting together, in a session that flushes before it queries. *)
Definition dr_waiting (enc : nat) (s : Session) : list (nat * string) :=
  List.filter (fun r => fst r =? enc) (new_dr s).

Definition at_most_one_dr (s : Session) : Prop :=
  autoflush s = true
  /\ forall enc, length (dr_of enc (store s)) + length (dr_waiting enc s) <= 1.

Definition ff : string := String "012" EmptyString.

Create HintDb preserves.

(** A store with one archive, its encounter and one document, and the
    document area holding that document with the given page text. *)
Definition toy_store (dr : list DiabeticRetinopathyReport) : DB :=
  mkDB [mkZipFile 1 "a.zip" "digest"]
    [mkPatientEncounters 1 1 "Jane Doe" "12345" "20240101"]
    [mkEncounterFile 1 1 "12345_Jane_Doe_20240101_report.pdf" "pdf" false] dr [].

Definition toy_pdf_dir (page_text : string) : gmap string bytes :=
  {[ "12345_Jane_Doe_20240101_report.pdf" := list_byte_of_string page_text ]}.

(** ** Further vocabulary *)

(** Number of occurrences of a character. *)
Fixpoint count_char (c : ascii) (s : string) : nat :=
  match s with
  | EmptyString => 0
  | String a s' => (if Ascii.eqb a c then 1 else 0) + count_char c s'
  end.

(** A component as [Path] keeps them: not empty, not a lone dot, without a
    separator. *)
Definition seg_ok (s : string) : Prop :=
  PurePath.keep_seg s = true /\ Str.has_char "/" s = false.

(** A path as [Path] and [parent] build them. *)
Definition path_ok (p : PurePath.t) : Prop :=
  (PurePath.root p = "" \/ PurePath.root p = "/" \/ PurePath.root p = "//")
  /\ Forall seg_ok (PurePath.segs p).

(** The text of the prefix of [d] that ends with its part [i]. *)
Definition prefix_text (d : PurePath.t) (i : nat) : string :=
  Str.join "/" (take (S i) (PurePath.parts d)).

(** What a turn of the extraction loop makes of a member: [None] when
    the member is passed over, else the destination area and the kind. *)
Definition selected (dir_in_zip : PurePath.t) (m : ZipInfo) : option (dest * string) :=
  if is_dir m
     || negb (Str.startswith (PurePath.str (PurePath.Path (zi_filename m)))
                (PurePath.str dir_in_zip))
  then None
  else classify (Str.lower (PurePath.suffix (PurePath.Path (zi_filename m)))).

(** The record a member gives, and the records of a list of members in
    their order. *)
Definition record_of (dir_in_zip : PurePath.t) (pid name date : string) (m : ZipInfo)
  : option new_file :=
  match selected dir_in_zip m with
  | Some (_, k) => Some (new_filename pid name date (PurePath.Path (zi_filename m)), k)
  | None => None
  end.

Definition records_of (dir_in_zip : PurePath.t) (pid name date : string)
    (ms : list ZipInfo) : list new_file :=
  omap (record_of dir_in_zip pid name date) ms.

(** A member the loop takes can be extracted: it opens and reads, and
    the file system accepts the name of its target. *)
Definition extractable `{Runtime} (dir_in_zip : PurePath.t) (pid name date : string)
    (m : ZipInfo) : Prop :=
  forall d k,
    selected dir_in_zip m = Some (d, k) ->
    (exists data, zi_read m = read_ok data)
    /\ can_create d (new_filename pid name date (PurePath.Path (zi_filename m))) = true.

Definition area (d : dest) (w : World) : gmap string bytes :=
  match d with to_images => IMAGE_DIR w | to_pdfs => PDF_DIR w end.

Definition dest_eqb (a b : dest) : bool :=
  match a, b with
  | to_images, to_images | to_pdfs, to_pdfs => true
  | _, _ => false
  end.

(** The bytes of the last member of [ms] that is written to the area [d]
    under the name [f]. *)
Fixpoint last_write (dir_in_zip : PurePath.t) (pid name date : string)
    (ms : list ZipInfo) (d : dest) (f : string) : option bytes :=
  match ms with
  | [] => None
  | m :: rest =>
      match last_write dir_in_zip pid name date rest d f with
      | Some data => Some data
      | None =>
          match selected dir_in_zip m, zi_read m with
          | Some (d', _), read_ok data =>
              if dest_eqb d' d
                 && String.eqb (new_filename pid name date (PurePath.Path (zi_filename m))) f
              then Some data else None
          | _, _ => None
          end
      end
  end.

(** The file of a record is in the area of its kind. *)
Definition on_disk (w : World) (fname kind : string) : Prop :=
  (kind = "image" /\ is_Some (IMAGE_DIR w !! fname))
  \/ (kind = "pdf" /\ is_Some (PDF_DIR w !! fname)).

Definition files_present (w : World) : Prop :=
  forall f, In f (encounter_files (db w)) -> on_disk w (filename f) (file_type f).

(** [md5] is the fingerprint of a recorded archive. *)
Definition is_recorded (md5 : string) (d : DB) : bool :=
  existsb (fun z => String.eqb (md5_hash z) md5) (zip_files d).

(** The unique columns and the primary keys of [models.py] hold no value
    twice. *)
Definition store_unique (d : DB) : Prop :=
  NoDup (map md5_hash (zip_files d))
  /\ NoDup (map zip_filename (zip_files d))
  /\ NoDup (map zf_id (zip_files d))
  /\ NoDup (map pe_id (patient_encounters d))
  /\ NoDup (map zip_file_id (patient_encounters d))
  /\ NoDup (map ef_id (encounter_files d)).

(** Every file row belongs to an encounter row, every encounter row to
    an archive row, and every archive row has exactly one encounter. *)
Definition store_linked (d : DB) : Prop :=
  db_wf d
  /\ (forall e, In e (patient_encounters d) -> In (zip_file_id e) (map zf_id (zip_files d)))
  /\ (forall z, In z (zip_files d) -> length (encounters_of (zf_id z) d) = 1).

(** [d'] is [d] with rows appended to the three tables of the archive
    script, the two report tables being the same. *)
Definition appended (d d' : DB) : Prop :=
  (exists k, zip_files d' = zip_files d ++ k)
  /\ (exists k, patient_encounters d' = patient_encounters d ++ k)
  /\ (exists k, encounter_files d' = encounter_files d ++ k)
  /\ diabetic_retinopathy_reports d' = diabetic_retinopathy_reports d
  /\ glaucoma_reports d' = glaucoma_reports d.

(** ** Vocabulary for the OCR script *)

Definition gl_of (eid : nat) (d : DB) : list GlaucomaReport :=
  List.filter (fun r => gl_patient_encounter_id r =? eid) (glaucoma_reports d).

Definition gl_waiting (enc : nat) (s : Session)
  : list (nat * option Q * option Q * string) :=
  List.filter (fun r => fst (fst (fst r)) =? enc) (new_gl s).

(** No encounter has more than one finding of either kind, stored and
    waiting together, in a session that flushes before it queries. *)
Definition at_most_one (s : Session) : Prop :=
  autoflush s = true
  /\ forall enc,
       length (dr_of enc (store s)) + length (dr_waiting enc s) <= 1
       /\ length (gl_of enc (store s)) + length (gl_waiting enc s) <= 1.

(** The encounter [enc] has the stored measurement findings [L] and none
    waiting in the session. *)
Definition keeps_gl (enc : nat) (L : list GlaucomaReport) (s : Session) : Prop :=
  gl_of enc (store s) = L
  /\ existsb (fun r => fst (fst (fst r)) =? enc) (new_gl s) = false.

Definition no_pending (s : Session) : Prop := new_dr s = [] /\ new_gl s = [].

(** The store of the session has the archive, encounter and file tables
    of [d] and its report tables with rows appended. *)
Definition reports_appended (d : DB) (s : Session) : Prop :=
  zip_files (store s) = zip_files d
  /\ patient_encounters (store s) = patient_encounters d
  /\ encounter_files (store s) = encounter_files d
  /\ (exists k, diabetic_retinopathy_reports (store s)
                = diabetic_retinopathy_reports d ++ k)
  /\ (exists k, glaucoma_reports (store s) = glaucoma_reports d ++ k).

(** Whether a page, and all the pages of a document, are gone through
    without an exception: the recognition gives a text, and under the
    glaucoma title the measurements of the text convert. *)
Definition page_ok `{OcrRuntime} (page : bytes) : bool :=
  match image_to_string page with
  | None => false
  | Some text =>
      if Str.contains "Glaucoma Screening Report" text
      then match snd (glaucoma_fields text tt) with inr _ => true | inl _ => false end
      else true
  end.

Definition pages_ok `{OcrRuntime} (pages : list bytes) : bool := forallb page_ok pages.

Definition has_dr (enc : nat) (d : DB) : bool :=
  existsb (fun r => dr_patient_encounter_id r =? enc) (diabetic_retinopathy_reports d).

Definition has_gl (enc : nat) (d : DB) : bool :=
  existsb (fun r => gl_patient_encounter_id r =? enc) (glaucoma_reports d).

(** The encounter has a finding stored or waiting. *)
Definition dr_in_session (enc : nat) (s : Session) : Prop :=
  has_dr enc (store s) = true \/ existsb (fun r => fst r =? enc) (new_dr s) = true.

Definition gl_in_session (enc : nat) (s : Session) : Prop :=
  has_gl enc (store s) = true
  \/ existsb (fun r => fst (fst (fst r)) =? enc) (new_gl s) = true.

(** What a page asks of the findings of its encounter, given as the two
    properties [D] and [G]: a diagnostic finding when the page has the
    diagnostic title and a result, a measurement finding when it has the
    glaucoma title. *)
Definition page_needs `{OcrRuntime} (D G : Prop) (page : bytes) : Prop :=
  match image_to_string page with
  | Some text =>
      (Str.contains "Diabetic Retinopathy Report" text = true ->
       is_Some (dr_result_of text) -> D)
      /\ (Str.contains "Glaucoma Screening Report" text = true -> G)
  | None => True
  end.

(** The store holds every finding the document [ef] can give. *)
Definition doc_covered `{OcrRuntime} (pdf_dir : gmap string bytes) (d : DB)
    (ef : EncounterFile) : Prop :=
  match pdf_dir !! filename ef with
  | None => True
  | Some content =>
      match fitz_open content with
      | None => True
      | Some pages =>
          pages_ok pages = true ->
          Forall (page_needs (has_dr (patient_encounter_id ef) d = true)
                    (has_gl (patient_encounter_id ef) d = true)) pages
      end
  end.

(** ** [initiaze.py] *)

(** [move_files]: [listing] is what [os.listdir] gives for the source
    directory; a name that is no file there is passed over, a file of
    the same name in the destination is replaced. Returns the source and
    the destination as they are left. *)
Fixpoint move_files (listing : list string) (src dest : gmap string bytes)
  : gmap string bytes * gmap string bytes :=
  match listing with
  | [] => (src, dest)
  | filename :: rest =>
      match src !! filename with
      | Some data => move_files rest (delete filename src) (<[filename := data]> dest)
      | None => move_files rest src dest
      end
  end.

(** The script as a whole: the processed archives go back to the upload
    directory, the database file is deleted and [models.py] creates the
    empty tables again. *)
Definition initiaze (listing : list string) (w : World) : World :=
  let moved := move_files listing (PROCESSED_DIR w) (UPLOAD_DIR w) in
  mkWorld empty_db (snd moved) (IMAGE_DIR w) (PDF_DIR w) (fst moved)
    (PROCESSING_ERROR_DIR w).

(** Two runs of a script are two processes: the libraries and the file
    system are the same, the order in which a set is enumerated need not
    be. *)
Definition same_libraries (R1 R2 : Runtime) : Prop :=
  (forall content, @md5_hexdigest R1 content = @md5_hexdigest R2 content)
  /\ (forall content, @zip_infolist R1 content = @zip_infolist R2 content)
  /\ (forall d fname, @can_create R1 d fname = @can_create R2 d fname).

(** The encounter [enc] owns a document row of [d] whose file is in the
    document area. *)
Definition owns_document (pdf_dir : gmap string bytes) (d : DB) (enc : nat) : Prop :=
  exists ef, In ef (encounter_files d)
             /\ file_type ef = "pdf"
             /\ is_Some (pdf_dir !! filename ef)
             /\ patient_encounter_id ef = enc.

(** Every finding of the session, stored or waiting, was in [d] or is
    for an encounter that owns a document. *)
Definition findings_from (pdf_dir : gmap string bytes) (d : DB) (s : Session) : Prop :=
  (forall r, In r (diabetic_retinopathy_reports (store s)) ->
     In r (diabetic_retinopathy_reports d)
     \/ owns_document pdf_dir d (dr_patient_encounter_id r))
  /\ (forall r, In r (glaucoma_reports (store s)) ->
        In r (glaucoma_reports d) \/ owns_document pdf_dir d (gl_patient_encounter_id r))
  /\ (forall r, In r (new_dr s) -> owns_document pdf_dir d (fst r))
  /\ (forall r, In r (new_gl s) -> owns_document pdf_dir d (fst (fst (fst r)))).

(** ** Closed worlds for the examples *)

(** The toy runtime with the set of directories enumerated backwards. *)
Definition toy_runtime_rev : Runtime := {|
  md5_hexdigest := string_of_list_byte;
  zip_infolist := toy_infolist;
  can_create := fun _ fname => String.length fname <=? 255;
  set_iter := fun l => reverse (remove_dups l);
  set_iter_perm := fun l => reverse_Permutation (remove_dups l) |}.

Definition toy_listing : string := "Jane Doe_12345_20240101/scan.jpg".

(** One archive waiting, and the world after the run on it. *)
Definition toy_before : World := toy_world "a.zip" toy_listing.

Definition toy_after : World :=
  mkWorld
    (mkDB [mkZipFile 1 "a.zip" toy_listing]
       [mkPatientEncounters 1 1 "Jane Doe" "12345" "20240101"]
       [mkEncounterFile 1 1 "12345_Jane_Doe_20240101_scan.jpg" "image" false] [] [])
    ∅ {[ "12345_Jane_Doe_20240101_scan.jpg" := [x00] ]} ∅
    {[ "a.zip" := list_byte_of_string toy_listing ]} ∅.

(** A recorded archive named [a.zip] and another archive of that name
    waiting. *)
Definition toy_clash : World :=
  mkWorld
    (mkDB [mkZipFile 1 "a.zip" "earlier bytes"]
       [mkPatientEncounters 1 1 "Jane Doe" "12345" "20240101"] [] [] [])
    {[ "a.zip" := list_byte_of_string toy_listing ]} ∅ ∅ ∅ ∅.

(** Two archives waiting: one with a directory of the convention, one
    without. *)
Definition toy_two : World :=
  mkWorld empty_db
    (<["b.zip" := list_byte_of_string "plain/x.jpg"]>
       {[ "a.zip" := list_byte_of_string toy_listing ]}) ∅ ∅ ∅ ∅.

Definition toy_ef : EncounterFile :=
  mkEncounterFile 1 1 "12345_Jane_Doe_20240101_report.pdf" "pdf" false.

Definition toy_dr_page : string :=
  "Diabetic Retinopathy Report" +:+ nl +:+ "Result DR: Severe NPDR".

Definition toy_bad_page : string :=
  "Glaucoma Screening Report" +:+ nl +:+ "SCREENING RESULT" +:+ nl
  +:+ "Right Eye VCDR - 0.4. Left Eye VCDR - 0.6.".

Definition toy_gl_page : string :=
  "Glaucoma Screening Report" +:+ nl +:+ "SCREENING RESULT" +:+ nl
  +:+ "VCDR - 0.4" +:+ nl +:+ "VCDR - 0.6".

(** The toy store with a measurement finding for its encounter. *)
Definition toy_store_gl : DB :=
  mkDB [mkZipFile 1 "a.zip" "digest"]
    [mkPatientEncounters 1 1 "Jane Doe" "12345" "20240101"]
    [toy_ef] [] [mkGlaucomaReport 1 1 (Some (5 # 10)) None "Suspect"].
(** * Properties *)

(** ** Strings and paths *)

Lemma has_char_cons c a s :
  Str.has_char c (String a s) = Ascii.eqb c a || Str.has_char c s.
Proof. reflexivity. Qed.

(** No part of a split holds the separator. *)
Lemma split_no_sep sep s x : In x (Str.split sep s) -> Str.has_char sep x = false.
Proof.
  revert x. induction s as [|c s IH]; simpl; intros x Hx.
  - destruct Hx as [<-|[]]. reflexivity.
  - destruct (Ascii.eqb c sep) eqn:E.
    + destruct Hx as [<-|Hx]; [reflexivity|auto].
    + destruct (Str.split sep s) as [|h t] eqn:Es.
      * destruct Hx as [<-|[]]. rewrite has_char_cons, Ascii.eqb_sym, E. reflexivity.
      * destruct Hx as [<-|Hx].
        -- rewrite has_char_cons, Ascii.eqb_sym, E. simpl. apply (IH h). by left.
        -- apply IH. by right.
Qed.

Lemma rstrip_by_id p s :
  (forall c, p c = true -> Str.has_char c s = false) -> Str.rstrip_by p s = s.
Proof.
  induction s as [|c s IH]; simpl; intros Hp; [done|].
  rewrite IH.
  - destruct s; [|done]. destruct (p c) eqn:E; [|done].
    specialize (Hp c E). rewrite has_char_cons, Ascii.eqb_refl in Hp. done.
  - intros a Ha. specialize (Hp a Ha). rewrite has_char_cons in Hp.
    apply orb_false_iff in Hp. tauto.
Qed.

Lemma replace_id a b s : Str.has_char a s = false -> Str.replace a b s = s.
Proof.
  induction s as [|c s IH]; simpl; [done|]. rewrite has_char_cons.
  intros Hc. apply orb_false_iff in Hc as [H1 H2].
  rewrite Ascii.eqb_sym, H1. f_equal. by apply IH.
Qed.

Lemma last_prop {A} (P : A -> Prop) (l : list A) d :
  P d -> (forall x, In x l -> P x) -> P (List.last l d).
Proof.
  intros Hd. induction l as [|x l IH]; simpl; intros Hl; [done|].
  destruct l as [|y l]; [apply Hl; by left|].
  apply IH. intros z Hz. apply Hl. by right.
Qed.

(** The final component of a path holds no separator. *)
Lemma name_no_slash s : Str.has_char "/" (PurePath.name (PurePath.Path s)) = false.
Proof.
  unfold PurePath.name, PurePath.Path. simpl.
  apply (last_prop (fun x => Str.has_char "/" x = false)); [reflexivity|].
  intros x Hx. apply filter_In in Hx as [Hx _]. by apply split_no_sep in Hx.
Qed.

Lemma rstrip_name s :
  Str.rstrip "/" (PurePath.name (PurePath.Path s)) = PurePath.name (PurePath.Path s).
Proof.
  apply rstrip_by_id. intros c Hc. apply Ascii.eqb_eq in Hc as <-. apply name_no_slash.
Qed.

Lemma nth_back_app_1 {A} (l : list A) x : PyList.nth_back (l ++ [x]) 1 = Some x.
Proof.
  unfold PyList.nth_back. rewrite length_app. simpl.
  replace (length l + 1 - 1) with (length l) by lia.
  rewrite lookup_app_r by lia. replace (length l - length l) with 0 by lia.
  destruct (length l + 1) eqn:E; [lia|]. reflexivity.
Qed.

Lemma nth_back_app_2 {A} (l : list A) x y : PyList.nth_back (l ++ [x; y]) 2 = Some x.
Proof.
  unfold PyList.nth_back. rewrite length_app. simpl.
  replace (length l + 2 - 2) with (length l) by lia.
  rewrite lookup_app_r by lia. replace (length l - length l) with 0 by lia.
  destruct (length l + 2) as [|[|n]] eqn:E; try lia. reflexivity.
Qed.

Lemma drop_back_app {A} (l m : list A) : PyList.drop_back (l ++ m) (length m) = l.
Proof.
  unfold PyList.drop_back. rewrite length_app.
  replace (length l + length m - length m) with (length l) by lia.
  by rewrite take_app_length.
Qed.

(** ** The directory convention *)

(** C4: the segment [Jane Doe_12345_20240101] parses to the name
    [Jane Doe], the identifier [12345] and the date [20240101]; for the
    final segment of any directory path, whenever it splits on
    underscores into leading parts followed by two more, the last part is
    the capture date, the one before it the identifier, and the leading
    parts joined with spaces are the name. *)
Theorem C4_parse_dir_name :
  parse_dir_name "Jane Doe_12345_20240101" = Some ("Jane Doe", "12345", "20240101")
  /\ forall (p : string) (lead : list string) (pid date : string),
       Str.split "_" (PurePath.name (PurePath.Path p)) = lead ++ [pid; date] ->
       parse_dir_name (PurePath.name (PurePath.Path p))
       = Some (Str.join " " lead, pid, date).
Proof.
  split; [reflexivity|].
  intros p lead pid date Hsplit. unfold parse_dir_name.
  rewrite rstrip_name, Hsplit.
  replace (lead ++ [pid; date]) with ((lead ++ [pid]) ++ [date]) at 1
    by (by rewrite <- app_assoc).
  rewrite nth_back_app_1, nth_back_app_2.
  change 2 with (length [pid; date]).
  by rewrite (drop_back_app lead [pid; date]).
Qed.

Lemma C4_parse_dir_name_witness :
  parse_dir_name (PurePath.name (PurePath.Path "zips/Ann_Lee_Roy_77_20230412"))
  = Some ("Ann Lee Roy", "77", "20230412").
Proof.
  exact (proj2 C4_parse_dir_name "zips/Ann_Lee_Roy_77_20230412"
           ["Ann"; "Lee"; "Roy"] "77" "20230412" eq_refl).
Defined.

(** ** Classification and renaming *)

Lemma new_filename_eq pid name date member :
  new_filename pid name date (PurePath.Path member)
  = dest_name pid name date (PurePath.name (PurePath.Path member)).
Proof. unfold new_filename, dest_name. by rewrite (replace_id _ _ _ (name_no_slash member)). Qed.

Lemma classify_kind ext d k : classify ext = Some (d, k) ->
  (d = to_images /\ k = "image") \/ (d = to_pdfs /\ k = "pdf").
Proof.
  unfold classify. case_bool_decide; [intros [= <- <-]; by left|].
  destruct (String.eqb ext ".pdf"); [intros [= <- <-]; by right|done].
Qed.

Lemma write_file_run `{Runtime} d fname data w :
  write_file d fname data w
  = if can_create d fname then (put_file d fname data w, inr tt) else (w, inl OSError).
Proof. unfold write_file. by destruct (can_create d fname). Qed.

(** C5: the destination name of every extracted member is the
    identifier, an underscore, the subject name with each space replaced
    by an underscore, an underscore, the date, an underscore and the
    basename of the member: the record appended for the member carries
    that name and the bytes of the member are written under it. For the
    identifier 12345, the name Jane Doe, the date 20240101 and the
    basename scan.jpg the name is 12345_Jane_Doe_20240101_scan.jpg. *)
Theorem C5_destination_filename `{Runtime} :
  new_filename "12345" "Jane Doe" "20240101" (PurePath.Path "scan.jpg")
  = "12345_Jane_Doe_20240101_scan.jpg"
  /\ (forall pid name date member,
        new_filename pid name date (PurePath.Path member)
        = pid +:+ "_" +:+ Str.replace " " "_" name +:+ "_" +:+ date +:+ "_"
          +:+ PurePath.name (PurePath.Path member))
  /\ (forall dir pid name date m acc w w' acc',
        extract_member dir pid name date m acc w = (w', inr acc') ->
        acc' <> acc ->
        let fname := pid +:+ "_" +:+ Str.replace " " "_" name +:+ "_" +:+ date +:+ "_"
                     +:+ PurePath.name (PurePath.Path (zi_filename m)) in
        exists kind data,
          acc' = acc ++ [(fname, kind)]
          /\ zi_read m = read_ok data
          /\ ((kind = "image" /\ IMAGE_DIR w' !! fname = Some data)
              \/ (kind = "pdf" /\ PDF_DIR w' !! fname = Some data))).
Proof.
  split; [reflexivity|]. split; [apply new_filename_eq|].
  intros dir pid name date m acc w w' acc' Hrun Hne fname.
  unfold extract_member in Hrun.
  destruct (is_dir m || _); [by inversion Hrun|].
  destruct (classify _) as [[d k]|] eqn:Hc; [|by inversion Hrun].
  rewrite new_filename_eq in Hrun. fold (dest_name pid name date
    (PurePath.name (PurePath.Path (zi_filename m)))) in fname.
  destruct (zi_read m) as [| |data] eqn:Hr; [by inversion Hrun| |];
    unfold bind in Hrun; rewrite write_file_run in Hrun;
    destruct (can_create _ _); try by inversion Hrun.
  exists k, data.
  apply classify_kind in Hc as [[-> ->]|[-> ->]];
    inversion Hrun; subst; simpl; rewrite lookup_insert_eq; auto.
Qed.

Lemma C5_destination_filename_witness :
  exists kind data,
    [("7_A_B_2020_x.PDF", "pdf")] = [] ++ [("7_A_B_2020_x.PDF", kind)]
    /\ read_ok [x00] = read_ok data
    /\ ((kind = "image" /\ (∅ : gmap string bytes) !! "7_A_B_2020_x.PDF" = Some data)
        \/ (kind = "pdf"
            /\ (<["7_A_B_2020_x.PDF" := [x00]]> (∅ : gmap string bytes))
               !! "7_A_B_2020_x.PDF" = Some data)).
Proof.
  exact (proj2 (proj2 C5_destination_filename)
           (PurePath.Path "A B_7_2020") "7" "A B" "2020"
           (mkZipInfo "A B_7_2020/x.PDF" (read_ok [x00])) []
           (mkWorld empty_db ∅ ∅ ∅ ∅ ∅)
           (mkWorld empty_db ∅ ∅ (<["7_A_B_2020_x.PDF" := [x00]]> ∅) ∅ ∅)
           [("7_A_B_2020_x.PDF", "pdf")] eq_refl ltac:(discriminate)).
Defined.

Lemma extract_members_cons `{Runtime} dir pid name date m rest acc w :
  extract_members dir pid name date (m :: rest) acc w
  = match extract_member dir pid name date m acc w with
    | (w', inr a) => extract_members dir pid name date rest a w'
    | (w', inl e) => (w', inl e)
    end.
Proof. reflexivity. Qed.

(** C9: a member whose lowercased extension is none of the six known
    ones is passed over: the turn of the loop leaves the directories,
    the store and the list of records as they were and raises nothing,
    so extraction with the member in the archive is extraction without
    it. *)
Theorem C9_unrecognized_extension_skipped `{Runtime} dir pid name date m :
  Str.lower (PurePath.suffix (PurePath.Path (zi_filename m)))
    ∉ [".jpg"; ".jpeg"; ".png"; ".gif"; ".bmp"; ".pdf"] ->
  (forall acc w, extract_member dir pid name date m acc w = (w, inr acc))
  /\ (forall before after acc w,
        extract_members dir pid name date (before ++ m :: after) acc w
        = extract_members dir pid name date (before ++ after) acc w).
Proof.
  intros Hext.
  assert (Hone : forall acc w, extract_member dir pid name date m acc w = (w, inr acc)).
  { intros acc w. unfold extract_member.
    destruct (is_dir m || _); [reflexivity|].
    unfold classify. case_bool_decide as Hin.
    - exfalso. apply Hext. apply list_elem_of_In. apply list_elem_of_In in Hin.
      simpl in *. tauto.
    - destruct (String.eqb _ ".pdf") eqn:E; [|reflexivity].
      exfalso. apply Hext. apply String.eqb_eq in E. rewrite E.
      apply list_elem_of_In. simpl. tauto. }
  split; [exact Hone|].
  induction before as [|x before IH]; intros after acc w.
  - simpl app. by rewrite extract_members_cons, Hone.
  - simpl app. rewrite !extract_members_cons.
    destruct (extract_member dir pid name date x acc w) as [w' [e|a]]; [reflexivity|].
    apply IH.
Qed.

Lemma C9_unrecognized_extension_skipped_witness :
  let dir := PurePath.Path "A B_7_2020" in
  let m := mkZipInfo "A B_7_2020/notes.TXT" (read_ok [x00]) in
  let scan := mkZipInfo "A B_7_2020/scan.jpg" (read_ok [x00]) in
  let w := mkWorld empty_db ∅ ∅ ∅ ∅ ∅ in
  extract_member dir "7" "A B" "2020" m [] w = (w, inr [])
  /\ extract_members dir "7" "A B" "2020" ([scan] ++ m :: [scan]) [] w
     = extract_members dir "7" "A B" "2020" ([scan] ++ [scan]) [] w.
Proof.
  intros dir m scan w.
  destruct (C9_unrecognized_extension_skipped dir "7" "A B" "2020" m
              ltac:(apply (bool_decide_unpack _); vm_compute; exact I))
    as [Hone Hall].
  split; [apply Hone|apply Hall].
Defined.

(** ** The archive pipeline *)

Section ArchiveFacts.
Context `{Runtime}.

Lemma extraction_only_refl w : extraction_only w w.
Proof. unfold extraction_only. repeat split; done. Qed.

Lemma extraction_only_trans w1 w2 w3 :
  extraction_only w1 w2 -> extraction_only w2 w3 -> extraction_only w1 w3.
Proof.
  unfold extraction_only.
  intros (-> & -> & -> & -> & Hi & Hp) (-> & -> & -> & -> & Hi' & Hp').
  repeat split; try done; etrans; done.
Qed.

Lemma extract_member_only dir pid name date m acc w w' r :
  extract_member dir pid name date m acc w = (w', r) -> extraction_only w w'.
Proof.
  unfold extract_member.
  destruct (is_dir m || _); [intros [= <- <-]; apply extraction_only_refl|].
  destruct (classify _) as [[d k]|]; [|intros [= <- <-]; apply extraction_only_refl].
  destruct (zi_read m) as [| |data]; [intros [= <- <-]; apply extraction_only_refl| |];
    unfold bind; rewrite write_file_run; destruct (can_create _ _);
    try (intros [= <- <-]; apply extraction_only_refl);
    destruct d; intros [= <- <-]; unfold extraction_only; simpl;
    repeat split; try done; rewrite dom_insert_L; apply union_subseteq_r.
Qed.

Lemma extract_members_only dir pid name date ms acc w w' r :
  extract_members dir pid name date ms acc w = (w', r) -> extraction_only w w'.
Proof.
  revert acc w. induction ms as [|m ms IH]; intros acc w.
  - intros [= <- <-]. apply extraction_only_refl.
  - rewrite extract_members_cons.
    destruct (extract_member dir pid name date m acc w) as [w1 [e|a]] eqn:E.
    + intros [= <- <-]. by eapply extract_member_only.
    + intros Hrest. eapply extraction_only_trans; [by eapply extract_member_only|].
      by eapply IH.
Qed.

Lemma try_body_run zname content md5 w :
  body_run zname content md5 w
    (fst (try_body zname content md5 w)) (snd (try_body zname content md5 w)).
Proof.
  unfold try_body, bind, require.
  destruct (zip_infolist content) as [members|] eqn:Hz; simpl; [|by constructor].
  destruct (find_dir_in_zip _) as [dir|] eqn:Hd; simpl; [|by econstructor].
  destruct (parse_dir_name _) as [[[name pid] date]|] eqn:Hp; simpl;
    [|by eapply run_index].
  destruct (extract_members _ _ _ _ _ _ _) as [w2 [e|files]] eqn:He; simpl;
    [by eapply run_read|].
  destruct (commit_archive _ _ _ _ _ _ _) as [d|] eqn:Hc; simpl.
  - by eapply run_committed.
  - by eapply run_integrity.
Qed.

(** A run of the body that raises has touched the two extraction areas
    only. *)
Lemma body_raises_only zname content md5 w w1 e :
  body_run zname content md5 w w1 (inl e) -> extraction_only w w1.
Proof.
  inversion 1; subst; try apply extraction_only_refl;
    by eapply extract_members_only.
Qed.

End ArchiveFacts.

(** ** Rows and keys *)

Lemma next_id_gt ids x : In x ids -> x < next_id ids.
Proof.
  unfold next_id. induction ids as [|y ids IH]; simpl; [done|].
  intros [->|Hx]; [lia|]. specialize (IH Hx). lia.
Qed.

Lemma filter_none {A} (f : A -> bool) (l : list A) :
  existsb f l = false -> List.filter f l = [].
Proof.
  induction l as [|x l IH]; simpl; [done|].
  intros Hf. apply orb_false_iff in Hf as [-> Hf]. auto.
Qed.

Lemma filter_all {A} (f : A -> bool) (l : list A) :
  (forall x, In x l -> f x = true) -> List.filter f l = l.
Proof.
  induction l as [|x l IH]; simpl; [done|].
  intros Hf. rewrite (Hf x) by auto. f_equal. auto.
Qed.

Lemma filter_singleton_in {A} (f : A -> bool) (l : list A) x :
  List.filter f l = [x] -> In x l /\ f x = true.
Proof.
  intros Hf. apply filter_In. rewrite Hf. by left.
Qed.

Lemma file_rows_enc k enc fs f : In f (file_rows k enc fs) -> patient_encounter_id f = enc.
Proof.
  revert k. induction fs as [|[fname ftype] fs IH]; simpl; intros k; [done|].
  intros [<-|Hf]; [done|]. by eapply IH.
Qed.

Lemma file_rows_named k enc fs :
  map (fun f => (filename f, file_type f)) (file_rows k enc fs) = fs.
Proof.
  revert k. induction fs as [|[fname ftype] fs IH]; simpl; intros k; [done|].
  by rewrite IH.
Qed.

Lemma commit_archive_inv d zname md5 name pid date fs d' :
  commit_archive d zname md5 name pid date fs = Some d' ->
  existsb (fun z => String.eqb (md5_hash z) md5) (zip_files d) = false
  /\ existsb (fun e => zip_file_id e =? next_id (map zf_id (zip_files d)))
       (patient_encounters d) = false
  /\ d' = mkDB
            (zip_files d ++ [mkZipFile (next_id (map zf_id (zip_files d))) zname md5])
            (patient_encounters d
             ++ [mkPatientEncounters (next_id (map pe_id (patient_encounters d)))
                   (next_id (map zf_id (zip_files d))) name pid date])
            (encounter_files d
             ++ file_rows (next_id (map ef_id (encounter_files d)))
                  (next_id (map pe_id (patient_encounters d))) fs)
            (diabetic_retinopathy_reports d) (glaucoma_reports d).
Proof.
  unfold commit_archive.
  destruct (existsb _ _ || existsb _ _ || existsb _ _) eqn:E; [done|].
  apply orb_false_iff in E as [E E3]. apply orb_false_iff in E as [E1 E2].
  intros [= <-]. done.
Qed.

(** What the commit of an archive leaves for its own fingerprint. *)
Lemma commit_archive_records d zname md5 name pid date fs d' :
  db_wf d ->
  commit_archive d zname md5 name pid date fs = Some d' ->
  let z := mkZipFile (next_id (map zf_id (zip_files d))) zname md5 in
  let e := mkPatientEncounters (next_id (map pe_id (patient_encounters d)))
             (zf_id z) name pid date in
  archives_of md5 d' = [z]
  /\ encounters_of (zf_id z) d' = [e]
  /\ files_of (pe_id e) d'
     = file_rows (next_id (map ef_id (encounter_files d))) (pe_id e) fs.
Proof.
  intros Hwf Hc. apply commit_archive_inv in Hc as (Hmd5 & Henc & ->).
  unfold archives_of, encounters_of, files_of. simpl.
  rewrite !List.filter_app. simpl.
  rewrite (filter_none _ _ Hmd5), (filter_none _ _ Henc).
  rewrite String.eqb_refl, Nat.eqb_refl. repeat split; try done.
  rewrite (filter_none _ (encounter_files d)).
  - simpl. apply filter_all. intros f Hf. apply file_rows_enc in Hf. by apply Nat.eqb_eq.
  - apply not_true_is_false. intros Hex. apply existsb_exists in Hex as (f & Hf & Hid).
    apply Nat.eqb_eq in Hid. apply Hwf in Hf. apply next_id_gt in Hf. lia.
Qed.

Lemma commit_archive_wf d zname md5 name pid date fs d' :
  db_wf d -> commit_archive d zname md5 name pid date fs = Some d' -> db_wf d'.
Proof.
  intros Hwf Hc. apply commit_archive_inv in Hc as (_ & _ & ->).
  intros f. simpl. rewrite in_app_iff, map_app, in_app_iff. intros [Hf|Hf].
  - left. by apply Hwf.
  - right. apply file_rows_enc in Hf. rewrite Hf. by left.
Qed.

(** The rows of an archive that is recorded stay what they are when
    another archive is committed. *)
Lemma commit_archive_keeps h z e fl d zname md5 name pid date fs d' :
  recorded h z e fl d ->
  commit_archive d zname md5 name pid date fs = Some d' ->
  recorded h z e fl d'.
Proof.
  intros (Ha & He & Hf) Hc. apply commit_archive_inv in Hc as (Hmd5 & _ & ->).
  apply filter_singleton_in in Ha as Hz. destruct Hz as [Hz Hzh].
  apply filter_singleton_in in He as Hee. destruct Hee as [Hee _].
  unfold recorded, archives_of, encounters_of, files_of in *.
  cbn [zip_files patient_encounters encounter_files].
  rewrite !List.filter_app, Ha, He, Hf. cbn [List.filter md5_hash zip_file_id].
  assert (String.eqb md5 h = false) as ->.
  { apply not_true_is_false. intros Heq. apply String.eqb_eq in Heq as ->.
    assert (existsb (fun z0 => String.eqb (md5_hash z0) h) (zip_files d) = true)
      by (apply existsb_exists; eauto).
    congruence. }
  assert ((next_id (map zf_id (zip_files d)) =? zf_id z) = false) as ->.
  { apply Nat.eqb_neq. pose proof (next_id_gt _ _ (in_map zf_id _ _ Hz)). lia. }
  rewrite (filter_none _ (file_rows _ _ _)); [by rewrite !app_nil_r|].
  apply not_true_is_false. intros Hex. apply existsb_exists in Hex as (f & Hin & Hid).
  apply file_rows_enc in Hin. apply Nat.eqb_eq in Hid.
  pose proof (next_id_gt _ _ (in_map pe_id _ _ Hee)). lia.
Qed.

Section ArchiveClaims.
Context `{Runtime}.

Lemma process_unfold zname content w :
  UPLOAD_DIR w !! zname = Some content ->
  existsb (fun z => String.eqb (md5_hash z) (calculate_md5 content)) (zip_files (db w))
  = false ->
  process_zip_file zname w
  = match try_body zname content (calculate_md5 content) w with
    | (w1, inr o) => (w1, inr o)
    | (w1, inl e) =>
        (mkWorld (db w1) (delete zname (UPLOAD_DIR w1)) (IMAGE_DIR w1) (PDF_DIR w1)
           (PROCESSED_DIR w1) (<[zname := content]> (PROCESSING_ERROR_DIR w1)),
         inr (Failed e))
    end.
Proof.
  intros Hup Hnew. unfold process_zip_file, bind, get, require. rewrite Hup. simpl.
  rewrite Hnew. unfold try_except.
  by destruct (try_body _ _ _ _) as [w1 [e|o]].
Qed.

Lemma first_some_none {A B} (f : A -> option B) (l : list A) :
  first_some f l = None <-> forall x, In x l -> f x = None.
Proof.
  induction l as [|x l IH]; simpl; [split; [intros _ ? []|done]|].
  destruct (f x) eqn:E.
  - split; [done|]. intros Hall. specialize (Hall x (or_introl eq_refl)). congruence.
  - rewrite IH. split.
    + intros Hall y [<-|Hy]; auto.
    + intros Hall y Hy. apply Hall. by right.
Qed.

Lemma scan_prefixes_none d :
  scan_prefixes d = None
  <-> forall i, i < length (PurePath.parts d) ->
        length (Str.split "_" (Str.join "/" (take (S i) (PurePath.parts d)))) < 3.
Proof.
  unfold scan_prefixes. rewrite first_some_none. split.
  - intros Hall i Hi. specialize (Hall i). unfold test_prefix in Hall.
    destruct (3 <=? _) eqn:E.
    + discriminate Hall. apply in_seq. lia.
    + apply Nat.leb_gt in E. exact E.
  - intros Hall i Hi. apply in_seq in Hi. unfold test_prefix.
    specialize (Hall i ltac:(lia)).
    destruct (3 <=? _) eqn:E; [|done]. apply Nat.leb_le in E. lia.
Qed.

(** The condition under which no directory is found: no prefix of any
    directory of the archive, joined back into text, splits on
    underscores into three parts. The count runs over the whole prefix. *)
Lemma find_dir_none_iff namelist :
  find_dir_in_zip namelist = None
  <-> forall n, In n namelist ->
        scan_prefixes (PurePath.parent (PurePath.Path n)) = None.
Proof.
  unfold find_dir_in_zip. rewrite first_some_none. split.
  - intros Hall n Hn. apply Hall.
    apply list_elem_of_In. rewrite set_iter_perm. apply elem_of_remove_dups.
    apply list_elem_of_In. by apply (in_map (fun p => PurePath.parent (PurePath.Path p))).
  - intros Hall d Hd. apply list_elem_of_In in Hd. rewrite set_iter_perm in Hd.
    apply elem_of_remove_dups, list_elem_of_In, in_map_iff in Hd as (n & <- & Hn).
    by apply Hall.
Qed.

(** C3: when the body of the [try] raises, whatever the exception, the
    run ends as a failure that leaves the store as it was (nothing of the
    archive is recorded), takes the archive out of the upload area into
    the error area and not into the processed area, and leaves the two
    extraction areas exactly as they were when the exception was raised:
    no file written before is removed. *)
Theorem C3_failure_rolls_back_and_moves_to_error zname content w w1 e :
  UPLOAD_DIR w !! zname = Some content ->
  existsb (fun z => String.eqb (md5_hash z) (calculate_md5 content)) (zip_files (db w))
  = false ->
  try_body zname content (calculate_md5 content) w = (w1, inl e) ->
  exists w',
    process_zip_file zname w = (w', inr (Failed e))
    /\ db w' = db w
    /\ UPLOAD_DIR w' = delete zname (UPLOAD_DIR w)
    /\ PROCESSING_ERROR_DIR w' = <[zname := content]> (PROCESSING_ERROR_DIR w)
    /\ PROCESSED_DIR w' = PROCESSED_DIR w
    /\ IMAGE_DIR w' = IMAGE_DIR w1 /\ PDF_DIR w' = PDF_DIR w1
    /\ dom (IMAGE_DIR w) ⊆ dom (IMAGE_DIR w')
    /\ dom (PDF_DIR w) ⊆ dom (PDF_DIR w').
Proof.
  intros Hup Hnew Hbody.
  pose proof (try_body_run zname content (calculate_md5 content) w) as Hrun.
  rewrite Hbody in Hrun. simpl in Hrun.
  apply body_raises_only in Hrun as (Hdb & Hu & Hp & He & Hi & Hd).
  eexists. split; [by rewrite (process_unfold _ _ _ Hup Hnew), Hbody|].
  simpl. by rewrite Hdb, Hu, Hp, He.
Qed.

(** The three causes the handler is written for. *)
Lemma malformed_archive_raises zname content md5 w :
  zip_infolist content = None ->
  try_body zname content md5 w = (w, inl BadZipFile).
Proof. intros Hz. unfold try_body, bind, require. by rewrite Hz. Qed.

Lemma no_qualifying_directory_raises zname content md5 w members :
  zip_infolist content = Some members ->
  find_dir_in_zip (map zi_filename members) = None ->
  try_body zname content md5 w = (w, inl (ValueError no_dir_msg)).
Proof. intros Hz Hd. unfold try_body, bind, require. rewrite Hz. simpl. by rewrite Hd. Qed.

Lemma persistence_failure_raises zname content md5 w members dir name pid date w2 files :
  zip_infolist content = Some members ->
  find_dir_in_zip (map zi_filename members) = Some dir ->
  parse_dir_name (PurePath.name dir) = Some (name, pid, date) ->
  extract_members dir pid name date members [] w = (w2, inr files) ->
  commit_archive (db w2) zname md5 name pid date files = None ->
  try_body zname content md5 w = (w2, inl IntegrityError).
Proof.
  intros Hz Hd Hp He Hc. unfold try_body, bind, require, get.
  rewrite Hz. simpl. rewrite Hd. simpl. rewrite Hp. simpl. rewrite He. simpl.
  by rewrite Hc.
Qed.

End ArchiveClaims.

Section Idempotence.
Context `{Runtime}.

(** A run either leaves the store alone or commits one archive to it. *)
Lemma process_store zname w w' r :
  process_zip_file zname w = (w', r) ->
  db w' = db w
  \/ exists content name pid date fs,
       UPLOAD_DIR w !! zname = Some content
       /\ r = inr Processed
       /\ commit_archive (db w) zname (calculate_md5 content) name pid date fs
          = Some (db w').
Proof.
  destruct (UPLOAD_DIR w !! zname) as [content|] eqn:Hup.
  - destruct (existsb (fun z => String.eqb (md5_hash z) (calculate_md5 content))
                (zip_files (db w))) eqn:Hnew.
    + unfold process_zip_file, bind, get, require. rewrite Hup. simpl. rewrite Hnew.
      intros [= <- <-]. by left.
    + rewrite (process_unfold _ _ _ Hup Hnew).
      pose proof (try_body_run zname content (calculate_md5 content) w) as Hrun.
      destruct (try_body _ _ _ _) as [w1 [e|o]]; simpl in Hrun.
      * intros [= <- <-]. left. simpl. by apply body_raises_only in Hrun as (? & _).
      * intros [= <- <-]. inversion Hrun; subst. right.
        match goal with
        | Hx : extract_members _ _ _ _ _ _ _ = _ |- _ =>
            apply extract_members_only in Hx as (Hdb & _)
        end.
        rewrite Hdb in *. simpl. eauto 10.
  - unfold process_zip_file, bind, get, require. rewrite Hup. simpl.
    intros [= <- <-]. by left.
Qed.

Lemma process_keeps_recorded h z e fl zname w w' r :
  recorded h z e fl (db w) ->
  process_zip_file zname w = (w', r) ->
  recorded h z e fl (db w').
Proof.
  intros Hrec Hrun. apply process_store in Hrun as [->|Hc]; [done|].
  destruct Hc as (content & name & pid & date & fs & _ & _ & Hc).
  by eapply commit_archive_keeps.
Qed.

Lemma later_keeps_recorded h z e fl w w' :
  later w w' -> recorded h z e fl (db w) -> recorded h z e fl (db w').
Proof.
  induction 1 as [w|w zname w1 r w' Hrun _ IH|w zname content w' _ IH]; intros Hrec.
  - done.
  - apply IH. by eapply process_keeps_recorded.
  - by apply IH.
Qed.

Lemma process_keeps_wf zname w w' r :
  db_wf (db w) -> process_zip_file zname w = (w', r) -> db_wf (db w').
Proof.
  intros Hwf Hrun. apply process_store in Hrun as [->|Hc]; [done|].
  destruct Hc as (content & name & pid & date & fs & _ & _ & Hc).
  by eapply commit_archive_wf.
Qed.

Lemma empty_db_wf : db_wf empty_db.
Proof. intros f []. Qed.

(** An archive whose fingerprint is recorded is skipped and nothing
    changes. *)
Lemma recorded_is_skipped h z e fl zname content w :
  recorded h z e fl (db w) ->
  UPLOAD_DIR w !! zname = Some content ->
  calculate_md5 content = h ->
  process_zip_file zname w = (w, inr Skipped).
Proof.
  intros (Ha & _) Hup Hh. unfold process_zip_file, bind, get, require.
  rewrite Hup. simpl. rewrite Hh.
  apply filter_singleton_in in Ha as [Hz Hzh].
  assert (existsb (fun z0 => String.eqb (md5_hash z0) h) (zip_files (db w)) = true) as ->
    by (apply existsb_exists; eauto).
  reflexivity.
Qed.

(** What a successful run went through. *)
Lemma process_processed_inv zname content w w' :
  UPLOAD_DIR w !! zname = Some content ->
  process_zip_file zname w = (w', inr Processed) ->
  exists members dir name pid date w2 files,
    zip_infolist content = Some members
    /\ find_dir_in_zip (map zi_filename members) = Some dir
    /\ parse_dir_name (PurePath.name dir) = Some (name, pid, date)
    /\ extract_members dir pid name date members [] w = (w2, inr files)
    /\ commit_archive (db w) zname (calculate_md5 content) name pid date files
       = Some (db w').
Proof.
  intros Hup.
  destruct (existsb (fun z => String.eqb (md5_hash z) (calculate_md5 content))
              (zip_files (db w))) eqn:Hnew.
  - unfold process_zip_file, bind, get, require. rewrite Hup. simpl. by rewrite Hnew.
  - rewrite (process_unfold _ _ _ Hup Hnew).
    pose proof (try_body_run zname content (calculate_md5 content) w) as Hb.
    destruct (try_body _ _ _ _) as [w1 [e|o]]; simpl in Hb; [done|].
    intros [= <- ->]. inversion Hb; subst.
    match goal with
    | Hx : extract_members _ _ _ _ _ _ _ = _ |- _ =>
        pose proof (extract_members_only _ _ _ _ _ _ _ _ _ Hx) as (Hdb & _)
    end.
    rewrite Hdb in *. simpl. eauto 12.
Qed.

(** C2: after a successful run on an archive, the store holds for the
    fingerprint of its bytes exactly one archive row, with exactly one
    encounter row, which carries the parsed name, identifier and date,
    and the file rows of the extraction; in every later state, whatever
    was uploaded or processed in between, these rows are the same, and a
    run on any file with the same bytes is skipped and changes nothing,
    neither in the store nor in the directories. *)
Theorem C2_same_bytes_processed_once zname content w w' :
  db_wf (db w) ->
  UPLOAD_DIR w !! zname = Some content ->
  process_zip_file zname w = (w', inr Processed) ->
  exists z e fs members dir w1 files,
    zip_infolist content = Some members
    /\ find_dir_in_zip (map zi_filename members) = Some dir
    /\ parse_dir_name (PurePath.name dir)
       = Some (pe_name e, patient_id e, capture_date e)
    /\ extract_members dir (patient_id e) (pe_name e) (capture_date e) members [] w
       = (w1, inr files)
    /\ map (fun f => (filename f, file_type f)) fs = files
    /\ zip_filename z = zname
    /\ forall w2, later w' w2 ->
         archives_of (calculate_md5 content) (db w2) = [z]
         /\ encounters_of (zf_id z) (db w2) = [e]
         /\ files_of (pe_id e) (db w2) = fs
         /\ forall zname2, UPLOAD_DIR w2 !! zname2 = Some content ->
              process_zip_file zname2 w2 = (w2, inr Skipped).
Proof.
  intros Hwf Hup Hrun.
  destruct (process_processed_inv _ _ _ _ Hup Hrun)
    as (members & dir & name & pid & date & w1 & files & Hz & Hd & Hp & He & Hc).
  pose proof (commit_archive_records _ _ _ _ _ _ _ _ Hwf Hc) as Hrec.
  simpl in Hrec.
  exists (mkZipFile (next_id (map zf_id (zip_files (db w)))) zname
            (calculate_md5 content)),
    (mkPatientEncounters (next_id (map pe_id (patient_encounters (db w))))
       (next_id (map zf_id (zip_files (db w)))) name pid date),
    (file_rows (next_id (map ef_id (encounter_files (db w))))
       (next_id (map pe_id (patient_encounters (db w)))) files),
    members, dir, w1, files.
  split; [exact Hz|]. split; [exact Hd|]. split; [exact Hp|]. split; [exact He|].
  split; [apply file_rows_named|]. split; [done|].
  intros w2 Hlater.
  pose proof (later_keeps_recorded _ _ _ _ _ _ Hlater Hrec) as Hrec2.
  destruct Hrec2 as (Ha & Hen & Hf). split; [done|]. split; [done|]. split; [done|].
  intros zname2 Hup2. eapply recorded_is_skipped; [|exact Hup2|reflexivity].
  by repeat split.
Qed.

End Idempotence.

(** ** Closed runs *)

(** C1 (the code departs from it): the archive whose only member is
    [a_b/c_d/scan.jpg] has no directory segment with three
    underscore-delimited parts, yet the scan accepts the directory
    [a_b/c_d], because it splits the joined prefix and so counts the
    underscore of the parent; the run then succeeds with an empty subject
    name, the archive goes to the processed area and not to the error
    area. *)
Theorem C1_parent_underscores_are_counted :
  (forall R : Runtime,
     @find_dir_in_zip R ["a_b/c_d/scan.jpg"] = Some (PurePath.Path "a_b/c_d"))
  /\ Forall (fun seg => length (Str.split "_" seg) < 3)
       (PurePath.parts (PurePath.Path "a_b/c_d"))
  /\ process_zip_file "x.zip" (toy_world "x.zip" "a_b/c_d/scan.jpg")
     = (mkWorld
          (mkDB [mkZipFile 1 "x.zip" "a_b/c_d/scan.jpg"]
             [mkPatientEncounters 1 1 "" "c" "d"]
             [mkEncounterFile 1 1 "c__d_scan.jpg" "image" false] [] [])
          ∅ {[ "c__d_scan.jpg" := [x00] ]} ∅
          {[ "x.zip" := list_byte_of_string "a_b/c_d/scan.jpg" ]} ∅,
        inr Processed).
Proof.
  split; [|split].
  - intros R. unfold find_dir_in_zip. simpl map.
    pose proof (set_iter_perm [PurePath.parent (PurePath.Path "a_b/c_d/scan.jpg")]) as Hp.
    change (remove_dups _) with [PurePath.parent (PurePath.Path "a_b/c_d/scan.jpg")] in Hp.
    apply Permutation_singleton_r in Hp. rewrite Hp. reflexivity.
  - repeat constructor.
  - vm_compute. reflexivity.
Qed.

Lemma C2_same_bytes_processed_once_witness :
  let c := list_byte_of_string "Jane Doe_12345_20240101/scan.jpg" in
  let w := toy_world "a.zip" "Jane Doe_12345_20240101/scan.jpg" in
  let w' :=
    mkWorld
      (mkDB [mkZipFile 1 "a.zip" "Jane Doe_12345_20240101/scan.jpg"]
         [mkPatientEncounters 1 1 "Jane Doe" "12345" "20240101"]
         [mkEncounterFile 1 1 "12345_Jane_Doe_20240101_scan.jpg" "image" false] [] [])
      ∅ {[ "12345_Jane_Doe_20240101_scan.jpg" := [x00] ]} ∅ {[ "a.zip" := c ]} ∅ in
  process_zip_file "a.zip" w = (w', inr Processed)
  /\ process_zip_file "again.zip" (upload "again.zip" c w')
     = (upload "again.zip" c w', inr Skipped).
Proof.
  intros c w w'.
  assert (Hrun : process_zip_file "a.zip" w = (w', inr Processed))
    by (vm_compute; reflexivity).
  split; [exact Hrun|].
  destruct (C2_same_bytes_processed_once "a.zip" c w w' empty_db_wf eq_refl Hrun)
    as (z & e & fs & members & dir & w1 & files & _ & _ & _ & _ & _ & _ & Hlater).
  apply (Hlater (upload "again.zip" c w')).
  - eapply later_upload, later_now.
  - apply lookup_insert_eq.
Defined.

Lemma C3_failure_rolls_back_and_moves_to_error_witness :
  let c := list_byte_of_string "Jane Doe_12345_20240101/scan.jpg" in
  let d := mkDB [mkZipFile 1 "a.zip" "earlier bytes"]
             [mkPatientEncounters 1 1 "Jane Doe" "12345" "20240101"] [] [] [] in
  let w := mkWorld d {[ "a.zip" := c ]} ∅ ∅ ∅ ∅ in
  exists w',
    process_zip_file "a.zip" w = (w', inr (Failed IntegrityError))
    /\ db w' = d
    /\ UPLOAD_DIR w' = delete "a.zip" (UPLOAD_DIR w)
    /\ PROCESSING_ERROR_DIR w' = <["a.zip" := c]> ∅
    /\ PROCESSED_DIR w' = ∅
    /\ IMAGE_DIR w' = {[ "12345_Jane_Doe_20240101_scan.jpg" := [x00] ]}
    /\ PDF_DIR w' = ∅
    /\ dom (IMAGE_DIR w) ⊆ dom (IMAGE_DIR w')
    /\ dom (PDF_DIR w) ⊆ dom (PDF_DIR w').
Proof.
  intros c d w.
  refine (C3_failure_rolls_back_and_moves_to_error "a.zip" c w
            (mkWorld d {[ "a.zip" := c ]}
               {[ "12345_Jane_Doe_20240101_scan.jpg" := [x00] ]} ∅ ∅ ∅)
            IntegrityError _ _ _).
  - reflexivity.
  - reflexivity.
  - vm_compute. reflexivity.
Defined.

(** ** Patterns *)

Lemma lit_ci_some_iff pat s :
  is_Some (Re.lit_ci pat s) <-> String.prefix (Str.lower pat) (Str.lower s) = true.
Proof.
  revert s. induction pat as [|p pat IH]; intros s.
  - destruct s; simpl; split; eauto.
  - destruct s as [|c s]; simpl.
    + split; [intros [? ?]; done|done].
    + destruct (ascii_dec (Str.lower_char p) (Str.lower_char c)) as [Heq|Hne].
      * rewrite Heq, Ascii.eqb_refl. apply IH.
      * assert (Ascii.eqb (Str.lower_char c) (Str.lower_char p) = false) as ->
          by (apply Ascii.eqb_neq; congruence).
        split; [intros [? ?]; done|done].
Qed.

Lemma lit_ci_none_iff pat s :
  Re.lit_ci pat s = None <-> String.prefix (Str.lower pat) (Str.lower s) = false.
Proof.
  rewrite <- not_true_iff_false, <- lit_ci_some_iff.
  destruct (Re.lit_ci pat s) as [r|].
  - split; [done|]. intros Hn. exfalso. apply Hn. by exists r.
  - split; [|done]. intros _ [? ?]. done.
Qed.

(** The search of a literal succeeds precisely on the texts that hold
    the literal, letter case apart. *)
Lemma search_rest_some_iff pat s :
  is_Some (Re.search_rest pat s) <-> Str.contains (Str.lower pat) (Str.lower s) = true.
Proof.
  induction s as [|c s IH].
  - simpl. pose proof (lit_ci_some_iff pat "") as Hl. simpl in Hl.
    rewrite orb_false_r, <- Hl. destruct (Re.lit_ci pat ""); split; eauto.
  - cbn [Re.search_rest Str.lower Str.contains].
    pose proof (lit_ci_some_iff pat (String c s)) as Hl. cbn [Str.lower] in Hl.
    rewrite orb_true_iff, <- Hl, <- IH.
    destruct (Re.lit_ci pat (String c s)); split; eauto.
    intros [[? ?]|?]; done.
Qed.

Lemma search_rest_none pat s :
  Str.contains (Str.lower pat) (Str.lower s) = false -> Re.search_rest pat s = None.
Proof.
  intros Hc. destruct (Re.search_rest pat s) eqn:E; [|done].
  assert (is_Some (Re.search_rest pat s)) as Hs by (rewrite E; eauto).
  apply search_rest_some_iff in Hs. congruence.
Qed.

Lemma lit_ci_app pat m rest :
  Str.lower m = Str.lower pat -> Re.lit_ci pat (m +:+ rest) = Some rest.
Proof.
  revert m. induction pat as [|p pat IH]; intros [|c m]; simpl; try done.
  intros [= Hc Hm]. rewrite Hc, Ascii.eqb_refl. by apply IH.
Qed.

(** The leftmost occurrence decides the group. *)
Lemma search_rest_leftmost pat pre m rest :
  Str.lower m = Str.lower pat ->
  (forall i, i < String.length pre ->
     String.prefix (Str.lower pat) (Str.lower (Str.drop i (pre +:+ m +:+ rest))) = false) ->
  Re.search_rest pat (pre +:+ m +:+ rest) = Some (Str.lstrip_by Str.isspace rest).
Proof.
  intros Hm. induction pre as [|c pre IH]; intros Hleft.
  - cbn [String.append]. destruct (m +:+ rest) eqn:E; simpl;
      rewrite <- E, (lit_ci_app _ _ _ Hm); done.
  - pose proof (Hleft 0 ltac:(simpl; lia)) as H0.
    change (Str.drop 0 (String c pre +:+ m +:+ rest))
      with (String c (pre +:+ m +:+ rest)) in H0.
    apply lit_ci_none_iff in H0.
    change (String c pre +:+ m +:+ rest) with (String c (pre +:+ m +:+ rest)).
    cbn [Re.search_rest]. rewrite H0.
    apply IH. intros i Hi. apply (Hleft (S i)). simpl. lia.
Qed.

Lemma lstrip_by_idem p s : Str.lstrip_by p (Str.lstrip_by p s) = Str.lstrip_by p s.
Proof.
  induction s as [|c s IH]; simpl; [done|].
  destruct (p c) eqn:E; [done|]. simpl. by rewrite E.
Qed.

Lemma strip_lstrip s : Str.strip (Str.lstrip_by Str.isspace s) = Str.strip s.
Proof. unfold Str.strip. by rewrite lstrip_by_idem. Qed.

(** ** The diagnostic rule *)

Lemma extract_dr_data_new text ef s result :
  dr_result_of text = Some result ->
  existing_dr (patient_encounter_id ef) s = false ->
  extract_dr_data text ef s = (add_dr (patient_encounter_id ef, result) s, inr tt).
Proof.
  intros Hr He. unfold extract_dr_data, bind, get. rewrite Hr. by rewrite He.
Qed.

Lemma extract_dr_data_existing text ef s :
  existing_dr (patient_encounter_id ef) s = true ->
  extract_dr_data text ef s = (s, inr tt).
Proof.
  intros He. unfold extract_dr_data, bind, get.
  destruct (dr_result_of text); [|done]. by rewrite He.
Qed.

(** C7: on a text that holds the marker [Result DR:], letter case
    apart, the rule reads a result; the result is the first line of what
    follows the leftmost marker, surrounding whitespace taken off. For an
    encounter without a finding the extractor raises nothing and leaves
    in the session one more waiting finding, for this encounter and with
    this result, the rest of the session being as it was; the commit that
    ends the document then has a row for the encounter with this result
    in the table of diagnostic findings, the one new row of the table
    when nothing else was waiting. The text of three lines [Result DR:],
    [Moderate NPDR], [Other text] gives [Moderate NPDR]. *)
Theorem C7_diagnostic_result_is_first_line :
  (forall pre m rest,
     Str.lower m = Str.lower "Result DR:" ->
     (forall i, i < String.length pre ->
        String.prefix (Str.lower "Result DR:")
          (Str.lower (Str.drop i (pre +:+ m +:+ rest))) = false) ->
     dr_result_of (pre +:+ m +:+ rest)
     = Some (hd "" (Str.split "010" (Str.strip rest))))
  /\ (forall text,
        Str.contains (Str.lower "Result DR:") (Str.lower text) = true ->
        is_Some (dr_result_of text))
  /\ (forall text ef s result,
        dr_result_of text = Some result ->
        existing_dr (patient_encounter_id ef) s = false ->
        let s' := fst (extract_dr_data text ef s) in
        snd (extract_dr_data text ef s) = inr tt
        /\ new_dr s' = new_dr s ++ [(patient_encounter_id ef, result)]
        /\ store s' = store s
        /\ new_gl s' = new_gl s
        /\ autoflush s' = autoflush s
        /\ (exists k,
              In (mkDiabeticRetinopathyReport k (patient_encounter_id ef) result)
                (diabetic_retinopathy_reports (store (commit s'))))
        /\ (new_dr s = [] ->
            diabetic_retinopathy_reports (store (commit s'))
            = diabetic_retinopathy_reports (store s)
              ++ [mkDiabeticRetinopathyReport
                    (next_id (map dr_id (diabetic_retinopathy_reports (store s))))
                    (patient_encounter_id ef) result]))
  /\ dr_result_of ("Result DR:" +:+ nl +:+ "Moderate NPDR" +:+ nl +:+ "Other text")
     = Some "Moderate NPDR".
Proof.
  split; [|split; [|split]].
  - intros pre m rest Hm Hleft. unfold dr_result_of.
    rewrite (search_rest_leftmost _ _ _ _ Hm Hleft). by rewrite strip_lstrip.
  - intros text Hc. apply search_rest_some_iff in Hc as [g Hg].
    unfold dr_result_of. rewrite Hg. eauto.
  - intros text ef s result Hr He s'. subst s'.
    rewrite (extract_dr_data_new _ _ _ _ Hr He).
    cbn [fst snd add_dr new_dr store new_gl autoflush].
    do 5 (split; [reflexivity|]). split.
    + exists (length (new_dr s)
              + next_id (map dr_id (diabetic_retinopathy_reports (store s)))).
      cbn [commit store add_dr new_dr diabetic_retinopathy_reports].
      apply in_or_app. right.
      generalize (next_id (map dr_id (diabetic_retinopathy_reports (store s)))).
      induction (new_dr s) as [|[e res] rest IH]; intros k; simpl.
      * by left.
      * right. replace (S (length rest + k)) with (length rest + S k) by lia.
        apply IH.
    + intros Hnil.
      cbn [commit store add_dr new_dr diabetic_retinopathy_reports].
      by rewrite Hnil.
  - reflexivity.
Qed.

Lemma C7_diagnostic_result_is_first_line_witness :
  let text := "Eye report " +:+ "RESULT dr:" +:+ ("  Mild NPDR " +:+ nl +:+ "Advice: review") in
  let ef := mkEncounterFile 1 1 "12345_Jane_Doe_20240101_report.pdf" "pdf" false in
  let s := Session_of (toy_store []) in
  dr_result_of text = Some "Mild NPDR "
  /\ is_Some (dr_result_of text)
  /\ snd (extract_dr_data text ef s) = inr tt
  /\ new_dr (fst (extract_dr_data text ef s)) = [(1, "Mild NPDR ")]
  /\ diabetic_retinopathy_reports (store (commit (fst (extract_dr_data text ef s))))
     = [mkDiabeticRetinopathyReport 1 1 "Mild NPDR "].
Proof.
  intros text ef s.
  destruct C7_diagnostic_result_is_first_line as (Hfirst & Hsome & Hstore & _).
  destruct (Hstore text ef s "Mild NPDR " eq_refl eq_refl)
    as (Hret & Hnew & _ & _ & _ & _ & Hrows).
  split; [|split; [|split; [|split]]].
  - refine (Hfirst "Eye report " "RESULT dr:"
              ("  Mild NPDR " +:+ nl +:+ "Advice: review") _ _).
    + reflexivity.
    + intros i Hi. simpl in Hi.
      do 11 (destruct i as [|i]; [reflexivity|]). lia.
  - apply Hsome. reflexivity.
  - exact Hret.
  - exact Hnew.
  - exact (Hrows eq_refl).
Defined.

(** ** Steps that keep a property of the session *)

Lemma preserves_ret {A} I (a : A) : preserves I (ret a).
Proof. by intros s. Qed.

Lemma preserves_raise {A} I e : preserves (A := A) I (raise e).
Proof. by intros s. Qed.

Lemma preserves_get I : preserves I get.
Proof. by intros s. Qed.

Lemma preserves_require {A} I (o : option A) e : preserves I (require o e).
Proof. destruct o; [apply preserves_ret|apply preserves_raise]. Qed.

Lemma preserves_modify I f : (forall s, I s -> I (f s)) -> preserves I (modify f).
Proof. intros Hf s Hs. by apply Hf. Qed.

Lemma preserves_bind {A B} I (m : M Session A) (k : A -> M Session B) :
  preserves I m -> (forall a, preserves I (k a)) -> preserves I (bind m k).
Proof.
  intros Hm Hk s Hs. unfold bind. specialize (Hm s Hs).
  destruct (m s) as [s' [e|a]]; simpl in *; [done|]. by apply Hk.
Qed.

Lemma preserves_try_except {A} I (m : M Session A) h :
  preserves I m -> (forall e, preserves I (h e)) -> preserves I (try_except m h).
Proof.
  intros Hm Hh s Hs. unfold try_except. specialize (Hm s Hs).
  destruct (m s) as [s' [e|a]]; simpl in *; [|done]. by apply Hh.
Qed.

#[local] Hint Resolve preserves_ret preserves_raise preserves_get
  preserves_require preserves_modify preserves_bind preserves_try_except : preserves.

(** ** One finding per encounter *)

Lemma filter_some {A} (f : A -> bool) (l : list A) :
  List.filter f l <> [] -> existsb f l = true.
Proof.
  intros Hne. destruct (existsb f l) eqn:E; [done|].
  by rewrite (filter_none _ _ E) in Hne.
Qed.

Lemma dr_rows_other enc k l :
  existsb (fun r => fst r =? enc) l = false ->
  List.filter (fun r => dr_patient_encounter_id r =? enc) (dr_rows k l) = [].
Proof.
  revert k. induction l as [|[e res] l IH]; simpl; intros k; [done|].
  intros Hex. apply orb_false_iff in Hex as [-> Hex]. by apply IH.
Qed.

Lemma glaucoma_fields_state text (s : Session) : fst (glaucoma_fields text s) = s.
Proof.
  unfold glaucoma_fields. destruct (Re.search_rest _ _) as [sec|]; [|done].
  unfold bind, vcdr_of_section.
  destruct (Re.findall_vcdr sec) as [|v0 [|v1 tl]]; simpl; [done| |].
  - destruct (Str.contains _ _); unfold bind, require; by destruct (float v0).
  - unfold bind, require. destruct (float v0); [|done]. simpl. by destruct (float v1).
Qed.

(** Whatever holds of the session and is kept by the four ways the
    script changes it is kept by a whole run. *)
Section SessionInvariant.
Context `{OcrRuntime}.
Variable I : Session -> Prop.
Hypothesis I_add_dr : forall s enc result,
  I s -> existing_dr enc s = false -> I (add_dr (enc, result) s).
Hypothesis I_add_gl : forall s r, I s -> I (add_gl r s).
Hypothesis I_commit : forall s, I s -> I (commit s).
Hypothesis I_rollback : forall s, I s -> I (rollback s).

Lemma extract_dr_data_keeps text ef : preserves I (extract_dr_data text ef).
Proof.
  intros s Hs. unfold extract_dr_data, bind, get.
  destruct (dr_result_of text) as [result|]; [|done]. simpl.
  destruct (existing_dr (patient_encounter_id ef) s) eqn:E; [done|]. simpl.
  by apply I_add_dr.
Qed.

Lemma extract_glaucoma_data_keeps text ef : preserves I (extract_glaucoma_data text ef).
Proof.
  intros s Hs. unfold extract_glaucoma_data, bind.
  pose proof (glaucoma_fields_state text s) as Hg.
  destruct (glaucoma_fields text s) as [s' [e|[[r l] res]]]; simpl in Hg; subst s';
    [done|].
  unfold get. destruct (existing_gl _ s); [done|]. by apply I_add_gl.
Qed.

Lemma extract_page_keeps text ef : preserves I (extract_page text ef).
Proof.
  unfold extract_page. apply preserves_bind.
  - destruct (Str.contains _ _); auto using extract_dr_data_keeps with preserves.
  - intros _. destruct (Str.contains _ _);
      auto using extract_glaucoma_data_keeps with preserves.
Qed.

Lemma process_pages_keeps pages ef : preserves I (process_pages pages ef).
Proof.
  induction pages as [|page pages IH]; simpl;
    auto 6 using extract_page_keeps with preserves.
Qed.

Lemma process_pdf_keeps pdf_dir ef : preserves I (process_pdf pdf_dir ef).
Proof.
  unfold process_pdf. destruct (pdf_dir !! filename ef);
    auto 8 using process_pages_keeps with preserves.
Qed.

Lemma process_pdfs_keeps pdf_dir all_pdfs : preserves I (process_pdfs pdf_dir all_pdfs).
Proof.
  induction all_pdfs as [|ef rest IH]; simpl;
    auto using process_pdf_keeps with preserves.
Qed.

Lemma process_pdf_files_keeps pdf_dir : preserves I (process_pdf_files pdf_dir).
Proof.
  unfold process_pdf_files. destruct (negb OCR_ENABLED);
    auto using process_pdfs_keeps with preserves.
Qed.

End SessionInvariant.

(** An encounter with stored diagnostic findings keeps just these. *)
Section OneFinding.
Context `{OcrRuntime}.
Variables (enc : nat) (L : list DiabeticRetinopathyReport).
Hypothesis stored : L <> [].

Lemma keeps_dr_existing s : keeps_dr enc L s -> existing_dr enc s = true.
Proof.
  intros [Hs _]. unfold existing_dr. apply orb_true_iff. left.
  apply filter_some. unfold dr_of in Hs. by rewrite Hs.
Qed.

Lemma keeps_dr_add_dr s e result :
  keeps_dr enc L s -> existing_dr e s = false -> keeps_dr enc L (add_dr (e, result) s).
Proof.
  intros Hs E. pose proof (keeps_dr_existing s Hs) as Hex.
  destruct Hs as [Hst Hnew]. split; [done|]. simpl.
  rewrite existsb_app, Hnew. simpl. rewrite orb_false_r.
  apply Nat.eqb_neq. intros Heq. rewrite Heq in E. congruence.
Qed.

Lemma keeps_dr_commit s : keeps_dr enc L s -> keeps_dr enc L (commit s).
Proof.
  intros [Hst Hnew]. split; [|done]. unfold dr_of, commit in *. simpl.
  by rewrite List.filter_app, Hst, (dr_rows_other _ _ _ Hnew), app_nil_r.
Qed.

Lemma ocr_main_keeps pdf_dir d : dr_of enc d = L -> dr_of enc (ocr_main pdf_dir d) = L.
Proof.
  intros Hd. unfold ocr_main.
  apply (process_pdf_files_keeps (keeps_dr enc L)) with (s := Session_of d);
    [apply keeps_dr_add_dr|by intros ? ? []|apply keeps_dr_commit|by intros ? []|done].
Qed.

Lemma ocr_runs_keeps dirs d : dr_of enc d = L -> dr_of enc (ocr_runs dirs d) = L.
Proof.
  revert d. induction dirs as [|pdf_dir dirs IH]; intros d Hd; simpl; [done|].
  by apply IH, ocr_main_keeps.
Qed.

End OneFinding.

(** With the flush before each query, which is what [sessionmaker]
    gives, no encounter ever has more than one diagnostic finding, also
    when one document carries the report on several pages. *)
Section AtMostOne.
Context `{OcrRuntime}.

Lemma dr_rows_length enc k l :
  length (List.filter (fun r => dr_patient_encounter_id r =? enc) (dr_rows k l))
  = length (List.filter (fun r : nat * string => fst r =? enc) l).
Proof.
  revert k. induction l as [|[e res] l IH]; simpl; intros k; [done|].
  destruct (e =? enc); simpl; by rewrite IH.
Qed.

Lemma at_most_one_add_dr s e result :
  at_most_one_dr s -> existing_dr e s = false -> at_most_one_dr (add_dr (e, result) s).
Proof.
  intros [Haf Hle] E. split; [done|]. intros enc. specialize (Hle enc).
  unfold dr_waiting in *. simpl. rewrite List.filter_app, length_app. simpl.
  destruct (e =? enc) eqn:Heq; simpl; [|lia].
  apply Nat.eqb_eq in Heq as ->. unfold existing_dr in E. rewrite Haf in E.
  apply orb_false_iff in E as [E1 E2]. simpl in E2.
  unfold dr_of. rewrite (filter_none _ _ E1), (filter_none _ _ E2). simpl. lia.
Qed.

Lemma at_most_one_commit s : at_most_one_dr s -> at_most_one_dr (commit s).
Proof.
  intros [Haf Hle]. split; [done|]. intros enc. specialize (Hle enc).
  unfold dr_of, dr_waiting, commit in *. simpl.
  rewrite List.filter_app, length_app, dr_rows_length. lia.
Qed.

Lemma at_most_one_rollback s : at_most_one_dr s -> at_most_one_dr (rollback s).
Proof.
  intros [Haf Hle]. split; [done|]. intros enc. specialize (Hle enc).
  unfold dr_waiting in *. simpl in *. lia.
Qed.

Lemma ocr_runs_at_most_one dirs d :
  (forall enc, length (dr_of enc d) <= 1) ->
  forall enc, length (dr_of enc (ocr_runs dirs d)) <= 1.
Proof.
  revert d. induction dirs as [|pdf_dir dirs IH]; intros d Hd; simpl; [done|].
  apply IH. intros enc. unfold ocr_main.
  assert (Hs : at_most_one_dr (Session_of d)).
  { split; [done|]. intros e. specialize (Hd e). unfold dr_waiting. simpl. lia. }
  apply (process_pdf_files_keeps at_most_one_dr) with (pdf_dir := pdf_dir) in Hs;
    [|apply at_most_one_add_dr|by intros ? ? []|apply at_most_one_commit
     |apply at_most_one_rollback].
  destruct Hs as [_ Hle]. specialize (Hle enc). lia.
Qed.

End AtMostOne.

(** A document with the report on two pages gives one finding when the
    session flushes before it queries, and two when it does not. *)
Example two_pages_one_finding :
  let page := "Diabetic Retinopathy Report" +:+ nl +:+ "Result DR: Severe NPDR" in
  let pdf_dir := toy_pdf_dir (page +:+ ff +:+ page) in
  diabetic_retinopathy_reports (ocr_main pdf_dir (toy_store []))
  = [mkDiabeticRetinopathyReport 1 1 "Severe NPDR"]
  /\ diabetic_retinopathy_reports
       (store (fst (process_pdf_files pdf_dir (mkSession false (toy_store []) [] []))))
     = [mkDiabeticRetinopathyReport 1 1 "Severe NPDR";
        mkDiabeticRetinopathyReport 2 1 "Severe NPDR"].
Proof. split; vm_compute; reflexivity. Qed.

(** C8: for an encounter that has a stored diagnostic finding, an
    invocation of the diagnostic extractor adds nothing to the session,
    and after any number of runs of the OCR script, whatever the document
    area holds at each run, the stored diagnostic findings of the
    encounter are the ones it had; an encounter with one finding keeps
    exactly one. *)
Theorem C8_no_second_diagnostic_finding `{OcrRuntime} :
  (forall text ef s,
     dr_of (patient_encounter_id ef) (store s) <> [] ->
     extract_dr_data text ef s = (s, inr tt))
  /\ (forall dirs d enc,
        dr_of enc d <> [] -> dr_of enc (ocr_runs dirs d) = dr_of enc d)
  /\ (forall dirs d enc,
        length (dr_of enc d) = 1 -> length (dr_of enc (ocr_runs dirs d)) = 1).
Proof.
  split; [|split].
  - intros text ef s Hst. apply extract_dr_data_existing.
    unfold existing_dr. apply orb_true_iff. left. by apply filter_some.
  - intros dirs d enc Hst. by apply ocr_runs_keeps.
  - intros dirs d enc Hlen. rewrite (ocr_runs_keeps enc (dr_of enc d)); [done| |done].
    intros Hnil. by rewrite Hnil in Hlen.
Qed.

Lemma C8_no_second_diagnostic_finding_witness :
  let page := "Diabetic Retinopathy Report" +:+ nl +:+ "Result DR: Severe NPDR" in
  let d := toy_store [mkDiabeticRetinopathyReport 1 1 "Mild NPDR"] in
  let ef := mkEncounterFile 1 1 "12345_Jane_Doe_20240101_report.pdf" "pdf" false in
  extract_dr_data page ef (Session_of d) = (Session_of d, inr tt)
  /\ dr_of 1 (ocr_runs [toy_pdf_dir page; toy_pdf_dir page] d)
     = [mkDiabeticRetinopathyReport 1 1 "Mild NPDR"]
  /\ length (dr_of 1 (ocr_runs [toy_pdf_dir page; toy_pdf_dir page] d)) = 1.
Proof.
  intros page d ef.
  destruct (C8_no_second_diagnostic_finding (H := toy_ocr)) as (Hone & Hruns & Hlen).
  split; [|split].
  - apply Hone. discriminate.
  - refine (Hruns [toy_pdf_dir page; toy_pdf_dir page] d 1 _). discriminate.
  - apply Hlen. reflexivity.
Defined.

(** The first run on an encounter without a finding does store one. *)
Example ocr_main_stores_first_finding :
  diabetic_retinopathy_reports
    (ocr_main (toy_pdf_dir ("Diabetic Retinopathy Report" +:+ nl +:+ "Result DR: Severe NPDR"))
       (toy_store []))
  = [mkDiabeticRetinopathyReport 1 1 "Severe NPDR"].
Proof. vm_compute. reflexivity. Qed.

(** ** The measurement rule *)

Lemma extract_dr_data_gl text ef s :
  let s1 := fst (extract_dr_data text ef s) in
  snd (extract_dr_data text ef s) = inr tt
  /\ store s1 = store s /\ new_gl s1 = new_gl s /\ autoflush s1 = autoflush s.
Proof.
  unfold extract_dr_data, bind, get. destruct (dr_result_of text); [|done]. simpl.
  by destruct (existing_dr _ s).
Qed.

Lemma glaucoma_fields_no_section {St} text (s : St) :
  Str.contains (Str.lower "SCREENING RESULT") (Str.lower text) = false ->
  glaucoma_fields text s = (s, inr (None, None, "N/A")).
Proof.
  intros Hc. unfold glaucoma_fields. by rewrite (search_rest_none _ _ Hc).
Qed.

(** C10: on a page that carries the title [Glaucoma Screening Report]
    and not the header [SCREENING RESULT], letter case apart, for an
    encounter without a measurement finding, the extractor raises
    nothing and adds to the session a finding with both measurements
    unset and the result [N/A]; the page as a whole does the same, and
    the commit that ends the document stores the finding. *)
Theorem C10_finding_without_section text ef s :
  Str.contains "Glaucoma Screening Report" text = true ->
  Str.contains (Str.lower "SCREENING RESULT") (Str.lower text) = false ->
  existing_gl (patient_encounter_id ef) s = false ->
  extract_glaucoma_data text ef s
  = (add_gl (patient_encounter_id ef, None, None, "N/A") s, inr tt)
  /\ (exists s1,
        extract_page text ef s
        = (add_gl (patient_encounter_id ef, None, None, "N/A") s1, inr tt)
        /\ store s1 = store s /\ new_gl s1 = new_gl s)
  /\ exists k,
       In (mkGlaucomaReport k (patient_encounter_id ef) None None "N/A")
         (glaucoma_reports (store (commit (fst (extract_page text ef s))))).
Proof.
  intros Htitle Hsec Hnone.
  assert (Hone : forall s0, existing_gl (patient_encounter_id ef) s0 = false ->
            extract_glaucoma_data text ef s0
            = (add_gl (patient_encounter_id ef, None, None, "N/A") s0, inr tt)).
  { intros s0 H0. unfold extract_glaucoma_data, bind.
    rewrite (glaucoma_fields_no_section _ _ Hsec). unfold get. by rewrite H0. }
  assert (Hpage : exists s1,
            extract_page text ef s
            = (add_gl (patient_encounter_id ef, None, None, "N/A") s1, inr tt)
            /\ store s1 = store s /\ new_gl s1 = new_gl s).
  { unfold extract_page, bind. rewrite Htitle.
    destruct (Str.contains "Diabetic Retinopathy Report" text).
    - pose proof (extract_dr_data_gl text ef s) as (Hok & Hst & Hgl & Haf).
      destruct (extract_dr_data text ef s) as [s1 [e|[]]]; simpl in *; [done|].
      exists s1. split; [|done]. apply Hone.
      unfold existing_gl in *. by rewrite Hst, Hgl, Haf.
    - exists s. split; [|done]. simpl. by apply Hone. }
  split; [by apply Hone|]. split; [exact Hpage|].
  destruct Hpage as (s1 & -> & Hst & Hgl). simpl. clear Hgl.
  exists (length (new_gl s1) + next_id (map gl_id (glaucoma_reports (store s1)))).
  apply in_or_app. right.
  generalize (next_id (map gl_id (glaucoma_reports (store s1)))).
  induction (new_gl s1) as [|[[[e r] l] res] rest IH]; intros k; simpl.
  - left. do 2 f_equal.
  - right. replace (S (length rest + k)) with (length rest + S k) by lia. apply IH.
Qed.

Lemma C10_finding_without_section_witness :
  extract_glaucoma_data "Glaucoma Screening Report"
    (mkEncounterFile 1 1 "12345_Jane_Doe_20240101_report.pdf" "pdf" false)
    (Session_of (toy_store []))
  = (add_gl (1, None, None, "N/A") (Session_of (toy_store [])), inr tt).
Proof.
  refine (proj1 (C10_finding_without_section "Glaucoma Screening Report"
                   (mkEncounterFile 1 1 "12345_Jane_Doe_20240101_report.pdf" "pdf" false)
                   (Session_of (toy_store [])) _ _ _)); reflexivity.
Defined.

(** On a section whose captured runs are decimal numbers the three
    cases of the rule are as written: two matches or more give the first
    to the right and the second to the left, one match goes to the left
    when the section names the left eye and to the right otherwise, no
    match leaves both unset. *)
Lemma vcdr_of_section_decimals {St} section_text (s : St) :
  match Re.findall_vcdr section_text with
  | v0 :: v1 :: _ =>
      forall r l, float v0 = Some r -> float v1 = Some l ->
        vcdr_of_section section_text s = (s, inr (Some r, Some l))
  | [v0] =>
      forall x, float v0 = Some x ->
        vcdr_of_section section_text s
        = (s, inr (if Str.contains "left eye" (Str.lower section_text)
                   then (None, Some x) else (Some x, None)))
  | [] => vcdr_of_section section_text s = (s, inr (None, None))
  end.
Proof.
  unfold vcdr_of_section.
  destruct (Re.findall_vcdr section_text) as [|v0 [|v1 tl]]; [done| |].
  - intros x Hx. destruct (Str.contains _ _); unfold bind, require; by rewrite Hx.
  - intros r l Hr Hl. unfold bind, require. rewrite Hr. simpl. by rewrite Hl.
Qed.

Example two_measurements (s : Session) :
  glaucoma_fields ("SCREENING RESULT" +:+ nl +:+ "VCDR - 0.4" +:+ nl +:+ "VCDR - 0.6") s
  = (s, inr (Some (4 # 10), Some (6 # 10), "N/A")).
Proof. reflexivity. Qed.

Example one_measurement_left (s : Session) :
  glaucoma_fields ("Screening Result: Left Eye VCDR - 0.55" +:+ nl
                   +:+ "Referable Glaucoma - refer") s
  = (s, inr (None, Some (55 # 100), "Referable Glaucoma - refer")).
Proof. reflexivity. Qed.

(** C6 (the code departs from it): the group of the measurement pattern
    takes any run of digits and dots, so on a section where a sentence
    ends right after the number the two matches are [0.4.] and [0.6.];
    the conversion of the first raises, no measurement is assigned, and
    the document is rolled back without a finding. *)
Theorem C6_number_followed_by_dot_raises :
  let section_text := "Right Eye VCDR - 0.4. Left Eye VCDR - 0.6." in
  let text := "Glaucoma Screening Report" +:+ nl +:+ "SCREENING RESULT" +:+ nl
              +:+ section_text in
  Re.search_rest "SCREENING RESULT" text = Some section_text
  /\ Re.findall_vcdr section_text = ["0.4."; "0.6."]
  /\ (forall ef s,
        extract_glaucoma_data text ef s
        = (s, inl (ValueError "could not convert string to float: '0.4.'")))
  /\ glaucoma_reports (ocr_main (toy_pdf_dir text) (toy_store [])) = [].
Proof.
  intros section_text text. split; [reflexivity|]. split; [reflexivity|].
  split; [intros ef s; reflexivity|]. vm_compute. reflexivity.
Qed.

(** * Further properties *)

(** ** Splitting and joining *)

Lemma split_length sep s : length (Str.split sep s) = S (count_char sep s).
Proof.
  induction s as [|c s IH]; simpl; [done|].
  destruct (Ascii.eqb c sep); simpl; [by rewrite IH|].
  destruct (Str.split sep s); simpl in *; lia.
Qed.

Lemma count_char_app c a b : count_char c (a +:+ b) = count_char c a + count_char c b.
Proof. induction a as [|x a IH]; simpl; [done|]. rewrite IH. lia. Qed.

Lemma has_char_count c s : Str.has_char c s = false <-> count_char c s = 0.
Proof.
  induction s as [|a s IH]; [done|]. rewrite has_char_cons. simpl.
  rewrite (Ascii.eqb_sym c a). destruct (Ascii.eqb a c); simpl; [split; [done|lia]|].
  exact IH.
Qed.

Lemma split_app_sep c a b :
  Str.split c (a +:+ String c b) = Str.split c a ++ Str.split c b.
Proof.
  induction a as [|x a IH]; simpl.
  - by rewrite Ascii.eqb_refl.
  - destruct (Ascii.eqb x c); [by rewrite IH|]. rewrite IH.
    pose proof (split_length c a) as Hl.
    destruct (Str.split c a); [simpl in Hl; lia|done].
Qed.

Lemma split_no_char c s : Str.has_char c s = false -> Str.split c s = [s].
Proof.
  induction s as [|a s IH]; [done|]. rewrite has_char_cons. intros Hc.
  apply orb_false_iff in Hc as [Ha Hs]. simpl. rewrite Ascii.eqb_sym, Ha.
  by rewrite (IH Hs).
Qed.

Lemma append_cons x (a b : string) : String x a +:+ b = String x (a +:+ b).
Proof. reflexivity. Qed.

Lemma append_assoc (a b c : string) : (a +:+ b) +:+ c = a +:+ b +:+ c.
Proof. induction a as [|x a IH]; [done|]. rewrite !append_cons. by f_equal. Qed.

Lemma join_snoc sep l y :
  l <> [] -> Str.join sep (l ++ [y]) = Str.join sep l +:+ sep +:+ y.
Proof.
  induction l as [|x l IH]; [done|]. intros _.
  destruct l as [|x' l]; [done|].
  change (Str.join sep ((x :: x' :: l) ++ [y]))
    with (x +:+ sep +:+ Str.join sep ((x' :: l) ++ [y])).
  rewrite IH by done.
  change (Str.join sep (x :: x' :: l)) with (x +:+ sep +:+ Str.join sep (x' :: l)).
  by rewrite !append_assoc.
Qed.

(** Joining parts that hold no separator and splitting again gives the
    parts back. *)
Lemma split_join c l :
  l <> [] -> Forall (fun x => Str.has_char c x = false) l ->
  Str.split c (Str.join (String c EmptyString) l) = l.
Proof.
  induction l as [|x l IH]; [done|]. intros _ Hall.
  apply Forall_cons in Hall as [Hx Hl].
  destruct l as [|y l]; [by apply split_no_char|].
  change (Str.join (String c "") (x :: y :: l))
    with (x +:+ String c (Str.join (String c "") (y :: l))).
  rewrite split_app_sep, (split_no_char _ _ Hx), IH; done.
Qed.

Lemma rstrip_by_app p a b :
  b <> "" -> Str.rstrip_by p b = b -> Str.rstrip_by p (a +:+ b) = a +:+ b.
Proof.
  intros Hb Hr. induction a as [|x a IH]; [exact Hr|].
  rewrite append_cons. cbn [Str.rstrip_by]. rewrite IH.
  destruct (a +:+ b) eqn:E; [|done].
  destruct a; [change (b = "") in E; congruence|discriminate].
Qed.

(** ** Finding the directory *)

Lemma first_some_some {A B} (f : A -> option B) (l : list A) y :
  first_some f l = Some y -> exists x, In x l /\ f x = Some y.
Proof.
  induction l as [|x l IH]; simpl; [done|].
  destruct (f x) eqn:E.
  - intros [= ->]. exists x. auto.
  - intros Hl. destruct (IH Hl) as (x' & Hin & Hx'). exists x'. auto.
Qed.

Lemma first_some_agree {A B} (f : A -> option B) (l : list A) x y :
  In x l -> f x = Some y ->
  (forall x', In x' l -> f x' = None \/ f x' = Some y) ->
  first_some f l = Some y.
Proof.
  induction l as [|a l IH]; simpl; [done|]. intros Hin Hx Hall.
  destruct (Hall a (or_introl eq_refl)) as [Ha|Ha]; rewrite Ha; [|done].
  destruct Hin as [->|Hin]; [congruence|]. apply IH; auto.
Qed.

Lemma first_some_seq {B} (f : nat -> option B) a n y :
  first_some f (seq a n) = Some y
  <-> exists i, a <= i < a + n /\ f i = Some y /\ forall j, a <= j < i -> f j = None.
Proof.
  revert a. induction n as [|n IH]; intros a; simpl.
  - split; [done|]. intros (i & Hi & _). lia.
  - destruct (f a) eqn:E.
    + split.
      * intros [= ->]. exists a. repeat split; [lia|lia|done|]. intros j Hj. lia.
      * intros (i & Hi & Hfi & Hmin). destruct (decide (i = a)) as [->|Hne]; [congruence|].
        rewrite (Hmin a) in E by lia. done.
    + rewrite IH. split.
      * intros (i & Hi & Hfi & Hmin). exists i. repeat split; [lia|lia|done|].
        intros j Hj. destruct (decide (j = a)) as [->|Hne]; [done|]. apply Hmin. lia.
      * intros (i & Hi & Hfi & Hmin). exists i.
        assert (i <> a) by congruence.
        repeat split; [lia|lia|done|]. intros j Hj. apply Hmin. lia.
Qed.

Lemma test_prefix_some ps i q :
  test_prefix ps i = Some q
  <-> 2 <= count_char "_" (Str.join "/" (take (S i) ps))
      /\ q = PurePath.Path (Str.join "/" (take (S i) ps)).
Proof.
  unfold test_prefix. rewrite split_length.
  destruct (3 <=? _) eqn:E.
  - apply Nat.leb_le in E. split; [intros [= <-]; split; [lia|done]|].
    by intros [_ ->].
  - apply Nat.leb_gt in E. split; [done|]. intros [? _]. lia.
Qed.

Lemma test_prefix_none ps i :
  test_prefix ps i = None <-> count_char "_" (Str.join "/" (take (S i) ps)) < 2.
Proof.
  unfold test_prefix. rewrite split_length.
  destruct (3 <=? _) eqn:E.
  - apply Nat.leb_le in E. split; [done|lia].
  - apply Nat.leb_gt in E. split; [lia|done].
Qed.

(** The scan of one directory returns its shortest prefix that holds two
    underscores. *)
Lemma scan_prefixes_some d q :
  scan_prefixes d = Some q
  <-> exists i, i < length (PurePath.parts d)
        /\ q = PurePath.Path (prefix_text d i)
        /\ 2 <= count_char "_" (prefix_text d i)
        /\ forall j, j < i -> count_char "_" (prefix_text d j) < 2.
Proof.
  unfold scan_prefixes, prefix_text. rewrite first_some_seq. split.
  - intros (i & Hi & Hq & Hmin). exists i. apply test_prefix_some in Hq as [Hc ->].
    repeat split; [lia|done|]. intros j Hj. apply test_prefix_none, Hmin. lia.
  - intros (i & Hi & -> & Hc & Hmin). exists i. split; [lia|]. split.
    + by apply test_prefix_some.
    + intros j Hj. apply test_prefix_none, Hmin. lia.
Qed.

Lemma Path_ok s : path_ok (PurePath.Path s).
Proof.
  split.
  - simpl. destruct s as [|a [|b [|c s]]]; simpl; auto;
      repeat (match goal with |- context [match ?x with _ => _ end] => destruct x end);
      auto.
  - simpl. apply Forall_forall. intros x Hx. apply list_elem_of_In, filter_In in Hx.
    destruct Hx as [Hx Hk]. split; [done|]. by apply split_no_sep in Hx.
Qed.

Lemma parent_ok p : path_ok p -> path_ok (PurePath.parent p).
Proof. intros [Hr Hs]. split; [done|]. simpl. by apply Forall_take. Qed.

Lemma name_of_seg p : seg_ok p -> PurePath.name (PurePath.Path p) = p.
Proof.
  intros [Hk Hs]. unfold PurePath.name, PurePath.Path. simpl.
  rewrite (split_no_char _ _ Hs). cbn [List.filter]. by rewrite Hk.
Qed.

Lemma name_of_extended t p :
  seg_ok p -> PurePath.name (PurePath.Path (t +:+ "/" +:+ p)) = p.
Proof.
  intros [Hk Hs]. unfold PurePath.name, PurePath.Path. simpl.
  change (t +:+ "/" +:+ p) with (t +:+ String "/" p).
  rewrite split_app_sep, (split_no_char _ _ Hs), List.filter_app. cbn [List.filter].
  rewrite Hk. apply List.last_last.
Qed.

Lemma prefix_text_S d j p :
  PurePath.parts d !! S j = Some p ->
  prefix_text d (S j) = prefix_text d j +:+ "/" +:+ p.
Proof.
  intros Hp. unfold prefix_text. rewrite (take_S_r _ (S j) p Hp).
  apply join_snoc. destruct (PurePath.parts d); done.
Qed.

Lemma parts_seg d i p :
  path_ok d -> PurePath.parts d !! i = Some p ->
  1 <= count_char "_" p -> seg_ok p.
Proof.
  intros [Hr Hs] Hp Hc. unfold PurePath.parts in Hp.
  assert (Hseg : forall k, PurePath.segs d !! k = Some p -> seg_ok p).
  { intros k Hk. eapply Forall_lookup_1; [exact Hs|exact Hk]. }
  destruct (String.eqb (PurePath.root d) "") eqn:E; [by eapply Hseg|].
  destruct i as [|i]; [|by eapply Hseg].
  simpl in Hp. injection Hp as <-.
  destruct Hr as [Hr|[Hr|Hr]]; rewrite Hr in Hc; vm_compute in Hc; lia.
Qed.

Lemma snoc2 {A} (l : list A) :
  2 <= length l -> exists lead a b, l = lead ++ [a; b].
Proof.
  induction l as [|x l IH]; simpl; [lia|]. intros Hl.
  destruct l as [|y [|z l]].
  - simpl in Hl. lia.
  - by exists [], x, y.
  - destruct IH as (lead & a & b & ->); [simpl; lia|]. by exists (x :: lead), a, b.
Qed.

Lemma parse_dir_name_parts s lead pid date :
  Str.rstrip "/" s = s -> Str.split "_" s = lead ++ [pid; date] ->
  parse_dir_name s = Some (Str.join " " lead, pid, date).
Proof.
  intros Hr Hsplit. unfold parse_dir_name. rewrite Hr, Hsplit.
  replace (lead ++ [pid; date]) with ((lead ++ [pid]) ++ [date]) at 1
    by (by rewrite <- app_assoc).
  rewrite nth_back_app_1, nth_back_app_2.
  change 2 with (length [pid; date]).
  by rewrite (drop_back_app lead [pid; date]).
Qed.

(** The name of a directory the scan accepts holds an underscore. *)
Lemma scan_prefixes_name d q :
  path_ok d -> scan_prefixes d = Some q ->
  seg_ok (PurePath.name q) /\ 1 <= count_char "_" (PurePath.name q).
Proof.
  intros Hd Hq. apply scan_prefixes_some in Hq as (i & Hi & -> & Hc & Hmin).
  destruct (lookup_lt_is_Some_2 _ _ Hi) as [p Hp].
  destruct i as [|j].
  - assert (prefix_text d 0 = p) as Ht.
    { unfold prefix_text. destruct (PurePath.parts d) as [|x l]; [done|].
      simpl in Hp. injection Hp as ->. reflexivity. }
    rewrite Ht in *.
    assert (seg_ok p) as Hok by (eapply parts_seg; [done..|lia]).
    rewrite (name_of_seg _ Hok). split; [done|lia].
  - rewrite (prefix_text_S _ _ _ Hp) in *.
    specialize (Hmin j ltac:(lia)).
    rewrite !count_char_app in Hc. simpl in Hc.
    assert (seg_ok p) as Hok by (eapply parts_seg; [done..|lia]).
    rewrite (name_of_extended _ _ Hok). split; [done|lia].
Qed.

Lemma found_dir_from_member `{Runtime} namelist q :
  find_dir_in_zip namelist = Some q ->
  exists n, In n namelist /\ scan_prefixes (PurePath.parent (PurePath.Path n)) = Some q.
Proof.
  unfold find_dir_in_zip. intros Hf.
  apply first_some_some in Hf as (d & Hd & Hq).
  apply list_elem_of_In in Hd. rewrite set_iter_perm in Hd.
  apply elem_of_remove_dups, list_elem_of_In, in_map_iff in Hd as (n & <- & Hn).
  eauto.
Qed.

Lemma found_dir_parses `{Runtime} namelist q :
  find_dir_in_zip namelist = Some q ->
  exists lead pid date,
    Str.split "_" (PurePath.name q) = lead ++ [pid; date]
    /\ parse_dir_name (PurePath.name q) = Some (Str.join " " lead, pid, date).
Proof.
  intros Hf. apply found_dir_from_member in Hf as (n & _ & Hq).
  apply scan_prefixes_name in Hq as [[Hk Hs] Hc]; [|apply parent_ok, Path_ok].
  destruct (snoc2 (Str.split "_" (PurePath.name q))) as (lead & pid & date & Hsplit).
  { rewrite split_length. lia. }
  exists lead, pid, date. split; [done|].
  apply parse_dir_name_parts; [|done].
  apply rstrip_by_id. intros c Hc'. by apply Ascii.eqb_eq in Hc' as <-.
Qed.

Lemma extract_member_raises `{Runtime} dir pid name date m acc w w' e :
  extract_member dir pid name date m acc w = (w', inl e) ->
  e = BadZipFile \/ e = OSError.
Proof.
  unfold extract_member. destruct (is_dir m || _); [done|].
  destruct (classify _) as [[d k]|]; [|done].
  destruct (zi_read m); unfold bind; rewrite ?write_file_run;
    try destruct (can_create _ _); intros [= <- <-]; auto.
Qed.

Lemma extract_members_raises `{Runtime} dir pid name date ms acc w w' e :
  extract_members dir pid name date ms acc w = (w', inl e) ->
  e = BadZipFile \/ e = OSError.
Proof.
  revert acc w. induction ms as [|m ms IH]; intros acc w; [done|].
  rewrite extract_members_cons.
  destruct (extract_member dir pid name date m acc w) as [w1 [e1|a]] eqn:E.
  - intros [= <- <-]. by eapply extract_member_raises.
  - apply IH.
Qed.

Lemma scan_prefixes_none_count d :
  scan_prefixes d = None
  <-> forall i, i < length (PurePath.parts d) -> count_char "_" (prefix_text d i) < 2.
Proof.
  rewrite scan_prefixes_none. unfold prefix_text.
  split; intros Hall i Hi; specialize (Hall i Hi); rewrite split_length in *; lia.
Qed.

Section DirectoryFacts.
Context `{Runtime}.

(** X1: a readable archive that is not recorded yet fails with the
    no-directory error exactly when no prefix of any directory of the
    archive, joined with slashes, holds two underscores. *)
Theorem no_directory_condition zname content members w :
  UPLOAD_DIR w !! zname = Some content ->
  existsb (fun z => String.eqb (md5_hash z) (calculate_md5 content)) (zip_files (db w))
  = false ->
  zip_infolist content = Some members ->
  (exists w', process_zip_file zname w = (w', inr (Failed (ValueError no_dir_msg))))
  <-> forall n, In n (map zi_filename members) ->
        forall i, i < length (PurePath.parts (PurePath.parent (PurePath.Path n))) ->
          count_char "_" (prefix_text (PurePath.parent (PurePath.Path n)) i) < 2.
Proof.
  intros Hup Hnew Hz. rewrite (process_unfold _ _ _ Hup Hnew).
  pose proof (try_body_run zname content (calculate_md5 content) w) as Hrun.
  split.
  - intros [w' Hres]. intros n Hn.
    apply scan_prefixes_none_count. revert n Hn. apply find_dir_none_iff.
    destruct (try_body _ _ _ _) as [w1 [e|o]]; simpl in Hrun;
      [|inversion Hrun; subst; discriminate].
    injection Hres as _ ->.
    inversion Hrun; subst; try congruence.
    match goal with
    | Hx : extract_members _ _ _ _ _ _ _ = _ |- _ =>
        apply extract_members_raises in Hx as [?|?]; discriminate
    end.
  - intros Hall.
    assert (find_dir_in_zip (map zi_filename members) = None) as Hd.
    { apply find_dir_none_iff. intros n Hn. apply scan_prefixes_none_count. auto. }
    rewrite (no_qualifying_directory_raises _ _ _ _ _ Hz Hd). eauto.
Qed.

(** X2: the directory found is the shortest prefix holding two
    underscores of the directory of some member of the archive. *)
Theorem found_directory_is_shortest_prefix namelist q :
  find_dir_in_zip namelist = Some q ->
  exists n i,
    In n namelist
    /\ i < length (PurePath.parts (PurePath.parent (PurePath.Path n)))
    /\ q = PurePath.Path (prefix_text (PurePath.parent (PurePath.Path n)) i)
    /\ 2 <= count_char "_" (prefix_text (PurePath.parent (PurePath.Path n)) i)
    /\ forall j, j < i ->
         count_char "_" (prefix_text (PurePath.parent (PurePath.Path n)) j) < 2.
Proof.
  intros Hf. apply found_dir_from_member in Hf as (n & Hn & Hq).
  apply scan_prefixes_some in Hq as (i & Hq). exists n, i. tauto.
Qed.

(** X4: the name of the directory found always splits into two parts at
    least, so the parse of lines 86-89 succeeds, and no run ends with an
    [IndexError]. *)
Theorem found_directory_always_parses :
  (forall namelist q,
     find_dir_in_zip namelist = Some q ->
     exists lead pid date,
       Str.split "_" (PurePath.name q) = lead ++ [pid; date]
       /\ parse_dir_name (PurePath.name q) = Some (Str.join " " lead, pid, date))
  /\ forall zname w w', process_zip_file zname w <> (w', inr (Failed IndexError)).
Proof.
  split; [apply @found_dir_parses|].
  intros zname w w' Hres.
  destruct (UPLOAD_DIR w !! zname) as [content|] eqn:Hup;
    [|unfold process_zip_file, bind, get, require in Hres; rewrite Hup in Hres; done].
  destruct (existsb (fun z => String.eqb (md5_hash z) (calculate_md5 content))
              (zip_files (db w))) eqn:Hnew.
  { unfold process_zip_file, bind, get, require in Hres. rewrite Hup in Hres.
    simpl in Hres. by rewrite Hnew in Hres. }
  rewrite (process_unfold _ _ _ Hup Hnew) in Hres.
  pose proof (try_body_run zname content (calculate_md5 content) w) as Hrun.
  destruct (try_body _ _ _ _) as [w1 [e|o]]; simpl in Hrun;
    [|inversion Hrun; subst; discriminate].
  injection Hres as _ ->. inversion Hrun; subst.
  - match goal with
    | Hd : find_dir_in_zip _ = Some _, Hp : parse_dir_name _ = None |- _ =>
        apply found_dir_parses in Hd as (? & ? & ? & _ & Hok); congruence
    end.
  - match goal with
    | Hx : extract_members _ _ _ _ _ _ _ = _ |- _ =>
        apply extract_members_raises in Hx as [?|?]; discriminate
    end.
Qed.

End DirectoryFacts.

(** X3: whether a directory is found does not depend on the order in
    which the set of directories is enumerated; when the directories
    that qualify all give the same prefix, neither does the directory
    found. *)
Theorem find_dir_order_independent (R1 R2 : Runtime) namelist :
  (@find_dir_in_zip R1 namelist = None <-> @find_dir_in_zip R2 namelist = None)
  /\ forall q,
       (forall n, In n namelist ->
          scan_prefixes (PurePath.parent (PurePath.Path n)) = None
          \/ scan_prefixes (PurePath.parent (PurePath.Path n)) = Some q) ->
       @find_dir_in_zip R1 namelist = @find_dir_in_zip R2 namelist.
Proof.
  split; [by rewrite (find_dir_none_iff (H := R1)), (find_dir_none_iff (H := R2))|].
  intros q Hall.
  assert (Hsome : forall R : Runtime, forall q', @find_dir_in_zip R namelist = Some q' -> q' = q).
  { intros R q' Hf. apply (found_dir_from_member (H := R)) in Hf as (n & Hn & Hq').
    destruct (Hall n Hn); congruence. }
  destruct (@find_dir_in_zip R1 namelist) as [q1|] eqn:E1.
  - destruct (@find_dir_in_zip R2 namelist) as [q2|] eqn:E2.
    + by rewrite (Hsome R1 q1 E1), (Hsome R2 q2 E2).
    + pose proof (proj1 (find_dir_none_iff (H := R2) namelist) E2) as Hnone.
      apply (found_dir_from_member (H := R1)) in E1 as (n & Hn & Hq1).
      rewrite (Hnone n Hn) in Hq1. done.
  - symmetry. apply (find_dir_none_iff (H := R2)).
    exact (proj1 (find_dir_none_iff (H := R1) namelist) E1).
Qed.

(** X5: a directory name built from name words, an identifier and a
    date joined with underscores, none of them holding an underscore and
    the date holding no slash, parses back to the words joined with
    spaces, the identifier and the date. *)
Theorem parse_dir_name_round_trip lead pid date :
  Forall (fun x => Str.has_char "_" x = false) (lead ++ [pid; date]) ->
  Str.has_char "/" date = false ->
  parse_dir_name (Str.join "_" (lead ++ [pid; date]))
  = Some (Str.join " " lead, pid, date).
Proof.
  intros Hall Hdate. apply parse_dir_name_parts.
  - replace (lead ++ [pid; date]) with ((lead ++ [pid]) ++ [date])
      by (by rewrite <- app_assoc).
    rewrite join_snoc by (by destruct lead).
    apply rstrip_by_app; [done|].
    change ("_" +:+ date) with (String "_" date). cbn [Str.rstrip Str.rstrip_by].
    rewrite rstrip_by_id.
    + by destruct date.
    + intros c Hc. by apply Ascii.eqb_eq in Hc as <-.
  - apply split_join; [by destruct lead|done].
Qed.

(** ** The extraction loop as a whole *)

Lemma extract_member_selected `{Runtime} dir pid name date m acc w :
  extract_member dir pid name date m acc w
  = match selected dir m with
    | None => (w, inr acc)
    | Some (d, k) =>
        let fname := new_filename pid name date (PurePath.Path (zi_filename m)) in
        match zi_read m with
        | open_raises => (w, inl BadZipFile)
        | read_raises =>
            if can_create d fname then (put_file d fname [] w, inl BadZipFile)
            else (w, inl OSError)
        | read_ok data =>
            if can_create d fname
            then (put_file d fname data w, inr (acc ++ [(fname, k)]))
            else (w, inl OSError)
        end
    end.
Proof.
  unfold extract_member, selected.
  destruct (is_dir m || _); [done|].
  destruct (classify _) as [[d k]|]; [|done].
  destruct (zi_read m); [done| |]; unfold bind; rewrite write_file_run;
    by destruct (can_create _ _).
Qed.

(** A member the loop takes whose target name the file system refuses
    makes the turn raise [OSError] with nothing written, unless the
    member did not open. *)
Lemma refused_target_raises `{Runtime} dir pid name date m acc w d k :
  selected dir m = Some (d, k) ->
  zi_read m <> open_raises ->
  can_create d (new_filename pid name date (PurePath.Path (zi_filename m))) = false ->
  extract_member dir pid name date m acc w = (w, inl OSError).
Proof.
  intros Hsel Hopen Hcc. rewrite extract_member_selected, Hsel. cbv zeta.
  rewrite Hcc. by destruct (zi_read m).
Qed.

(** A run on an archive with such a member ends failed, the archive in
    the error area and the store as it was. *)
Lemma refused_target_fails `{Runtime} zname content m dir name pid date d k w :
  UPLOAD_DIR w !! zname = Some content ->
  existsb (fun z => String.eqb (md5_hash z) (calculate_md5 content)) (zip_files (db w))
  = false ->
  zip_infolist content = Some [m] ->
  find_dir_in_zip [zi_filename m] = Some dir ->
  parse_dir_name (PurePath.name dir) = Some (name, pid, date) ->
  selected dir m = Some (d, k) ->
  zi_read m <> open_raises ->
  can_create d (new_filename pid name date (PurePath.Path (zi_filename m))) = false ->
  process_zip_file zname w
  = (mkWorld (db w) (delete zname (UPLOAD_DIR w)) (IMAGE_DIR w) (PDF_DIR w)
       (PROCESSED_DIR w) (<[zname := content]> (PROCESSING_ERROR_DIR w)),
     inr (Failed OSError)).
Proof.
  intros Hup Hnew Hz Hd Hp Hsel Hopen Hcc.
  assert (He : extract_members dir pid name date [m] [] w = (w, inl OSError)).
  { rewrite extract_members_cons.
    by rewrite (refused_target_raises _ _ _ _ _ _ _ _ _ Hsel Hopen Hcc). }
  rewrite (process_unfold _ _ _ Hup Hnew).
  change [zi_filename m] with (map zi_filename [m]) in Hd.
  remember [m] as ms.
  unfold try_except, try_body, bind, require. rewrite Hz. simpl. rewrite Hd. simpl.
  rewrite Hp. simpl. by rewrite He.
Qed.

Lemma area_write d d' fname data w f :
  area d (put_file d' fname data w) !! f
  = if dest_eqb d' d && String.eqb fname f then Some data else area d w !! f.
Proof.
  destruct d, d'; simpl; try done;
    (destruct (String.eqb fname f) eqn:E;
     [apply String.eqb_eq in E as ->; by rewrite lookup_insert_eq
     |apply String.eqb_neq in E; by rewrite lookup_insert_ne]).
Qed.

Lemma records_of_cons dir pid name date m ms :
  records_of dir pid name date (m :: ms)
  = match record_of dir pid name date m with
    | Some r => r :: records_of dir pid name date ms
    | None => records_of dir pid name date ms
    end.
Proof. unfold records_of. simpl. by destruct (record_of dir pid name date m). Qed.

Lemma extract_members_spec `{Runtime} dir pid name date ms acc w :
  ((exists w' files, extract_members dir pid name date ms acc w = (w', inr files))
   <-> Forall (extractable dir pid name date) ms)
  /\ forall w' files,
       extract_members dir pid name date ms acc w = (w', inr files) ->
       files = acc ++ records_of dir pid name date ms.
Proof.
  revert acc w. induction ms as [|m ms IH]; intros acc w.
  - split; [split; [done|]; intros _; by exists w, acc|].
    intros w' files [= <- <-]. by rewrite app_nil_r.
  - rewrite extract_members_cons, extract_member_selected, records_of_cons.
    unfold record_of. rewrite Forall_cons. unfold extractable at 1.
    destruct (selected dir m) as [[d k]|] eqn:Hsel.
    + destruct (zi_read m) as [| |data] eqn:Hr; cbv zeta.
      * split; [|intros ? ? [=]]. split; [intros (? & ? & [=])|].
        intros [Hm _]. by destruct (Hm d k eq_refl) as [[data Hd] _].
      * split; [|destruct (can_create _ _); intros ? ? [=]].
        split; [destruct (can_create _ _); intros (? & ? & [=])|].
        intros [Hm _]. by destruct (Hm d k eq_refl) as [[data Hd] _].
      * destruct (can_create d _) eqn:Hcc.
        -- destruct (IH (acc ++ [(new_filename pid name date
                                    (PurePath.Path (zi_filename m)), k)])
                       (put_file d (new_filename pid name date
                                      (PurePath.Path (zi_filename m))) data w))
             as [Hiff Hfiles].
           split.
           ++ rewrite Hiff. split; [|by intros [_ Hall]].
              intros Hall. split; [|done]. intros d' k' [= <- <-]. eauto.
           ++ intros w' files Hrun. rewrite (Hfiles _ _ Hrun). by rewrite <- app_assoc.
        -- split; [|intros ? ? [=]]. split; [intros (? & ? & [=])|].
           intros [Hm _]. destruct (Hm d k eq_refl) as [_ Hd]. congruence.
    + destruct (IH acc w) as [Hiff Hfiles]. split; [|exact Hfiles].
      rewrite Hiff. split; [|by intros [_ Hall]].
      intros Hall. split; [|done]. intros d k [=].
Qed.

(** X6: over members with a name, the extraction completes exactly when
    every member it takes opens and reads and has a target name the file
    system accepts; the records are then, after those already there, one
    per member taken, in the order of the archive. A member without a
    name is left out: [is_dir] of the older releases of the library
    raises on it. *)
Theorem extraction_records_in_member_order `{Runtime} dir pid name date ms acc w :
  Forall (fun m => zi_filename m <> "") ms ->
  ((exists w' files, extract_members dir pid name date ms acc w = (w', inr files))
   <-> Forall (extractable dir pid name date) ms)
  /\ forall w' files,
       extract_members dir pid name date ms acc w = (w', inr files) ->
       files = acc ++ records_of dir pid name date ms.
Proof. intros _. apply extract_members_spec. Qed.

(** X7: after a successful extraction a file of either area holds the
    bytes of the last member written under its name, and is as before
    when no member was: members with the same basename overwrite one
    another on disk while each keeps its record. *)
Theorem extraction_last_write_wins `{Runtime} dir pid name date ms acc w w' files d f :
  extract_members dir pid name date ms acc w = (w', inr files) ->
  area d w' !! f
  = match last_write dir pid name date ms d f with
    | Some data => Some data
    | None => area d w !! f
    end.
Proof.
  revert acc w. induction ms as [|m ms IH]; intros acc w.
  - by intros [= <- <-].
  - rewrite extract_members_cons, extract_member_selected. cbn [last_write].
    destruct (selected dir m) as [[d' k]|] eqn:Hsel.
    + destruct (zi_read m) as [| |data] eqn:Hr; cbv zeta;
        [done|by destruct (can_create _ _)|].
      destruct (can_create _ _); [|done].
      intros Hrun. rewrite (IH _ _ Hrun).
      destruct (last_write dir pid name date ms d f); [done|].
      rewrite area_write. by destruct (dest_eqb d' d && _).
    + intros Hrun. rewrite (IH _ _ Hrun).
      by destruct (last_write dir pid name date ms d f).
Qed.

(** ** Where a run ends *)

Section RunFacts.
Context `{Runtime}.

Lemma process_missing zname w :
  UPLOAD_DIR w !! zname = None -> process_zip_file zname w = (w, inl FileNotFoundError).
Proof. intros Hup. unfold process_zip_file, bind, get, require. by rewrite Hup. Qed.

Lemma process_skipped zname content w :
  UPLOAD_DIR w !! zname = Some content ->
  is_recorded (calculate_md5 content) (db w) = true ->
  process_zip_file zname w = (w, inr Skipped).
Proof.
  intros Hup Hrec. unfold process_zip_file, bind, get, require. rewrite Hup. simpl.
  unfold is_recorded in Hrec. by rewrite Hrec.
Qed.

(** The four ways a run can go. *)
Lemma process_result zname w w' r :
  process_zip_file zname w = (w', r) ->
  (UPLOAD_DIR w !! zname = None /\ w' = w /\ r = inl FileNotFoundError)
  \/ (exists content,
        UPLOAD_DIR w !! zname = Some content
        /\ is_recorded (calculate_md5 content) (db w) = true
        /\ w' = w /\ r = inr Skipped)
  \/ (exists content w1 e,
        UPLOAD_DIR w !! zname = Some content
        /\ is_recorded (calculate_md5 content) (db w) = false
        /\ body_run zname content (calculate_md5 content) w w1 (inl e)
        /\ w' = mkWorld (db w1) (delete zname (UPLOAD_DIR w1)) (IMAGE_DIR w1)
                  (PDF_DIR w1) (PROCESSED_DIR w1)
                  (<[zname := content]> (PROCESSING_ERROR_DIR w1))
        /\ r = inr (Failed e))
  \/ (exists content,
        UPLOAD_DIR w !! zname = Some content
        /\ is_recorded (calculate_md5 content) (db w) = false
        /\ body_run zname content (calculate_md5 content) w w' (inr Processed)
        /\ r = inr Processed).
Proof.
  destruct (UPLOAD_DIR w !! zname) as [content|] eqn:Hup.
  - destruct (is_recorded (calculate_md5 content) (db w)) eqn:Hrec.
    + rewrite (process_skipped _ _ _ Hup Hrec). intros [= <- <-].
      right. left. eauto.
    + rewrite (process_unfold _ _ _ Hup Hrec).
      pose proof (try_body_run zname content (calculate_md5 content) w) as Hrun.
      destruct (try_body _ _ _ _) as [w1 [e|o]]; simpl in Hrun; intros [= <- <-].
      * right. right. left. exists content, w1, e. done.
      * right. right. right. exists content.
        assert (o = Processed) as -> by (inversion Hrun; done). done.
  - rewrite (process_missing _ _ Hup). intros [= <- <-]. by left.
Qed.

Lemma body_committed zname content md5 w w' :
  body_run zname content md5 w w' (inr Processed) ->
  exists w2 name pid date files,
    extraction_only w w2
    /\ (exists dir members,
          extract_members dir pid name date members [] w = (w2, inr files))
    /\ commit_archive (db w) zname md5 name pid date files = Some (db w')
    /\ w' = mkWorld (db w') (delete zname (UPLOAD_DIR w)) (IMAGE_DIR w2) (PDF_DIR w2)
              (<[zname := content]> (PROCESSED_DIR w)) (PROCESSING_ERROR_DIR w).
Proof.
  inversion 1; subst.
  match goal with
  | Hx : extract_members _ _ _ _ _ _ _ = _ |- _ =>
      pose proof (extract_members_only _ _ _ _ _ _ _ _ _ Hx) as Honly
  end.
  exists w2, name, pid, date, files.
  destruct Honly as (Hdb & Hu & Hp & He & Hi & Hd). rewrite Hdb, Hu, Hp, He in *.
  simpl. split; [by repeat split|]. eauto.
Qed.

End RunFacts.

Lemma on_disk_mono w w' f k :
  dom (IMAGE_DIR w) ⊆ dom (IMAGE_DIR w') -> dom (PDF_DIR w) ⊆ dom (PDF_DIR w') ->
  on_disk w f k -> on_disk w' f k.
Proof.
  intros Hi Hp [[-> Hf]|[-> Hf]]; [left|right]; (split; [done|]);
    apply elem_of_dom; apply elem_of_dom in Hf; auto.
Qed.

Lemma extract_members_on_disk `{Runtime} dir pid name date ms acc w w' files :
  extract_members dir pid name date ms acc w = (w', inr files) ->
  Forall (fun r => on_disk w r.1 r.2) acc ->
  Forall (fun r => on_disk w' r.1 r.2) files.
Proof.
  revert acc w. induction ms as [|m ms IH]; intros acc w.
  - by intros [= <- <-].
  - rewrite extract_members_cons.
    destruct (extract_member dir pid name date m acc w) as [w1 [e|a]] eqn:E; [done|].
    intros Hrun Hacc. apply (IH _ _ Hrun).
    pose proof (extract_member_only _ _ _ _ _ _ _ _ _ E) as (_ & _ & _ & _ & Hi & Hp).
    rewrite extract_member_selected in E.
    destruct (selected dir m) as [[d k]|] eqn:Hsel.
    + destruct (zi_read m) as [| |data]; cbv zeta in E;
        [done|by destruct (can_create _ _)|].
      destruct (can_create _ _); [|done].
      injection E as <- <-. apply Forall_app. split.
      * eapply Forall_impl; [exact Hacc|]. intros r Hr.
        by eapply on_disk_mono; [| |exact Hr].
      * apply Forall_singleton. unfold selected in Hsel.
        destruct (is_dir m || _); [done|].
        apply classify_kind in Hsel as [[-> ->]|[-> ->]]; [left|right];
          simpl; by rewrite lookup_insert_eq.
    + injection E as <- <-. done.
Qed.

Lemma file_rows_in k enc fs f :
  In f (file_rows k enc fs) -> In (filename f, file_type f) fs.
Proof.
  revert k. induction fs as [|[fname ftype] fs IH]; simpl; intros k; [done|].
  intros [<-|Hf]; [by left|]. right. by eapply IH.
Qed.

Section PlaceFacts.
Context `{Runtime}.

Lemma process_keeps_files_present zname w w' r :
  process_zip_file zname w = (w', r) -> files_present w -> files_present w'.
Proof.
  intros Hrun Hw.
  apply process_result in Hrun
    as [(_ & -> & _)|[(c & _ & _ & -> & _)|[(c & w1 & e & _ & _ & Hb & -> & _)
       |(c & _ & _ & Hb & _)]]]; try done.
  - apply body_raises_only in Hb as (Hdb & _ & _ & _ & Hi & Hp).
    intros f Hf. simpl in Hf. rewrite Hdb in Hf.
    eapply on_disk_mono; [| |by apply Hw]; done.
  - apply body_committed in Hb
      as (w2 & name & pid & date & files & Honly & (dir & ms & Hex) & Hc & ->).
    destruct Honly as (_ & _ & _ & _ & Hi & Hp).
    apply commit_archive_inv in Hc as (_ & _ & Hd).
    intros f Hf. simpl in Hf. rewrite Hd in Hf. simpl in Hf.
    apply in_app_or in Hf as [Hf|Hf].
    + eapply on_disk_mono; [| |by apply Hw]; done.
    + apply file_rows_in in Hf.
      apply extract_members_on_disk in Hex; [|done].
      rewrite Forall_forall in Hex. apply list_elem_of_In in Hf.
      specialize (Hex _ Hf). simpl in Hex.
      eapply on_disk_mono; [| |exact Hex]; done.
Qed.

(** X8: every file row of the store has its file in the area of its
    kind; this holds of the empty store and is kept by every upload and
    every run, so the documents the OCR script looks for are there. *)
Theorem file_rows_have_files w w' :
  files_present w -> later w w' -> files_present w'.
Proof.
  intros Hw Hlater. induction Hlater as [w|w zname w1 r w' Hrun _ IH|w zname c w' _ IH].
  - done.
  - apply IH. by eapply process_keeps_files_present.
  - by apply IH.
Qed.

Lemma run_outcome zname w :
  match UPLOAD_DIR w !! zname with
  | None => process_zip_file zname w = (w, inl FileNotFoundError)
  | Some content =>
      exists w' o,
        process_zip_file zname w = (w', inr o)
        /\ match o with
           | Skipped => w' = w /\ is_recorded (calculate_md5 content) (db w) = true
           | Processed =>
               UPLOAD_DIR w' = delete zname (UPLOAD_DIR w)
               /\ PROCESSED_DIR w' = <[zname := content]> (PROCESSED_DIR w)
               /\ PROCESSING_ERROR_DIR w' = PROCESSING_ERROR_DIR w
               /\ is_recorded (calculate_md5 content) (db w) = false
               /\ is_recorded (calculate_md5 content) (db w') = true
           | Failed _ =>
               UPLOAD_DIR w' = delete zname (UPLOAD_DIR w)
               /\ PROCESSING_ERROR_DIR w' = <[zname := content]> (PROCESSING_ERROR_DIR w)
               /\ PROCESSED_DIR w' = PROCESSED_DIR w
               /\ db w' = db w
               /\ is_recorded (calculate_md5 content) (db w) = false
           end
  end.
Proof.
  destruct (UPLOAD_DIR w !! zname) as [content|] eqn:Hup; [|by apply process_missing].
  destruct (process_zip_file zname w) as [w' r] eqn:Hrun.
  apply process_result in Hrun
    as [(Hn & _)|[(c & Hc & Hrec & -> & ->)|[(c & w1 & e & Hc & Hrec & Hb & -> & ->)
       |(c & Hc & Hrec & Hb & ->)]]]; [congruence|..];
    assert (c = content) as -> by congruence.
  - exists w, Skipped. done.
  - apply body_raises_only in Hb as (Hdb & Hu & Hp & He & _).
    eexists _, (Failed e). split; [done|]. simpl. by rewrite Hdb, Hu, Hp, He.
  - apply body_committed in Hb
      as (w2 & name & pid & date & files & _ & _ & Hcm & Hw').
    exists w', Processed. split; [done|]. rewrite Hw'. simpl.
    repeat split; try done.
    apply commit_archive_inv in Hcm as (_ & _ & ->). unfold is_recorded. simpl.
    rewrite existsb_app. simpl. by rewrite String.eqb_refl, orb_true_r.
Qed.

(** X9: a run on a name that is in the upload area never raises, and
    ends in one of three ways. Skipped: nothing changes and the bytes are
    recorded. Processed: the archive has left the upload area for the
    processed area, the error area is untouched and the bytes are now
    recorded. Failed: the archive has left the upload area for the error
    area, the processed area and the store are untouched. A run on a
    name that is absent raises [FileNotFoundError] and changes nothing. *)
Theorem run_ends_in_one_place zname w :
  match UPLOAD_DIR w !! zname with
  | None => process_zip_file zname w = (w, inl FileNotFoundError)
  | Some content =>
      exists w' o,
        process_zip_file zname w = (w', inr o)
        /\ match o with
           | Skipped => w' = w /\ is_recorded (calculate_md5 content) (db w) = true
           | Processed =>
               UPLOAD_DIR w' = delete zname (UPLOAD_DIR w)
               /\ PROCESSED_DIR w' = <[zname := content]> (PROCESSED_DIR w)
               /\ PROCESSING_ERROR_DIR w' = PROCESSING_ERROR_DIR w
               /\ is_recorded (calculate_md5 content) (db w) = false
               /\ is_recorded (calculate_md5 content) (db w') = true
           | Failed _ =>
               UPLOAD_DIR w' = delete zname (UPLOAD_DIR w)
               /\ PROCESSING_ERROR_DIR w' = <[zname := content]> (PROCESSING_ERROR_DIR w)
               /\ PROCESSED_DIR w' = PROCESSED_DIR w
               /\ db w' = db w
               /\ is_recorded (calculate_md5 content) (db w) = false
           end
  end.
Proof. apply run_outcome. Qed.

End PlaceFacts.

(** ** The store under the archive script *)

Lemma appended_refl d : appended d d.
Proof. repeat split; try done; exists []; by rewrite app_nil_r. Qed.

Lemma appended_trans d1 d2 d3 : appended d1 d2 -> appended d2 d3 -> appended d1 d3.
Proof.
  intros ([k1 H1] & [k2 H2] & [k3 H3] & H4 & H5) ([l1 G1] & [l2 G2] & [l3 G3] & G4 & G5).
  repeat split; try congruence.
  - exists (k1 ++ l1). by rewrite G1, H1, app_assoc.
  - exists (k2 ++ l2). by rewrite G2, H2, app_assoc.
  - exists (k3 ++ l3). by rewrite G3, H3, app_assoc.
Qed.

Lemma commit_archive_appended d zname md5 name pid date fs d' :
  commit_archive d zname md5 name pid date fs = Some d' -> appended d d'.
Proof.
  intros Hc. apply commit_archive_inv in Hc as (_ & _ & ->).
  repeat split; simpl; eauto.
Qed.

Lemma commit_archive_name d zname md5 name pid date fs d' :
  commit_archive d zname md5 name pid date fs = Some d' ->
  existsb (fun z => String.eqb (zip_filename z) zname) (zip_files d) = false.
Proof.
  unfold commit_archive.
  destruct (existsb (fun z => String.eqb (zip_filename z) zname) (zip_files d)); done.
Qed.

Lemma file_rows_ids k enc fs : map ef_id (file_rows k enc fs) = seq k (length fs).
Proof.
  revert k. induction fs as [|[fname ftype] fs IH]; simpl; intros k; [done|].
  by rewrite IH.
Qed.

Lemma not_in_of_existsb {A B} (f : A -> B) (eqb : B -> B -> bool) (l : list A) y :
  (forall a b, eqb a b = true <-> a = b) ->
  existsb (fun x => eqb (f x) y) l = false -> y ∉ map f l.
Proof.
  intros Heqb Hex Hin. apply list_elem_of_In, in_map_iff in Hin as (x & <- & Hx).
  assert (existsb (fun x0 => eqb (f x0) (f x)) l = true); [|congruence].
  apply existsb_exists. exists x. split; [done|]. by apply Heqb.
Qed.

Lemma next_id_not_in ids : next_id ids ∉ ids.
Proof. intros Hin. apply list_elem_of_In, next_id_gt in Hin. lia. Qed.

Lemma NoDup_snoc {A} (l : list A) x : NoDup l -> x ∉ l -> NoDup (l ++ [x]).
Proof.
  intros Hl Hx. apply NoDup_app. split; [done|]. split; [|apply NoDup_singleton].
  intros y Hy Hy'. apply list_elem_of_singleton in Hy' as ->. done.
Qed.

Lemma commit_archive_unique d zname md5 name pid date fs d' :
  store_unique d -> commit_archive d zname md5 name pid date fs = Some d' ->
  store_unique d'.
Proof.
  intros (H1 & H2 & H3 & H4 & H5 & H6) Hc.
  pose proof (commit_archive_name _ _ _ _ _ _ _ _ Hc) as Hname.
  apply commit_archive_inv in Hc as (Hmd5 & Henc & ->).
  unfold store_unique. simpl. rewrite !map_app. simpl.
  repeat split.
  - apply NoDup_snoc; [done|].
    apply (not_in_of_existsb md5_hash String.eqb); [apply String.eqb_eq|done].
  - apply NoDup_snoc; [done|].
    apply (not_in_of_existsb zip_filename String.eqb); [apply String.eqb_eq|done].
  - apply NoDup_snoc; [done|apply next_id_not_in].
  - apply NoDup_snoc; [done|apply next_id_not_in].
  - apply NoDup_snoc; [done|].
    apply (not_in_of_existsb zip_file_id Nat.eqb); [apply Nat.eqb_eq|done].
  - rewrite file_rows_ids. apply NoDup_app. split; [done|]. split; [|apply NoDup_seq].
    intros x Hx Hx'. apply list_elem_of_In in Hx, Hx'.
    apply next_id_gt in Hx. apply in_seq in Hx'. lia.
Qed.

Lemma commit_archive_linked d zname md5 name pid date fs d' :
  store_linked d -> commit_archive d zname md5 name pid date fs = Some d' ->
  store_linked d'.
Proof.
  intros (Hwf & Hez & Hone) Hc.
  pose proof (commit_archive_wf _ _ _ _ _ _ _ _ Hwf Hc) as Hwf'.
  apply commit_archive_inv in Hc as (_ & Henc & ->).
  split; [done|]. split.
  - intros e. simpl. rewrite in_app_iff, map_app, in_app_iff. intros [He|[<-|[]]].
    + left. by apply Hez.
    + right. by left.
  - intros z. simpl. rewrite in_app_iff. unfold encounters_of.
    cbn [patient_encounters]. rewrite List.filter_app, length_app.
    cbn [List.filter zip_file_id]. intros [Hz|[<-|[]]].
    + specialize (Hone z Hz). unfold encounters_of in Hone. rewrite Hone.
      assert ((next_id (map zf_id (zip_files d)) =? zf_id z) = false) as ->; [|done].
      apply Nat.eqb_neq. pose proof (next_id_gt _ _ (in_map zf_id _ _ Hz)). lia.
    + cbn [zf_id]. rewrite (filter_none _ _ Henc), Nat.eqb_refl. done.
Qed.

Section StoreFacts.
Context `{Runtime}.

Lemma process_appended zname w w' r :
  process_zip_file zname w = (w', r) -> appended (db w) (db w').
Proof.
  intros Hrun. apply process_store in Hrun as [->|Hc]; [apply appended_refl|].
  destruct Hc as (c & name & pid & date & fs & _ & _ & Hc).
  by eapply commit_archive_appended.
Qed.

Lemma later_appended w w' : later w w' -> appended (db w) (db w').
Proof.
  induction 1 as [w|w zname w1 r w' Hrun _ IH|w zname c w' _ IH].
  - apply appended_refl.
  - eapply appended_trans; [by eapply process_appended|done].
  - done.
Qed.

(** X10: over any sequence of uploads and runs the store only gains
    rows at the end of the archive, encounter and file tables: no row is
    removed or changed, and the two report tables are left alone. *)
Theorem archive_runs_only_append w w' :
  later w w' ->
  (exists k, zip_files (db w') = zip_files (db w) ++ k)
  /\ (exists k, patient_encounters (db w') = patient_encounters (db w) ++ k)
  /\ (exists k, encounter_files (db w') = encounter_files (db w) ++ k)
  /\ diabetic_retinopathy_reports (db w') = diabetic_retinopathy_reports (db w)
  /\ glaucoma_reports (db w') = glaucoma_reports (db w).
Proof. intros Hl. exact (later_appended _ _ Hl). Qed.

(** X11: no fingerprint, no archive file name and no key occurs twice
    in the store, and no two encounters belong to the same archive: true
    of the empty store and kept by every upload and every run. *)
Theorem store_stays_unique w w' :
  store_unique (db w) -> later w w' -> store_unique (db w').
Proof.
  intros Hw Hlater. induction Hlater as [w|w zname w1 r w' Hrun _ IH|w zname c w' _ IH];
    [done| |by apply IH].
  apply IH. apply process_store in Hrun as [->|Hc]; [done|].
  destruct Hc as (c & name & pid & date & fs & _ & _ & Hc).
  by eapply commit_archive_unique.
Qed.

(** X12: every file row belongs to an encounter row, every encounter
    row to an archive row, and every archive row has exactly one
    encounter: true of the empty store and kept by every upload and
    every run. *)
Theorem store_stays_linked w w' :
  store_linked (db w) -> later w w' -> store_linked (db w').
Proof.
  intros Hw Hlater. induction Hlater as [w|w zname w1 r w' Hrun _ IH|w zname c w' _ IH];
    [done| |by apply IH].
  apply IH. apply process_store in Hrun as [->|Hc]; [done|].
  destruct Hc as (c & name & pid & date & fs & _ & _ & Hc).
  by eapply commit_archive_linked.
Qed.

(** X13: an archive whose file name is that of a recorded archive is
    never processed; when its bytes are not recorded the run fails and
    the archive goes to the error area. *)
Theorem recorded_name_is_never_processed zname w :
  existsb (fun z => String.eqb (zip_filename z) zname) (zip_files (db w)) = true ->
  (forall w', process_zip_file zname w <> (w', inr Processed))
  /\ forall content,
       UPLOAD_DIR w !! zname = Some content ->
       is_recorded (calculate_md5 content) (db w) = false ->
       exists w' e,
         process_zip_file zname w = (w', inr (Failed e))
         /\ PROCESSING_ERROR_DIR w' !! zname = Some content.
Proof.
  intros Hname.
  assert (Hnever : forall w', process_zip_file zname w <> (w', inr Processed)).
  { intros w' Hrun.
    apply process_result in Hrun
      as [(_ & _ & [=])|[(c & _ & _ & _ & [=])|[(c & w1 & e & _ & _ & _ & _ & [=])
         |(c & _ & _ & Hb & _)]]].
    apply body_committed in Hb as (w2 & name & pid & date & fs & _ & _ & Hc & _).
    apply commit_archive_name in Hc. congruence. }
  split; [exact Hnever|].
  intros content Hup Hrec.
  destruct (process_zip_file zname w) as [w' r] eqn:Hrun.
  pose proof Hrun as Hres.
  apply process_result in Hres
    as [(Hn & _)|[(c & Hc & Hr & _)|[(c & w1 & e & Hc & _ & Hb & -> & ->)
       |(c & _ & _ & _ & ->)]]].
  - congruence.
  - assert (c = content) as -> by congruence. congruence.
  - assert (c = content) as -> by congruence.
    eexists _, e. split; [done|]. simpl. apply lookup_insert_eq.
  - by destruct (Hnever w').
Qed.

End StoreFacts.

(** ** The loop of [main] *)

Section MainLoop.
Context `{Runtime}.

Lemma process_other zname w w' r n :
  process_zip_file zname w = (w', r) -> n <> zname ->
  UPLOAD_DIR w' !! n = UPLOAD_DIR w !! n.
Proof.
  intros Hrun Hne.
  apply process_result in Hrun
    as [(_ & -> & _)|[(c & _ & _ & -> & _)|[(c & w1 & e & _ & _ & Hb & -> & _)
       |(c & _ & _ & Hb & _)]]]; try done.
  - apply body_raises_only in Hb as (_ & Hu & _). simpl.
    by rewrite lookup_delete_ne, Hu.
  - apply body_committed in Hb as (w2 & name & pid & date & fs & _ & _ & _ & ->).
    simpl. by rewrite lookup_delete_ne.
Qed.

Lemma is_recorded_appended h d d' :
  appended d d' -> is_recorded h d = true -> is_recorded h d' = true.
Proof.
  intros ([k Hk] & _) Hr. unfold is_recorded in *. by rewrite Hk, existsb_app, Hr.
Qed.

Lemma process_all_cons zname rest w :
  process_all (zname :: rest) w
  = match process_zip_file zname w with
    | (w1, inr o) =>
        match process_all rest w1 with
        | (w', inr os) => (w', inr (o :: os))
        | (w', inl e) => (w', inl e)
        end
    | (w1, inl e) => (w1, inl e)
    end.
Proof.
  cbn [process_all]. unfold bind.
  destruct (process_zip_file zname w) as [w1 [e|o]]; [done|].
  by destruct (process_all rest w1) as [w' [e|os]].
Qed.

Lemma process_all_later names w w' r : process_all names w = (w', r) -> later w w'.
Proof.
  revert w w' r. induction names as [|n names IH]; intros w w' r.
  - intros [= <- <-]. apply later_now.
  - rewrite process_all_cons.
    destruct (process_zip_file n w) as [w1 [e|o]] eqn:Hrun.
    + intros [= <- <-]. eapply later_process; [exact Hrun|apply later_now].
    + destruct (process_all names w1) as [w2 [e|os]] eqn:Hrest; intros [= <- <-];
        (eapply later_process; [exact Hrun|by eapply IH]).
Qed.

Lemma process_all_other names w w' r n :
  process_all names w = (w', r) -> ~ In n names ->
  UPLOAD_DIR w' !! n = UPLOAD_DIR w !! n.
Proof.
  revert w w' r. induction names as [|x names IH]; intros w w' r.
  - by intros [= <- <-].
  - rewrite process_all_cons. intros Hrun Hn.
    assert (n <> x) as Hne by (intros ->; apply Hn; by left).
    assert (~ In n names) as Hn' by (intros ?; apply Hn; by right).
    destruct (process_zip_file x w) as [w1 [e|o]] eqn:Hx.
    + injection Hrun as <- <-. by eapply process_other.
    + destruct (process_all names w1) as [w2 [e|os]] eqn:Hrest; injection Hrun as <- <-;
        rewrite (IH _ _ _ Hrest Hn'); by eapply process_other.
Qed.

(** X14: the loop over archive names that are all in the upload area,
    each once, never aborts: it returns one outcome per name, and at the
    end every one of these archives has either left the upload area or
    is still there with its bytes recorded in the store. *)
Theorem main_loop_handles_every_archive names w :
  NoDup names ->
  Forall (fun n => is_Some (UPLOAD_DIR w !! n)) names ->
  exists w' outcomes,
    process_all names w = (w', inr outcomes)
    /\ length outcomes = length names
    /\ Forall (fun n =>
                 match UPLOAD_DIR w' !! n with
                 | None => True
                 | Some content => is_recorded (calculate_md5 content) (db w') = true
                 end) names.
Proof.
  revert w. induction names as [|n names IH]; intros w Hnd Hall.
  - exists w, []. done.
  - apply NoDup_cons in Hnd as [Hn Hnd]. apply Forall_cons in Hall as [[c Hc] Hall].
    rewrite list_elem_of_In in Hn.
    pose proof (run_outcome n w) as Hone. rewrite Hc in Hone.
    destruct Hone as (w1 & o & Hrun & Ho).
    destruct (IH w1 Hnd) as (w' & os & Hrest & Hlen & Hfin).
    { rewrite Forall_forall in Hall. apply Forall_forall. intros x Hx.
      assert (UPLOAD_DIR w1 !! x = UPLOAD_DIR w !! x) as ->; [|by apply Hall].
      eapply process_other; [exact Hrun|]. intros ->.
      apply Hn. by apply list_elem_of_In. }
    exists w', (o :: os). rewrite process_all_cons, Hrun, Hrest.
    split; [done|]. split; [simpl; lia|]. apply Forall_cons. split; [|done].
    rewrite (process_all_other _ _ _ _ _ Hrest Hn).
    pose proof (later_appended _ _ (process_all_later _ _ _ _ Hrest)) as Happ.
    destruct o.
    + destruct Ho as [-> Hr]. rewrite Hc. by eapply is_recorded_appended.
    + destruct Ho as (-> & _). by rewrite lookup_delete_eq.
    + destruct Ho as (-> & _). by rewrite lookup_delete_eq.
Qed.

End MainLoop.

(** ** The OCR script: what a run keeps *)

(** As [SessionInvariant], with the measurement finding added only when
    the encounter has none. *)
Section SessionSteps.
Context `{OcrRuntime}.
Variable I : Session -> Prop.
Hypothesis I_add_dr : forall s enc result,
  I s -> existing_dr enc s = false -> I (add_dr (enc, result) s).
Hypothesis I_add_gl : forall s enc r l res,
  I s -> existing_gl enc s = false -> I (add_gl (enc, r, l, res) s).
Hypothesis I_commit : forall s, I s -> I (commit s).
Hypothesis I_rollback : forall s, I s -> I (rollback s).

Lemma extract_dr_data_inv text ef : preserves I (extract_dr_data text ef).
Proof.
  intros s Hs. unfold extract_dr_data, bind, get.
  destruct (dr_result_of text) as [result|]; [|done]. simpl.
  destruct (existing_dr (patient_encounter_id ef) s) eqn:E; [done|]. simpl.
  by apply I_add_dr.
Qed.

Lemma extract_glaucoma_data_inv text ef : preserves I (extract_glaucoma_data text ef).
Proof.
  intros s Hs. unfold extract_glaucoma_data, bind.
  pose proof (glaucoma_fields_state text s) as Hg.
  destruct (glaucoma_fields text s) as [s' [e|[[r l] res]]]; simpl in Hg; subst s';
    [done|].
  unfold get. destruct (existing_gl _ s) eqn:E; [done|]. by apply I_add_gl.
Qed.

Lemma extract_page_inv text ef : preserves I (extract_page text ef).
Proof.
  unfold extract_page. apply preserves_bind.
  - destruct (Str.contains _ _); auto using extract_dr_data_inv with preserves.
  - intros _. destruct (Str.contains _ _);
      auto using extract_glaucoma_data_inv with preserves.
Qed.

Lemma process_pages_inv pages ef : preserves I (process_pages pages ef).
Proof.
  induction pages as [|page pages IH]; simpl;
    auto 6 using extract_page_inv with preserves.
Qed.

Lemma process_pdf_inv pdf_dir ef : preserves I (process_pdf pdf_dir ef).
Proof.
  unfold process_pdf. destruct (pdf_dir !! filename ef);
    auto 8 using process_pages_inv with preserves.
Qed.

Lemma process_pdfs_inv pdf_dir all_pdfs : preserves I (process_pdfs pdf_dir all_pdfs).
Proof.
  induction all_pdfs as [|ef rest IH]; simpl;
    auto using process_pdf_inv with preserves.
Qed.

Lemma process_pdf_files_inv pdf_dir : preserves I (process_pdf_files pdf_dir).
Proof.
  unfold process_pdf_files. destruct (negb OCR_ENABLED);
    auto using process_pdfs_inv with preserves.
Qed.

End SessionSteps.

Lemma gl_rows_length enc k l :
  length (List.filter (fun r => gl_patient_encounter_id r =? enc) (gl_rows k l))
  = length (List.filter
              (fun r : nat * option Q * option Q * string => fst (fst (fst r)) =? enc) l).
Proof.
  revert k. induction l as [|[[[e r] lf] res] l IH]; simpl; intros k; [done|].
  destruct (e =? enc); simpl; by rewrite IH.
Qed.

Lemma gl_rows_other enc k l :
  existsb (fun r : nat * option Q * option Q * string => fst (fst (fst r)) =? enc) l
  = false ->
  List.filter (fun r => gl_patient_encounter_id r =? enc) (gl_rows k l) = [].
Proof.
  revert k. induction l as [|[[[e r] lf] res] l IH]; simpl; intros k; [done|].
  intros Hex. apply orb_false_iff in Hex as [-> Hex]. by apply IH.
Qed.

Section OcrInvariants.
Context `{OcrRuntime}.

Lemma at_most_one_add_dr' s e result :
  at_most_one s -> existing_dr e s = false -> at_most_one (add_dr (e, result) s).
Proof.
  intros [Haf Hle] E. split; [done|]. intros enc. destruct (Hle enc) as [Hd Hg].
  split; [|done].
  unfold dr_waiting in *. simpl. rewrite List.filter_app, length_app. simpl.
  destruct (e =? enc) eqn:Heq; simpl; [|lia].
  apply Nat.eqb_eq in Heq as ->. unfold existing_dr in E. rewrite Haf in E.
  apply orb_false_iff in E as [E1 E2]. simpl in E2.
  unfold dr_of. rewrite (filter_none _ _ E1), (filter_none _ _ E2). simpl. lia.
Qed.

Lemma at_most_one_add_gl s e r l res :
  at_most_one s -> existing_gl e s = false -> at_most_one (add_gl (e, r, l, res) s).
Proof.
  intros [Haf Hle] E. split; [done|]. intros enc. destruct (Hle enc) as [Hd Hg].
  split; [done|].
  unfold gl_waiting in *. simpl. rewrite List.filter_app, length_app. simpl.
  destruct (e =? enc) eqn:Heq; simpl; [|lia].
  apply Nat.eqb_eq in Heq as ->. unfold existing_gl in E. rewrite Haf in E.
  apply orb_false_iff in E as [E1 E2]. simpl in E2.
  unfold gl_of. rewrite (filter_none _ _ E1), (filter_none _ _ E2). simpl. lia.
Qed.

Lemma at_most_one_commit' s : at_most_one s -> at_most_one (commit s).
Proof.
  intros [Haf Hle]. split; [done|]. intros enc. destruct (Hle enc) as [Hd Hg].
  unfold dr_of, dr_waiting, gl_of, gl_waiting, commit in *. simpl.
  rewrite !List.filter_app, !length_app, dr_rows_length, gl_rows_length. lia.
Qed.

Lemma at_most_one_rollback' s : at_most_one s -> at_most_one (rollback s).
Proof.
  intros [Haf Hle]. split; [done|]. intros enc. destruct (Hle enc) as [Hd Hg].
  unfold dr_waiting, gl_waiting in *. simpl in *. lia.
Qed.

(** X15: started on a store in which no encounter has more than one
    finding of either kind, any number of OCR runs leaves at most one
    diagnostic and one measurement finding per encounter, also when a
    document carries a report on several pages or several documents of
    one encounter carry it. *)
Theorem ocr_runs_keep_one_finding_of_each_kind dirs d :
  (forall enc, length (dr_of enc d) <= 1 /\ length (gl_of enc d) <= 1) ->
  forall enc,
    length (dr_of enc (ocr_runs dirs d)) <= 1
    /\ length (gl_of enc (ocr_runs dirs d)) <= 1.
Proof.
  revert d. induction dirs as [|pdf_dir dirs IH]; intros d Hd; simpl; [done|].
  apply IH. intros enc. unfold ocr_main.
  assert (Hs : at_most_one (Session_of d)).
  { split; [done|]. intros e. destruct (Hd e). unfold dr_waiting, gl_waiting. simpl. lia. }
  apply (process_pdf_files_inv at_most_one) with (pdf_dir := pdf_dir) in Hs;
    [|apply at_most_one_add_dr'|apply at_most_one_add_gl|apply at_most_one_commit'
     |apply at_most_one_rollback'].
  destruct Hs as [_ Hle]. destruct (Hle enc). lia.
Qed.

Lemma keeps_gl_add_gl enc L s e r l res :
  L <> [] -> keeps_gl enc L s -> existing_gl e s = false ->
  keeps_gl enc L (add_gl (e, r, l, res) s).
Proof.
  intros HL [Hst Hnew] E. split; [done|]. simpl.
  rewrite existsb_app, Hnew. simpl. rewrite orb_false_r.
  apply Nat.eqb_neq. intros ->.
  unfold existing_gl in E. apply orb_false_iff in E as [E _].
  unfold gl_of in Hst. rewrite (filter_none _ _ E) in Hst. congruence.
Qed.

Lemma keeps_gl_commit enc L s : keeps_gl enc L s -> keeps_gl enc L (commit s).
Proof.
  intros [Hst Hnew]. split; [|done]. unfold gl_of, commit in *. simpl.
  by rewrite List.filter_app, Hst, (gl_rows_other _ _ _ Hnew), app_nil_r.
Qed.

(** X16: an encounter that has stored measurement findings keeps just
    these over any number of OCR runs, whatever the documents hold. *)
Theorem no_second_measurement_finding dirs d enc :
  gl_of enc d <> [] -> gl_of enc (ocr_runs dirs d) = gl_of enc d.
Proof.
  intros Hne. remember (gl_of enc d) as L eqn:HL. symmetry in HL.
  revert d HL. induction dirs as [|pdf_dir dirs IH]; intros d HL; simpl; [done|].
  apply IH. unfold ocr_main.
  apply (process_pdf_files_inv (keeps_gl enc L)) with (s := Session_of d).
  - by intros s e result [].
  - intros s e r l res. by apply keeps_gl_add_gl.
  - apply keeps_gl_commit.
  - by intros s [].
  - done.
Qed.

Lemma reports_appended_commit d s : reports_appended d s -> reports_appended d (commit s).
Proof.
  intros (H1 & H2 & H3 & [k4 H4] & [k5 H5]). unfold reports_appended, commit. simpl.
  repeat split; try done.
  - rewrite H4, <- app_assoc. eauto.
  - rewrite H5, <- app_assoc. eauto.
Qed.

(** X17: a run of the OCR script leaves the archive, encounter and file
    tables as they were, so that no file row is ever marked as
    recognised and every document is read again at the next run, and it
    only appends to the two report tables. *)
Theorem ocr_only_appends_reports pdf_dir d :
  zip_files (ocr_main pdf_dir d) = zip_files d
  /\ patient_encounters (ocr_main pdf_dir d) = patient_encounters d
  /\ encounter_files (ocr_main pdf_dir d) = encounter_files d
  /\ (exists k, diabetic_retinopathy_reports (ocr_main pdf_dir d)
                = diabetic_retinopathy_reports d ++ k)
  /\ (exists k, glaucoma_reports (ocr_main pdf_dir d) = glaucoma_reports d ++ k).
Proof.
  unfold ocr_main.
  apply (process_pdf_files_inv (reports_appended d)) with (s := Session_of d).
  - by intros s e result.
  - by intros s e r l res.
  - apply reports_appended_commit.
  - by intros s.
  - repeat split; try done; exists []; simpl; by rewrite app_nil_r.
Qed.

Lemma process_pdf_returns pdf_dir ef s : snd (process_pdf pdf_dir ef s) = inr tt.
Proof.
  unfold process_pdf. destruct (pdf_dir !! filename ef); [|done].
  unfold try_except.
  match goal with |- context [match ?m s with _ => _ end] => destruct (m s) as [s' [e|[]]] end;
    done.
Qed.

Lemma process_pdf_no_pending pdf_dir ef s :
  no_pending s -> no_pending (fst (process_pdf pdf_dir ef s)).
Proof.
  intros Hs. unfold process_pdf.
  destruct (pdf_dir !! filename ef) as [content|]; [|done].
  unfold try_except, bind, require.
  destruct (fitz_open content) as [doc|]; simpl; [|done].
  destruct (process_pages doc ef s) as [s' [e|[]]]; done.
Qed.

Lemma process_pdfs_returns pdf_dir all_pdfs s :
  snd (process_pdfs pdf_dir all_pdfs s) = inr tt
  /\ (no_pending s -> no_pending (fst (process_pdfs pdf_dir all_pdfs s))).
Proof.
  revert s. induction all_pdfs as [|ef rest IH]; intros s; [done|].
  cbn [process_pdfs]. unfold bind.
  pose proof (process_pdf_returns pdf_dir ef s) as Hr.
  pose proof (process_pdf_no_pending pdf_dir ef s) as Hp.
  destruct (process_pdf pdf_dir ef s) as [s1 r]. simpl in *. subst r.
  destruct (IH s1) as [Hr1 Hp1]. split; [done|]. auto.
Qed.

(** X18: [process_pdf_files] never raises: an exception met in a
    document ends that document only. A session that had nothing
    waiting when the run began has nothing waiting when it ends. *)
Theorem ocr_run_never_raises pdf_dir s :
  snd (process_pdf_files pdf_dir s) = inr tt
  /\ (no_pending s -> no_pending (fst (process_pdf_files pdf_dir s))).
Proof.
  unfold process_pdf_files. destruct (negb OCR_ENABLED); [done|].
  unfold bind, get. apply process_pdfs_returns.
Qed.

End OcrInvariants.

(** ** The OCR script: a second run *)

Lemma glaucoma_fields_result {St} text (s : St) :
  snd (glaucoma_fields text s) = snd (glaucoma_fields text tt).
Proof.
  unfold glaucoma_fields. destruct (Re.search_rest _ _) as [sec|]; [|done].
  unfold bind, vcdr_of_section.
  destruct (Re.findall_vcdr sec) as [|v0 [|v1 tl]]; simpl; [done| |].
  - destruct (Str.contains _ _); unfold bind, require; by destruct (float v0).
  - unfold bind, require. destruct (float v0); [|done]. simpl. by destruct (float v1).
Qed.

Lemma rollback_no_pending s : no_pending s -> rollback s = s.
Proof. destruct s as [af d nd ng]. intros [Hd Hg]. simpl in *. by subst. Qed.

Lemma commit_no_pending s : no_pending s -> commit s = s.
Proof.
  destruct s as [af [z e f dr gl] nd ng]. intros [Hd Hg]. simpl in *. subst.
  unfold commit. simpl. by rewrite !app_nil_r.
Qed.

Section SecondRun.
Context `{OcrRuntime}.

(** Going through pages changes neither the store nor the switch. *)
Lemma process_pages_store pages ef s :
  store (fst (process_pages pages ef s)) = store s
  /\ autoflush (fst (process_pages pages ef s)) = autoflush s.
Proof.
  apply (process_pages_inv (fun s' => store s' = store s /\ autoflush s' = autoflush s));
    [by intros ? ? ? []|by intros ? ? ? ? ? []|done].
Qed.

Lemma extract_glaucoma_data_result text ef s :
  match snd (glaucoma_fields text tt) with
  | inr _ => snd (extract_glaucoma_data text ef s) = inr tt
  | inl e => extract_glaucoma_data text ef s = (s, inl e)
  end.
Proof.
  unfold extract_glaucoma_data, bind.
  pose proof (glaucoma_fields_state text s) as Hst.
  pose proof (glaucoma_fields_result text s) as Hres.
  destruct (glaucoma_fields text s) as [s' [e|[[r l] res]]]; simpl in *; subst s';
    rewrite <- Hres; [done|].
  unfold get. by destruct (existing_gl _ s).
Qed.

Lemma extract_dr_data_returns text ef s : snd (extract_dr_data text ef s) = inr tt.
Proof.
  unfold extract_dr_data, bind, get. destruct (dr_result_of text); [|done]. simpl.
  by destruct (existing_dr _ s).
Qed.

Lemma extract_page_result text ef s :
  snd (extract_page text ef s) = inr tt
  <-> (Str.contains "Glaucoma Screening Report" text = true ->
       exists v, snd (glaucoma_fields text tt) = inr v).
Proof.
  unfold extract_page, bind.
  assert (Hfirst : exists s1,
            (if Str.contains "Diabetic Retinopathy Report" text
             then extract_dr_data text ef else ret tt) s = (s1, inr tt)).
  { destruct (Str.contains "Diabetic Retinopathy Report" text); [|by eexists].
    pose proof (extract_dr_data_returns text ef s) as Hr.
    destruct (extract_dr_data text ef s) as [s1 [e|[]]]; simpl in Hr; [done|]. by eexists. }
  destruct Hfirst as [s1 ->].
  destruct (Str.contains "Glaucoma Screening Report" text).
  - pose proof (extract_glaucoma_data_result text ef s1) as Hg.
    destruct (snd (glaucoma_fields text tt)) as [e|v].
    + rewrite Hg. simpl. split; [done|]. intros Hv. destruct (Hv eq_refl) as [v [=]].
    + rewrite Hg. split; [eauto|done].
  - simpl. split; [done|done].
Qed.

(** The pages of a document are gone through without an exception
    exactly when each of them is. *)
Lemma process_pages_result pages ef s :
  snd (process_pages pages ef s) = inr tt <-> pages_ok pages = true.
Proof.
  revert s. induction pages as [|page pages IH]; intros s; [done|].
  cbn [process_pages pages_ok forallb]. unfold bind, require, page_ok at 1.
  destruct (image_to_string page) as [text|]; simpl; [|done].
  pose proof (extract_page_result text ef s) as Hp.
  destruct (extract_page text ef s) as [s1 [e|[]]]; simpl in Hp.
  - split; [done|]. intros Hok. apply andb_true_iff in Hok as [Hok _].
    destruct Hp as [_ Hp].
    discriminate Hp. intros Ht. rewrite Ht in Hok.
    destruct (snd (glaucoma_fields text tt)); [done|eauto].
  - rewrite IH. fold (pages_ok pages). destruct Hp as [Hp _]. specialize (Hp eq_refl).
    destruct (Str.contains "Glaucoma Screening Report" text); [|done].
    destruct (Hp eq_refl) as [v ->]. done.
Qed.

End SecondRun.

Section DocumentFacts.
Context `{OcrRuntime}.

Lemma failing_document_unchanged pdf_dir ef s content :
  no_pending s ->
  pdf_dir !! filename ef = Some content ->
  match fitz_open content with
  | None => True
  | Some pages => pages_ok pages = false
  end ->
  process_pdf pdf_dir ef s = (s, inr tt).
Proof.
  intros Hs Hfile Hfail. unfold process_pdf. rewrite Hfile.
  unfold try_except, bind, require.
  destruct (fitz_open content) as [pages|]; simpl.
  - pose proof (process_pages_result pages ef s) as Hres.
    pose proof (process_pages_store pages ef s) as [Hst Haf].
    destruct (process_pages pages ef s) as [s' [e|[]]]; simpl in *.
    + unfold modify. f_equal. rewrite <- (rollback_no_pending s Hs).
      unfold rollback. by rewrite Hst, Haf.
    + destruct Hres as [Hres _]. rewrite Hres in Hfail; done.
  - unfold modify. by rewrite (rollback_no_pending s Hs).
Qed.

(** X19: a document whose reading raises, be it at its opening, at the
    recognition of a page or at the conversion of a measurement, leaves
    the session exactly as it was when nothing was waiting: the findings
    of its earlier pages are rolled back with it. *)
Theorem failing_document_leaves_no_trace pdf_dir ef s content :
  no_pending s ->
  pdf_dir !! filename ef = Some content ->
  match fitz_open content with
  | None => True
  | Some pages => pages_ok pages = false
  end ->
  process_pdf pdf_dir ef s = (s, inr tt).
Proof. apply failing_document_unchanged. Qed.

Lemma existing_dr_of_has enc s : has_dr enc (store s) = true -> existing_dr enc s = true.
Proof. intros Hh. unfold existing_dr. unfold has_dr in Hh. by rewrite Hh. Qed.

Lemma existing_gl_of_has enc s : has_gl enc (store s) = true -> existing_gl enc s = true.
Proof. intros Hh. unfold existing_gl. unfold has_gl in Hh. by rewrite Hh. Qed.

(** A page whose findings are stored leaves the session alone. *)
Lemma extract_page_covered text ef s :
  (Str.contains "Diabetic Retinopathy Report" text = true ->
   is_Some (dr_result_of text) -> has_dr (patient_encounter_id ef) (store s) = true) ->
  (Str.contains "Glaucoma Screening Report" text = true ->
   has_gl (patient_encounter_id ef) (store s) = true) ->
  (Str.contains "Glaucoma Screening Report" text = true ->
   exists v, snd (glaucoma_fields text tt) = inr v) ->
  extract_page text ef s = (s, inr tt).
Proof.
  intros Hdr Hgl Hok. unfold extract_page, bind.
  assert ((if Str.contains "Diabetic Retinopathy Report" text
           then extract_dr_data text ef else ret tt) s = (s, inr tt)) as ->.
  { destruct (Str.contains "Diabetic Retinopathy Report" text); [|done].
    unfold extract_dr_data, bind, get.
    destruct (dr_result_of text) as [r|] eqn:Hr; [|done]. simpl.
    by rewrite (existing_dr_of_has _ _ (Hdr eq_refl ltac:(eauto))). }
  destruct (Str.contains "Glaucoma Screening Report" text); [|done].
  destruct (Hok eq_refl) as [v Hv].
  unfold extract_glaucoma_data, bind.
  pose proof (glaucoma_fields_state text s) as Hst.
  pose proof (glaucoma_fields_result text s) as Hres.
  destruct (glaucoma_fields text s) as [s' [e|[[r l] res]]]; simpl in *; subst s';
    [congruence|].
  unfold get. by rewrite (existing_gl_of_has _ _ (Hgl eq_refl)).
Qed.

Lemma process_pages_covered pages ef s :
  pages_ok pages = true ->
  Forall (page_needs (has_dr (patient_encounter_id ef) (store s) = true)
            (has_gl (patient_encounter_id ef) (store s) = true)) pages ->
  process_pages pages ef s = (s, inr tt).
Proof.
  induction pages as [|page pages IH]; [done|].
  cbn [pages_ok forallb]. intros Hok Hall.
  apply andb_true_iff in Hok as [Hpage Hok]. apply Forall_cons in Hall as [Hneed Hall].
  cbn [process_pages]. unfold bind, require. unfold page_ok in Hpage. unfold page_needs in Hneed.
  destruct (image_to_string page) as [text|]; [|done]. simpl.
  destruct Hneed as [Hdr Hgl].
  rewrite (extract_page_covered text ef s Hdr Hgl).
  - by apply IH.
  - intros Ht. rewrite Ht in Hpage.
    destruct (snd (glaucoma_fields text tt)); [done|eauto].
Qed.

(** A document whose findings are all stored leaves the session as it
    was. *)
Lemma covered_document_unchanged pdf_dir ef s :
  no_pending s -> doc_covered pdf_dir (store s) ef ->
  process_pdf pdf_dir ef s = (s, inr tt).
Proof.
  intros Hs Hcov. unfold doc_covered in Hcov.
  destruct (pdf_dir !! filename ef) as [content|] eqn:Hfile;
    [|unfold process_pdf; by rewrite Hfile].
  destruct (fitz_open content) as [pages|] eqn:Hopen;
    [|eapply failing_document_unchanged; [done..|by rewrite Hopen]].
  destruct (pages_ok pages) eqn:Hok;
    [|eapply failing_document_unchanged; [done..|by rewrite Hopen]].
  unfold process_pdf. rewrite Hfile. unfold try_except, bind, require.
  rewrite Hopen. simpl. rewrite (process_pages_covered pages ef s Hok (Hcov eq_refl)).
  unfold modify. by rewrite (commit_no_pending s Hs).
Qed.

End DocumentFacts.

Lemma dr_rows_has enc k l :
  existsb (fun r : nat * string => fst r =? enc) l = true ->
  existsb (fun r => dr_patient_encounter_id r =? enc) (dr_rows k l) = true.
Proof.
  revert k. induction l as [|[e res] l IH]; simpl; intros k; [done|].
  destruct (e =? enc); simpl; [done|]. apply IH.
Qed.

Lemma gl_rows_has enc k l :
  existsb (fun r : nat * option Q * option Q * string => fst (fst (fst r)) =? enc) l
  = true ->
  existsb (fun r => gl_patient_encounter_id r =? enc) (gl_rows k l) = true.
Proof.
  revert k. induction l as [|[[[e r] lf] res] l IH]; simpl; intros k; [done|].
  destruct (e =? enc); simpl; [done|]. apply IH.
Qed.

Lemma commit_has_dr enc s : dr_in_session enc s -> has_dr enc (store (commit s)) = true.
Proof.
  unfold has_dr, commit. simpl. rewrite existsb_app. intros [Hs|Hp].
  - unfold has_dr in Hs. by rewrite Hs.
  - by rewrite (dr_rows_has _ _ _ Hp), orb_true_r.
Qed.

Lemma commit_has_gl enc s : gl_in_session enc s -> has_gl enc (store (commit s)) = true.
Proof.
  unfold has_gl, commit. simpl. rewrite existsb_app. intros [Hs|Hp].
  - unfold has_gl in Hs. by rewrite Hs.
  - by rewrite (gl_rows_has _ _ _ Hp), orb_true_r.
Qed.

Lemma has_dr_appended enc d s :
  reports_appended d s -> has_dr enc d = true -> has_dr enc (store s) = true.
Proof.
  intros (_ & _ & _ & [k Hk] & _) Hh. unfold has_dr in *.
  by rewrite Hk, existsb_app, Hh.
Qed.

Lemma has_gl_appended enc d s :
  reports_appended d s -> has_gl enc d = true -> has_gl enc (store s) = true.
Proof.
  intros (_ & _ & _ & _ & [k Hk]) Hh. unfold has_gl in *.
  by rewrite Hk, existsb_app, Hh.
Qed.

Section Idempotent.
Context `{OcrRuntime}.

Lemma page_needs_impl (D G D' G' : Prop) page :
  (D -> D') -> (G -> G') -> page_needs D G page -> page_needs D' G' page.
Proof.
  intros HD HG. unfold page_needs. destruct (image_to_string page); [|done].
  intros [Hd Hg]. split; auto.
Qed.

Lemma dr_in_session_add_dr enc s r : dr_in_session enc s -> dr_in_session enc (add_dr r s).
Proof.
  intros [Hs|Hp]; [by left|right]. simpl. by rewrite existsb_app, Hp.
Qed.

Lemma gl_in_session_add_gl enc s r : gl_in_session enc s -> gl_in_session enc (add_gl r s).
Proof.
  intros [Hs|Hp]; [by left|right]. simpl. by rewrite existsb_app, Hp.
Qed.

Lemma dr_in_session_add_gl enc s r : dr_in_session enc s -> dr_in_session enc (add_gl r s).
Proof. by intros [Hs|Hp]; [left|right]. Qed.

Lemma gl_in_session_add_dr enc s r : gl_in_session enc s -> gl_in_session enc (add_dr r s).
Proof. by intros [Hs|Hp]; [left|right]. Qed.

Lemma extract_dr_data_in_session text ef s r :
  dr_result_of text = Some r ->
  dr_in_session (patient_encounter_id ef) (fst (extract_dr_data text ef s)).
Proof.
  intros Hr. unfold extract_dr_data, bind, get. rewrite Hr. simpl.
  destruct (existing_dr (patient_encounter_id ef) s) eqn:E; simpl.
  - unfold existing_dr in E. apply orb_true_iff in E as [E|E]; [by left|].
    apply andb_true_iff in E as [_ E]. by right.
  - right. simpl. rewrite existsb_app. simpl. by rewrite Nat.eqb_refl, orb_true_r.
Qed.

Lemma extract_glaucoma_data_in_session text ef s s1 :
  extract_glaucoma_data text ef s = (s1, inr tt) ->
  gl_in_session (patient_encounter_id ef) s1.
Proof.
  unfold extract_glaucoma_data, bind.
  pose proof (glaucoma_fields_state text s) as Hst.
  destruct (glaucoma_fields text s) as [s' [e|[[r l] res]]]; simpl in Hst; subst s';
    [done|].
  unfold get.
  destruct (existing_gl (patient_encounter_id ef) s) eqn:E; intros [= <-].
  - unfold existing_gl in E. apply orb_true_iff in E as [E|E]; [by left|].
    apply andb_true_iff in E as [_ E]. by right.
  - right. simpl. rewrite existsb_app. simpl. by rewrite Nat.eqb_refl, orb_true_r.
Qed.

Lemma extract_page_in_session text ef s s1 :
  extract_page text ef s = (s1, inr tt) ->
  (Str.contains "Diabetic Retinopathy Report" text = true ->
   is_Some (dr_result_of text) -> dr_in_session (patient_encounter_id ef) s1)
  /\ (Str.contains "Glaucoma Screening Report" text = true ->
      gl_in_session (patient_encounter_id ef) s1).
Proof.
  unfold extract_page, bind.
  destruct ((if Str.contains "Diabetic Retinopathy Report" text
             then extract_dr_data text ef else ret tt) s) as [sa [e|[]]] eqn:Ea; [done|].
  intros Hg. split.
  - intros Ht [r Hr]. rewrite Ht in Ea.
    pose proof (extract_dr_data_in_session text ef s r Hr) as Hin. rewrite Ea in Hin.
    simpl in Hin.
    destruct (Str.contains "Glaucoma Screening Report" text); [|by injection Hg as <-].
    assert (preserves (dr_in_session (patient_encounter_id ef))
              (extract_glaucoma_data text ef)) as Hk.
    { apply extract_glaucoma_data_inv. intros s0 e0 r0 l0 res0 Hs0 _.
      by apply dr_in_session_add_gl. }
    specialize (Hk sa Hin). by rewrite Hg in Hk.
  - intros Ht. rewrite Ht in Hg. by eapply extract_glaucoma_data_in_session.
Qed.

Lemma process_pages_in_session pages ef s s2 :
  process_pages pages ef s = (s2, inr tt) ->
  Forall (page_needs (dr_in_session (patient_encounter_id ef) s2)
            (gl_in_session (patient_encounter_id ef) s2)) pages.
Proof.
  revert s. induction pages as [|page pages IH]; intros s; [done|].
  cbn [process_pages]. unfold bind, require.
  destruct (image_to_string page) as [text|] eqn:Hocr; [|done]. simpl.
  destruct (extract_page text ef s) as [s1 [e|[]]] eqn:Hpage; [done|].
  intros Hrest. apply Forall_cons. split; [|by eapply IH].
  unfold page_needs. rewrite Hocr.
  apply extract_page_in_session in Hpage as [Hdr Hgl].
  assert (preserves (dr_in_session (patient_encounter_id ef)) (process_pages pages ef))
    as Hkd.
  { apply process_pages_inv.
    - intros s0 e0 r0 Hs0 _. by apply dr_in_session_add_dr.
    - intros s0 e0 r0 l0 res0 Hs0 _. by apply dr_in_session_add_gl. }
  assert (preserves (gl_in_session (patient_encounter_id ef)) (process_pages pages ef))
    as Hkg.
  { apply process_pages_inv.
    - intros s0 e0 r0 Hs0 _. by apply gl_in_session_add_dr.
    - intros s0 e0 r0 l0 res0 Hs0 _. by apply gl_in_session_add_gl. }
  specialize (Hkd s1). specialize (Hkg s1). rewrite Hrest in Hkd, Hkg. simpl in *.
  split; auto.
Qed.

(** Once a document has been gone through, the store holds every
    finding it can give. *)
Lemma process_pdf_covers pdf_dir ef s :
  doc_covered pdf_dir (store (fst (process_pdf pdf_dir ef s))) ef.
Proof.
  unfold doc_covered.
  destruct (pdf_dir !! filename ef) as [content|] eqn:Hfile; [|done].
  destruct (fitz_open content) as [pages|] eqn:Hopen; [|done].
  intros Hok. unfold process_pdf. rewrite Hfile. unfold try_except, bind, require.
  rewrite Hopen. simpl.
  pose proof (proj2 (process_pages_result pages ef s) Hok) as Hres.
  destruct (process_pages pages ef s) as [s2 [e|[]]] eqn:Hrun; [done|]. simpl.
  apply process_pages_in_session in Hrun.
  eapply Forall_impl; [exact Hrun|]. intros page.
  apply page_needs_impl; [apply commit_has_dr|apply commit_has_gl].
Qed.

Lemma reports_appended_refl s : reports_appended (store s) s.
Proof. repeat split; try done; exists []; by rewrite app_nil_r. Qed.

Lemma process_pdfs_appended pdf_dir all_pdfs s :
  reports_appended (store s) (fst (process_pdfs pdf_dir all_pdfs s)).
Proof.
  apply (process_pdfs_inv (reports_appended (store s)));
    [by intros ? ? ? ?|by intros ? ? ? ? ? ?|apply reports_appended_commit
    |by intros ? ?|apply reports_appended_refl].
Qed.

Lemma doc_covered_appended pdf_dir d s ef :
  reports_appended d s -> doc_covered pdf_dir d ef -> doc_covered pdf_dir (store s) ef.
Proof.
  intros Happ. unfold doc_covered.
  destruct (pdf_dir !! filename ef) as [content|]; [|done].
  destruct (fitz_open content) as [pages|]; [|done].
  intros Hcov Hok. eapply Forall_impl; [exact (Hcov Hok)|]. intros page.
  apply page_needs_impl; [by apply has_dr_appended|by apply has_gl_appended].
Qed.

Lemma process_pdfs_cover pdf_dir all_pdfs s :
  Forall (doc_covered pdf_dir (store (fst (process_pdfs pdf_dir all_pdfs s)))) all_pdfs.
Proof.
  revert s. induction all_pdfs as [|ef rest IH]; intros s; [done|].
  cbn [process_pdfs]. unfold bind.
  pose proof (process_pdf_covers pdf_dir ef s) as Hcov.
  pose proof (process_pdf_returns pdf_dir ef s) as Hret.
  destruct (process_pdf pdf_dir ef s) as [s1 r]. simpl in *. subst r.
  apply Forall_cons. split; [|apply IH].
  eapply doc_covered_appended; [apply process_pdfs_appended|done].
Qed.

Lemma process_pdfs_fixed pdf_dir all_pdfs s :
  no_pending s -> Forall (doc_covered pdf_dir (store s)) all_pdfs ->
  process_pdfs pdf_dir all_pdfs s = (s, inr tt).
Proof.
  intros Hs. induction all_pdfs as [|ef rest IH]; [done|].
  intros Hall. apply Forall_cons in Hall as [Hef Hall].
  cbn [process_pdfs]. unfold bind.
  rewrite (covered_document_unchanged pdf_dir ef s Hs Hef). by apply IH.
Qed.

(** X20: a second run of the OCR script over the same documents adds
    nothing: the store after two runs is the store after one. *)
Theorem ocr_second_run_adds_nothing pdf_dir d :
  ocr_main pdf_dir (ocr_main pdf_dir d) = ocr_main pdf_dir d.
Proof.
  unfold ocr_main, process_pdf_files.
  destruct (negb OCR_ENABLED) eqn:Hen; [done|]. unfold bind, get. cbn [store Session_of].
  set (L := List.filter (fun f => String.eqb (file_type f) "pdf") (encounter_files d)).
  pose proof (process_pdfs_cover pdf_dir L (Session_of d)) as Hcov.
  pose proof (process_pdfs_appended pdf_dir L (Session_of d)) as Happ.
  pose proof (proj2 (process_pdfs_returns pdf_dir L (Session_of d))) as Hpend.
  assert (autoflush (fst (process_pdfs pdf_dir L (Session_of d))) = true) as Haf.
  { apply (process_pdfs_inv (fun s => autoflush s = true)); done. }
  destruct (process_pdfs pdf_dir L (Session_of d)) as [s1 r1]. simpl in *.
  destruct Happ as (_ & _ & Hfiles & _). rewrite Hfiles. fold L.
  specialize (Hpend ltac:(done)).
  assert (Session_of (store s1) = s1) as ->.
  { destruct s1 as [af d1 nd ng]. destruct Hpend as [Hd Hg]. simpl in *. by subst. }
  by rewrite (process_pdfs_fixed pdf_dir L s1 Hpend Hcov).
Qed.

End Idempotent.

(** ** The reset script *)

Lemma move_files_lookup listing src dest k :
  (fst (move_files listing src dest) !! k
   = if bool_decide (k ∈ listing) then None else src !! k)
  /\ (snd (move_files listing src dest) !! k
      = if bool_decide (k ∈ listing)
        then match src !! k with Some data => Some data | None => dest !! k end
        else dest !! k).
Proof.
  revert src dest. induction listing as [|x listing IH]; intros src dest.
  - rewrite (bool_decide_eq_false_2 (k ∈ [])) by apply not_elem_of_nil. done.
  - cbn [move_files].
    destruct (decide (k = x)) as [->|Hne].
    + rewrite (bool_decide_eq_true_2 (x ∈ x :: listing)) by apply list_elem_of_here.
      destruct (src !! x) as [data|] eqn:Hx.
      * destruct (IH (delete x src) (<[x := data]> dest)) as [-> ->].
        rewrite lookup_delete_eq, lookup_insert_eq. split; by case_bool_decide.
      * destruct (IH src dest) as [-> ->]. rewrite Hx. split; by case_bool_decide.
    + assert (bool_decide (k ∈ x :: listing) = bool_decide (k ∈ listing)) as ->.
      { apply bool_decide_ext. rewrite elem_of_cons. split; [by intros [?|?]|by right]. }
      destruct (src !! x) as [data|] eqn:Hx.
      * destruct (IH (delete x src) (<[x := data]> dest)) as [-> ->].
        by rewrite lookup_delete_ne, lookup_insert_ne.
      * by destruct (IH src dest) as [-> ->].
Qed.

Lemma move_files_all listing src dest :
  (forall k, is_Some (src !! k) -> k ∈ listing) ->
  move_files listing src dest = (∅, src ∪ dest).
Proof.
  intros Hall.
  destruct (move_files listing src dest) as [s' d'] eqn:E.
  f_equal; apply map_eq; intros k;
    pose proof (move_files_lookup listing src dest k) as [H1 H2];
    rewrite E in H1, H2; simpl in H1, H2.
  - rewrite H1, lookup_empty. case_bool_decide as Hk; [done|].
    destruct (src !! k) eqn:Hs; [|done]. exfalso. apply Hk, Hall. eauto.
  - rewrite H2. rewrite lookup_union.
    case_bool_decide as Hk.
    + destruct (src !! k), (dest !! k); done.
    + destruct (src !! k) eqn:Hs; [exfalso; apply Hk, Hall; eauto|].
      by destruct (dest !! k).
Qed.

Lemma initiaze_all listing w :
  (forall k, is_Some (PROCESSED_DIR w !! k) -> k ∈ listing) ->
  initiaze listing w
  = mkWorld empty_db (PROCESSED_DIR w ∪ UPLOAD_DIR w) (IMAGE_DIR w) (PDF_DIR w) ∅
      (PROCESSING_ERROR_DIR w).
Proof. intros Hall. unfold initiaze. by rewrite (move_files_all _ _ _ Hall). Qed.

(** X21: when the listing holds every file of the processed directory,
    in any order, the reset leaves that directory empty, puts each of
    its archives into the upload directory, where it replaces a file of
    the same name, empties the store, and leaves the extracted files and
    the error directory where they are. *)
Theorem reset_moves_processed_back listing w :
  (forall k, is_Some (PROCESSED_DIR w !! k) -> k ∈ listing) ->
  initiaze listing w
  = mkWorld empty_db (PROCESSED_DIR w ∪ UPLOAD_DIR w) (IMAGE_DIR w) (PDF_DIR w) ∅
      (PROCESSING_ERROR_DIR w).
Proof. apply initiaze_all. Qed.

Section ResetFacts.
Context `{Runtime}.

Lemma body_commits zname content md5 w members dir name pid date w2 files d :
  zip_infolist content = Some members ->
  find_dir_in_zip (map zi_filename members) = Some dir ->
  parse_dir_name (PurePath.name dir) = Some (name, pid, date) ->
  extract_members dir pid name date members [] w = (w2, inr files) ->
  commit_archive (db w2) zname md5 name pid date files = Some d ->
  try_body zname content md5 w
  = (mkWorld d (delete zname (UPLOAD_DIR w2)) (IMAGE_DIR w2) (PDF_DIR w2)
       (<[zname := content]> (PROCESSED_DIR w2)) (PROCESSING_ERROR_DIR w2),
     inr Processed).
Proof.
  intros Hz Hd Hp He Hc. unfold try_body, bind, require, get.
  rewrite Hz. simpl. rewrite Hd. simpl. rewrite Hp. simpl. rewrite He. simpl.
  by rewrite Hc.
Qed.

End ResetFacts.

Lemma find_dir_agree (R1 R2 : Runtime) namelist q :
  (forall n, In n namelist ->
     scan_prefixes (PurePath.parent (PurePath.Path n)) = None
     \/ scan_prefixes (PurePath.parent (PurePath.Path n)) = Some q) ->
  @find_dir_in_zip R1 namelist = Some q ->
  @find_dir_in_zip R2 namelist = Some q.
Proof.
  intros Hall H1.
  destruct (@find_dir_in_zip R2 namelist) as [q2|] eqn:E2.
  - apply (found_dir_from_member (H := R2)) in E2 as (n & Hn & Hq2).
    destruct (Hall n Hn); congruence.
  - pose proof (proj1 (find_dir_none_iff (H := R2) namelist) E2) as Hnone.
    apply (found_dir_from_member (H := R1)) in H1 as (n & Hn & Hq1).
    rewrite (Hnone n Hn) in Hq1. done.
Qed.

Lemma extractable_same (R1 R2 : Runtime) dir pid name date m :
  same_libraries R1 R2 ->
  @extractable R1 dir pid name date m -> @extractable R2 dir pid name date m.
Proof.
  intros (_ & _ & Hfs) Hm d k Hsel. destruct (Hm d k Hsel) as [Hr Hc].
  split; [done|]. by rewrite <- Hfs.
Qed.

(** X22: a reset followed by a new run of the archive script, a process
    of its own that may enumerate the set of directories in another
    order. An archive that had been processed is not skipped by the new
    run, which ends processed or failed. When every directory of the
    archive that has a qualifying prefix gives the same one, the new run
    processes the archive, and the store then holds this archive alone,
    with the encounter parsed from that directory and one file row per
    member taken, keyed from 1. *)
Theorem reset_then_processed_again (R1 R2 : Runtime) listing zname content w w1 :
  same_libraries R1 R2 ->
  UPLOAD_DIR w !! zname = Some content ->
  @process_zip_file R1 zname w = (w1, inr Processed) ->
  (forall k, is_Some (PROCESSED_DIR w1 !! k) -> k ∈ listing) ->
  (exists w3 o,
     @process_zip_file R2 zname (initiaze listing w1) = (w3, inr o) /\ o <> Skipped)
  /\ forall members dir,
       @zip_infolist R1 content = Some members ->
       (forall n, In n (map zi_filename members) ->
          scan_prefixes (PurePath.parent (PurePath.Path n)) = None
          \/ scan_prefixes (PurePath.parent (PurePath.Path n)) = Some dir) ->
       exists w3 name pid date,
         parse_dir_name (PurePath.name dir) = Some (name, pid, date)
         /\ @process_zip_file R2 zname (initiaze listing w1) = (w3, inr Processed)
         /\ db w3 = mkDB [mkZipFile 1 zname (@calculate_md5 R2 content)]
                      [mkPatientEncounters 1 1 name pid date]
                      (file_rows 1 1 (records_of dir pid name date members)) [] [].
Proof.
  intros Hsame Hup Hrun Hlist.
  apply (process_result (H := R1)) in Hrun
    as [(_ & _ & [=])|[(c & _ & _ & _ & [=])|[(c & wx & e & _ & _ & _ & _ & [=])
       |(c & Hc & Hrec & Hb & _)]]].
  assert (c = content) as -> by congruence.
  inversion Hb as [| | | | |members dir name pid date w2 files d Hz Hd Hp He Hcm]; subst.
  rewrite (initiaze_all listing _ Hlist). cbn [PROCESSED_DIR UPLOAD_DIR IMAGE_DIR PDF_DIR].
  set (w0 := mkWorld empty_db _ _ _ _ _).
  assert (Hup0 : UPLOAD_DIR w0 !! zname = Some content).
  { unfold w0. cbn [UPLOAD_DIR]. apply lookup_union_Some_l, lookup_insert_eq. }
  assert (Hrec0 : existsb (fun z => String.eqb (md5_hash z) (@calculate_md5 R2 content))
                    (zip_files (db w0)) = false) by done.
  split.
  - destruct (@process_zip_file R2 zname w0) as [w3 r] eqn:Hrun2.
    apply (process_result (H := R2)) in Hrun2
      as [(Hno & _)|[(c & Hc2 & Hrec2 & _)|[(c & wx & e & _ & _ & _ & _ & ->)
         |(c & _ & _ & _ & ->)]]].
    + congruence.
    + assert (c = content) as -> by congruence.
      unfold is_recorded in Hrec2. congruence.
    + by exists w3, (Failed e).
    + by exists w3, Processed.
  - intros members' dir' Hz' Hall.
    assert (members' = members) as -> by congruence.
    assert (dir = dir') as ->.
    { apply (found_dir_from_member (H := R1)) in Hd as Hd'.
      destruct Hd' as (n & Hn & Hq). destruct (Hall n Hn); congruence. }
    destruct Hsame as (Hmd5 & Hzip & Hfs).
    assert (Hz2 : @zip_infolist R2 content = Some members) by (by rewrite <- Hzip).
    pose proof (find_dir_agree R1 R2 _ _ Hall Hd) as Hd2.
    destruct (proj2 (proj1 (extract_members_spec (H := R2) dir' pid name date members
                              [] w0)))
      as (w4 & files4 & He4).
    { eapply Forall_impl;
        [apply (proj1 (extract_members_spec (H := R1) dir' pid name date members [] w));
         eauto|].
      intros m Hm. by apply (extractable_same R1 R2). }
    pose proof (proj2 (extract_members_spec (H := R2) dir' pid name date members [] w0)
                  _ _ He4) as Hfiles.
    simpl in Hfiles. subst files4.
    pose proof (extract_members_only _ _ _ _ _ _ _ _ _ He4) as (Hdb4 & _).
    assert (Hcm4 : commit_archive (db w4) zname (@calculate_md5 R2 content) name pid date
                     (records_of dir' pid name date members)
                   = Some (mkDB [mkZipFile 1 zname (@calculate_md5 R2 content)]
                             [mkPatientEncounters 1 1 name pid date]
                             (file_rows 1 1 (records_of dir' pid name date members))
                             [] []))
      by (by rewrite Hdb4).
    eexists _, name, pid, date. split; [done|]. split.
    + rewrite (process_unfold (H := R2) _ _ _ Hup0 Hrec0).
      by rewrite (body_commits (H := R2) _ _ _ _ _ _ _ _ _ _ _ _ Hz2 Hd2 Hp He4 Hcm4).
    + done.
Qed.

(** ** A segment with three parts *)

Lemma prefix_text_count d i p :
  PurePath.parts d !! i = Some p ->
  count_char "_" p <= count_char "_" (prefix_text d i).
Proof.
  intros Hp. destruct i as [|j].
  - unfold prefix_text. destruct (PurePath.parts d) as [|x l]; [done|].
    simpl in Hp. injection Hp as ->. done.
  - rewrite (prefix_text_S _ _ _ Hp), !count_char_app. lia.
Qed.

(** X23: an archive one of whose directories has a part that alone
    splits on underscores into three parts or more is never rejected for
    want of a directory: some directory is found. *)
Theorem segment_with_three_parts_is_found `{Runtime} namelist n i p :
  In n namelist ->
  PurePath.parts (PurePath.parent (PurePath.Path n)) !! i = Some p ->
  3 <= length (Str.split "_" p) ->
  is_Some (find_dir_in_zip namelist).
Proof.
  intros Hn Hp Hlen. rewrite split_length in Hlen.
  destruct (find_dir_in_zip namelist) as [q|] eqn:E; [eauto|].
  pose proof (proj1 (find_dir_none_iff namelist) E n Hn) as Hscan.
  pose proof (proj1 (scan_prefixes_none_count _) Hscan i (lookup_lt_Some _ _ _ Hp)) as Hc.
  pose proof (prefix_text_count _ _ _ Hp). lia.
Qed.

(** ** The shape of a diagnostic result *)

Lemma rstrip_by_lstrip p s :
  Str.lstrip_by p s = s -> Str.lstrip_by p (Str.rstrip_by p s) = Str.rstrip_by p s.
Proof.
  destruct s as [|c s]; [done|]. simpl.
  destruct (p c) eqn:E.
  - intros Hs. exfalso.
    assert (String.length (Str.lstrip_by p s) <= String.length s) as Hle.
    { clear. induction s as [|a s IH]; simpl; [done|]. destruct (p a); simpl; lia. }
    rewrite Hs in Hle. simpl in Hle. lia.
  - intros _. destruct (Str.rstrip_by p s); simpl; by rewrite E.
Qed.

Lemma split_head_lstrip p c s :
  p c = true -> Str.lstrip_by p s = s ->
  Str.lstrip_by p (hd "" (Str.split c s)) = hd "" (Str.split c s).
Proof.
  intros Hc. destruct s as [|a s]; [done|]. simpl.
  destruct (p a) eqn:Ea.
  - intros Hs. exfalso.
    assert (String.length (Str.lstrip_by p s) <= String.length s) as Hle.
    { clear. induction s as [|b s IH]; simpl; [done|]. destruct (p b); simpl; lia. }
    rewrite Hs in Hle. simpl in Hle. lia.
  - intros _. destruct (Ascii.eqb a c) eqn:Eac.
    + apply Ascii.eqb_eq in Eac as ->. congruence.
    + destruct (Str.split c s); simpl; by rewrite Ea.
Qed.

(** X24: the diagnostic result read off a page is one line: it holds no
    line feed and does not begin with whitespace. *)
Theorem diagnostic_result_is_one_clean_line text result :
  dr_result_of text = Some result ->
  Str.has_char "010" result = false
  /\ Str.lstrip_by Str.isspace result = result.
Proof.
  unfold dr_result_of. destruct (Re.search_rest "Result DR:" text) as [g|]; [|done].
  intros [= <-]. split.
  - apply split_no_sep with (s := Str.strip g).
    pose proof (split_length "010" (Str.strip g)) as Hl.
    destruct (Str.split "010" (Str.strip g)); [simpl in Hl; lia|by left].
  - apply split_head_lstrip; [done|].
    unfold Str.strip. apply rstrip_by_lstrip, lstrip_by_idem.
Qed.

(** ** Whose findings *)

(** As [SessionSteps], for a property kept when the finding added is for
    the encounter of a document that satisfies [P]. *)
Section SessionStepsFor.
Context `{OcrRuntime}.
Variable I : Session -> Prop.
Variable P : EncounterFile -> Prop.
Hypothesis I_add_dr : forall s ef result,
  P ef -> I s -> I (add_dr (patient_encounter_id ef, result) s).
Hypothesis I_add_gl : forall s ef r l res,
  P ef -> I s -> I (add_gl (patient_encounter_id ef, r, l, res) s).
Hypothesis I_commit : forall s, I s -> I (commit s).
Hypothesis I_rollback : forall s, I s -> I (rollback s).

Lemma extract_page_for text ef : P ef -> preserves I (extract_page text ef).
Proof.
  intros Hef. unfold extract_page. apply preserves_bind.
  - destruct (Str.contains _ _); [|apply preserves_ret].
    intros s Hs. unfold extract_dr_data, bind, get.
    destruct (dr_result_of text) as [result|]; [|done]. simpl.
    destruct (existing_dr (patient_encounter_id ef) s); [done|]. by apply I_add_dr.
  - intros _. destruct (Str.contains _ _); [|apply preserves_ret].
    intros s Hs. unfold extract_glaucoma_data, bind.
    pose proof (glaucoma_fields_state text s) as Hg.
    destruct (glaucoma_fields text s) as [s' [e|[[r l] res]]]; simpl in Hg; subst s';
      [done|].
    unfold get. destruct (existing_gl _ s); [done|]. by apply I_add_gl.
Qed.

Lemma process_pages_for pages ef : P ef -> preserves I (process_pages pages ef).
Proof.
  intros Hef. induction pages as [|page pages IH]; simpl;
    auto 6 using extract_page_for with preserves.
Qed.

Lemma process_pdf_for pdf_dir ef :
  (is_Some (pdf_dir !! filename ef) -> P ef) -> preserves I (process_pdf pdf_dir ef).
Proof.
  intros Hef. unfold process_pdf.
  destruct (pdf_dir !! filename ef); [|apply preserves_ret].
  auto 8 using process_pages_for with preserves.
Qed.

Lemma process_pdfs_for pdf_dir all_pdfs :
  Forall (fun ef => is_Some (pdf_dir !! filename ef) -> P ef) all_pdfs ->
  preserves I (process_pdfs pdf_dir all_pdfs).
Proof.
  induction 1 as [|ef rest Hef _ IH]; simpl;
    auto using process_pdf_for with preserves.
Qed.

End SessionStepsFor.

Lemma dr_rows_in k l r :
  In r (dr_rows k l) -> exists res, In (dr_patient_encounter_id r, res) l.
Proof.
  revert k. induction l as [|[e res] l IH]; simpl; intros k; [done|].
  intros [<-|Hr]; [eauto|]. destruct (IH _ Hr) as [res' Hin]. eauto.
Qed.

Lemma gl_rows_in k l r :
  In r (gl_rows k l) ->
  exists a b res, In (gl_patient_encounter_id r, a, b, res) l.
Proof.
  revert k. induction l as [|[[[e a] b] res] l IH]; simpl; intros k; [done|].
  intros [<-|Hr]; [eauto 6|]. destruct (IH _ Hr) as (a' & b' & res' & Hin). eauto 6.
Qed.

(** X25: a run of the OCR script attaches findings only to encounters
    that own a document row whose file is in the document area: every
    report row after the run was there before or is for such an
    encounter. *)
Theorem findings_belong_to_documents `{OcrRuntime} pdf_dir d :
  (forall r, In r (diabetic_retinopathy_reports (ocr_main pdf_dir d)) ->
     In r (diabetic_retinopathy_reports d)
     \/ owns_document pdf_dir d (dr_patient_encounter_id r))
  /\ (forall r, In r (glaucoma_reports (ocr_main pdf_dir d)) ->
        In r (glaucoma_reports d)
        \/ owns_document pdf_dir d (gl_patient_encounter_id r)).
Proof.
  assert (Hinv : findings_from pdf_dir d (fst (process_pdf_files pdf_dir (Session_of d)))).
  { unfold process_pdf_files. destruct (negb OCR_ENABLED).
    - repeat split; simpl; auto; done.
    - unfold bind, get. cbn [store Session_of].
      apply (process_pdfs_for (findings_from pdf_dir d)
               (fun ef => In ef (encounter_files d) /\ file_type ef = "pdf"
                          /\ is_Some (pdf_dir !! filename ef))).
      + intros s ef result (Hin & Hty & Hfile) (H1 & H2 & H3 & H4).
        repeat split; simpl; auto. intros r Hr. apply in_app_or in Hr as [Hr|[<-|[]]]; auto.
        by exists ef.
      + intros s ef r l res (Hin & Hty & Hfile) (H1 & H2 & H3 & H4).
        repeat split; simpl; auto. intros x Hx. apply in_app_or in Hx as [Hx|[<-|[]]]; auto.
        by exists ef.
      + intros s (H1 & H2 & H3 & H4). repeat split; simpl; try done.
        * intros r Hr. apply in_app_or in Hr as [Hr|Hr]; [auto|].
          right. apply dr_rows_in in Hr as [res Hr]. exact (H3 _ Hr).
        * intros r Hr. apply in_app_or in Hr as [Hr|Hr]; [auto|].
          right. apply gl_rows_in in Hr as (a & b & res & Hr). exact (H4 _ Hr).
      + intros s (H1 & H2 & H3 & H4). repeat split; simpl; done.
      + apply Forall_forall. intros ef Hef Hfile.
        apply list_elem_of_In, filter_In in Hef as [Hin Hty].
        apply String.eqb_eq in Hty. done.
      + repeat split; simpl; auto; done. }
  destruct Hinv as (H1 & H2 & _). split; [exact H1|exact H2].
Qed.

(** * Closed instances *)

Lemma toy_run : process_zip_file "a.zip" toy_before = (toy_after, inr Processed).
Proof. vm_compute. reflexivity. Qed.

Lemma toy_later : later toy_before toy_after.
Proof. eapply later_process; [exact toy_run|apply later_now]. Qed.

Lemma no_directory_condition_witness :
  exists w', process_zip_file "p.zip" (toy_world "p.zip" "plain/x.jpg")
             = (w', inr (Failed (ValueError no_dir_msg))).
Proof.
  refine (proj2 (no_directory_condition "p.zip" (list_byte_of_string "plain/x.jpg")
                   [mkZipInfo "plain/x.jpg" (read_ok [x00])]
                   (toy_world "p.zip" "plain/x.jpg") _ _ _) _).
  - reflexivity.
  - reflexivity.
  - reflexivity.
  - intros n [<-|[]] i Hi. vm_compute in Hi.
    destruct i as [|i]; [vm_compute; lia|lia].
Defined.

Lemma found_directory_is_shortest_prefix_witness :
  exists n i,
    In n ["x/A_1_2020/s.jpg"]
    /\ i < length (PurePath.parts (PurePath.parent (PurePath.Path n)))
    /\ PurePath.Path "x/A_1_2020"
       = PurePath.Path (prefix_text (PurePath.parent (PurePath.Path n)) i)
    /\ 2 <= count_char "_" (prefix_text (PurePath.parent (PurePath.Path n)) i)
    /\ forall j, j < i ->
         count_char "_" (prefix_text (PurePath.parent (PurePath.Path n)) j) < 2.
Proof.
  apply (found_directory_is_shortest_prefix ["x/A_1_2020/s.jpg"]
           (PurePath.Path "x/A_1_2020")).
  vm_compute. reflexivity.
Defined.

Lemma find_dir_order_independent_witness :
  @find_dir_in_zip toy_runtime ["A_1_2020/x.jpg"; "A_1_2020/sub/y.jpg"; "z.jpg"]
  = @find_dir_in_zip toy_runtime_rev ["A_1_2020/x.jpg"; "A_1_2020/sub/y.jpg"; "z.jpg"].
Proof.
  apply (proj2 (find_dir_order_independent toy_runtime toy_runtime_rev
                  ["A_1_2020/x.jpg"; "A_1_2020/sub/y.jpg"; "z.jpg"])
           (PurePath.Path "A_1_2020")).
  intros n [<-|[<-|[<-|[]]]]; [right|right|left]; vm_compute; reflexivity.
Defined.

Lemma found_directory_always_parses_witness :
  exists lead pid date,
    Str.split "_" (PurePath.name (PurePath.Path "x/A_B_1_2020"))
    = lead ++ [pid; date]
    /\ parse_dir_name (PurePath.name (PurePath.Path "x/A_B_1_2020"))
       = Some (Str.join " " lead, pid, date).
Proof.
  apply (proj1 found_directory_always_parses ["x/A_B_1_2020/s.jpg"]
           (PurePath.Path "x/A_B_1_2020")).
  vm_compute. reflexivity.
Defined.

Lemma parse_dir_name_round_trip_witness :
  parse_dir_name (Str.join "_" (["Ann"; "Lee"] ++ ["77"; "20230412"]))
  = Some (Str.join " " ["Ann"; "Lee"], "77", "20230412").
Proof.
  apply parse_dir_name_round_trip; [|reflexivity].
  repeat constructor.
Defined.

Lemma extraction_records_in_member_order_witness :
  let dir := PurePath.Path "A_1_2020" in
  let ms := [mkZipInfo "A_1_2020/b.pdf" (read_ok [x01]);
             mkZipInfo "A_1_2020/a.jpg" (read_ok [x02])] in
  exists w',
    extract_members dir "1" "A" "2020" ms [] (toy_world "a.zip" "")
    = (w', inr ([] ++ records_of dir "1" "A" "2020" ms)).
Proof.
  intros dir ms.
  destruct (extraction_records_in_member_order dir "1" "A" "2020" ms []
              (toy_world "a.zip" "")) as [Hex Hfiles].
  - repeat constructor; discriminate.
  - destruct (proj2 Hex) as (w' & files & Hrun).
    + apply List.Forall_cons; [|apply List.Forall_cons; [|apply List.Forall_nil]];
        intros d k _; (split; [eexists; reflexivity|reflexivity]).
    + exists w'. rewrite Hrun. by rewrite (Hfiles w' files Hrun).
Defined.

Lemma extraction_last_write_wins_witness :
  let dir := PurePath.Path "A_1_2020" in
  let ms := [mkZipInfo "A_1_2020/left/scan.jpg" (read_ok [x01]);
             mkZipInfo "A_1_2020/right/scan.jpg" (read_ok [x02])] in
  IMAGE_DIR (fst (extract_members dir "1" "A" "2020" ms [] (toy_world "a.zip" "")))
    !! "1_A_2020_scan.jpg" = Some [x02].
Proof.
  intros dir ms.
  destruct (extract_members dir "1" "A" "2020" ms [] (toy_world "a.zip" ""))
    as [w' [e|files]] eqn:Hrun; [vm_compute in Hrun; discriminate|].
  change (IMAGE_DIR (fst (w', inr files))) with (area to_images w').
  rewrite (extraction_last_write_wins dir "1" "A" "2020" ms [] _ w' files
             to_images "1_A_2020_scan.jpg" Hrun).
  vm_compute. reflexivity.
Defined.

Lemma file_rows_have_files_witness : files_present toy_after.
Proof.
  apply (file_rows_have_files toy_before toy_after); [|exact toy_later].
  intros ef [].
Defined.

Lemma archive_runs_only_append_witness :
  (exists k, zip_files (db toy_after) = zip_files (db toy_before) ++ k)
  /\ (exists k, patient_encounters (db toy_after)
                = patient_encounters (db toy_before) ++ k)
  /\ (exists k, encounter_files (db toy_after)
                = encounter_files (db toy_before) ++ k)
  /\ diabetic_retinopathy_reports (db toy_after)
     = diabetic_retinopathy_reports (db toy_before)
  /\ glaucoma_reports (db toy_after) = glaucoma_reports (db toy_before).
Proof. exact (archive_runs_only_append toy_before toy_after toy_later). Defined.

Lemma store_stays_unique_witness : store_unique (db toy_after).
Proof.
  apply (store_stays_unique toy_before toy_after); [|exact toy_later].
  repeat split; constructor.
Defined.

Lemma store_stays_linked_witness : store_linked (db toy_after).
Proof.
  apply (store_stays_linked toy_before toy_after); [|exact toy_later].
  split; [exact empty_db_wf|split; intros ? []].
Defined.

Lemma recorded_name_is_never_processed_witness :
  (forall w', process_zip_file "a.zip" toy_clash <> (w', inr Processed))
  /\ exists w' e,
       process_zip_file "a.zip" toy_clash = (w', inr (Failed e))
       /\ PROCESSING_ERROR_DIR w' !! "a.zip" = Some (list_byte_of_string toy_listing).
Proof.
  destruct (recorded_name_is_never_processed "a.zip" toy_clash eq_refl)
    as [Hnever Hfails].
  split; [exact Hnever|].
  exact (Hfails (list_byte_of_string toy_listing) eq_refl eq_refl).
Defined.

Lemma main_loop_handles_every_archive_witness :
  exists w' outcomes,
    process_all ["a.zip"; "b.zip"] toy_two = (w', inr outcomes)
    /\ length outcomes = 2
    /\ Forall (fun n =>
                 match UPLOAD_DIR w' !! n with
                 | None => True
                 | Some content => is_recorded (calculate_md5 content) (db w') = true
                 end) ["a.zip"; "b.zip"].
Proof.
  apply (main_loop_handles_every_archive ["a.zip"; "b.zip"] toy_two).
  - apply (bool_decide_unpack _). vm_compute. exact I.
  - repeat constructor; eexists; vm_compute; reflexivity.
Defined.

Lemma ocr_runs_keep_one_finding_of_each_kind_witness :
  let dirs := [toy_pdf_dir (toy_dr_page +:+ ff +:+ toy_dr_page);
               toy_pdf_dir toy_gl_page; toy_pdf_dir toy_gl_page] in
  length (dr_of 1 (ocr_runs dirs (toy_store []))) <= 1
  /\ length (gl_of 1 (ocr_runs dirs (toy_store []))) <= 1.
Proof.
  intros dirs.
  apply (ocr_runs_keep_one_finding_of_each_kind dirs (toy_store [])).
  intros enc. split; apply Nat.le_0_l.
Defined.

Lemma no_second_measurement_finding_witness :
  gl_of 1 (ocr_runs [toy_pdf_dir toy_gl_page; toy_pdf_dir toy_gl_page] toy_store_gl)
  = [mkGlaucomaReport 1 1 (Some (5 # 10)) None "Suspect"].
Proof.
  refine (no_second_measurement_finding
            [toy_pdf_dir toy_gl_page; toy_pdf_dir toy_gl_page] toy_store_gl 1 _).
  discriminate.
Defined.

Lemma ocr_run_never_raises_witness :
  snd (process_pdf_files (toy_pdf_dir toy_bad_page) (Session_of (toy_store []))) = inr tt
  /\ no_pending (fst (process_pdf_files (toy_pdf_dir toy_bad_page)
                        (Session_of (toy_store [])))).
Proof.
  destruct (ocr_run_never_raises (toy_pdf_dir toy_bad_page) (Session_of (toy_store [])))
    as [Hret Hpend].
  split; [exact Hret|apply Hpend; split; reflexivity].
Defined.

Lemma failing_document_leaves_no_trace_witness :
  process_pdf (toy_pdf_dir (toy_dr_page +:+ ff +:+ toy_bad_page)) toy_ef
    (Session_of (toy_store []))
  = (Session_of (toy_store []), inr tt).
Proof.
  refine (failing_document_leaves_no_trace
            (toy_pdf_dir (toy_dr_page +:+ ff +:+ toy_bad_page)) toy_ef
            (Session_of (toy_store []))
            (list_byte_of_string (toy_dr_page +:+ ff +:+ toy_bad_page)) _ _ _).
  - split; reflexivity.
  - vm_compute. reflexivity.
  - vm_compute. reflexivity.
Defined.

Lemma findings_belong_to_documents_witness :
  In (mkDiabeticRetinopathyReport 1 1 "Severe NPDR")
     (diabetic_retinopathy_reports (toy_store []))
  \/ owns_document (toy_pdf_dir toy_dr_page) (toy_store []) 1.
Proof.
  apply (proj1 (findings_belong_to_documents (toy_pdf_dir toy_dr_page) (toy_store []))
           (mkDiabeticRetinopathyReport 1 1 "Severe NPDR")).
  vm_compute. left. reflexivity.
Defined.

Lemma reset_moves_processed_back_witness :
  initiaze ["a.zip"] toy_after
  = mkWorld empty_db (PROCESSED_DIR toy_after ∪ UPLOAD_DIR toy_after)
      (IMAGE_DIR toy_after) (PDF_DIR toy_after) ∅ (PROCESSING_ERROR_DIR toy_after).
Proof.
  apply (reset_moves_processed_back ["a.zip"] toy_after).
  intros k [v Hk]. unfold toy_after, PROCESSED_DIR in Hk.
  apply lookup_singleton_Some in Hk as [<- _].
  apply elem_of_cons; by left.
Defined.

Lemma reset_then_processed_again_witness :
  exists w3,
    @process_zip_file toy_runtime_rev "a.zip" (initiaze ["a.zip"] toy_after)
    = (w3, inr Processed)
    /\ db w3 = db toy_after.
Proof.
  destruct (reset_then_processed_again toy_runtime toy_runtime_rev ["a.zip"] "a.zip"
              (list_byte_of_string toy_listing) toy_before toy_after)
    as [_ Hagain].
  - repeat split.
  - reflexivity.
  - exact toy_run.
  - intros k [v Hk]. unfold toy_after, PROCESSED_DIR in Hk.
    apply lookup_singleton_Some in Hk as [<- _].
    apply elem_of_cons; by left.
  - destruct (Hagain [mkZipInfo toy_listing (read_ok [x00])]
                (PurePath.Path "Jane Doe_12345_20240101") eq_refl)
      as (w3 & name & pid & date & Hp & Hrun & Hdb).
    + intros n [<-|[]]. right. vm_compute. reflexivity.
    + vm_compute in Hp. injection Hp as <- <- <-.
      exists w3. split; [exact Hrun|]. rewrite Hdb. reflexivity.
Defined.

Lemma segment_with_three_parts_is_found_witness :
  is_Some (find_dir_in_zip ["x/A_1_2020/s.jpg"; "y.jpg"]).
Proof.
  apply (segment_with_three_parts_is_found
           ["x/A_1_2020/s.jpg"; "y.jpg"] "x/A_1_2020/s.jpg" 1 "A_1_2020").
  - left. reflexivity.
  - reflexivity.
  - vm_compute. lia.
Defined.

Lemma diagnostic_result_is_one_clean_line_witness :
  Str.has_char "010" "Severe NPDR" = false
  /\ Str.lstrip_by Str.isspace "Severe NPDR" = "Severe NPDR".
Proof.
  apply (diagnostic_result_is_one_clean_line
           ("Result DR:   Severe NPDR" +:+ nl +:+ "Next line")).
  vm_compute. reflexivity.
Defined.
